(** * Meeting scheduler: the calendar-invite builder and the scheduling flow

    A shallow embedding of [app.py]: the ICS builder [build_ics] with
    [to_utc], the calendar event creator [schedule_meeting] with its
    meeting-link extraction, the mail sender and the script that runs on
    form submission.  Python's [datetime], [uuid] and string formatting are
    embedded as far as the program uses them; the Google services are
    oracles held in the [world]. *)

From Stdlib Require Import ZArith List String Ascii Bool Lia.
Import ListNotations.

Local Open Scope string_scope.
Local Open Scope Z_scope.

(* ================================================================== *)
(** ** Exceptions and results *)
(* ================================================================== *)

(** The Python exceptions the program can meet.  [ApiError] stands for
    whatever a Google client raises (network, authorisation, HTTP). *)
Inductive exn : Type :=
  | TypeError
  | AttributeError
  | KeyError
  | IndexError
  | ValueError
  | OverflowError
  | ApiError (msg : string).

Inductive result (A : Type) : Type :=
  | Ok (a : A)
  | Raise (e : exn).
Arguments Ok {A} a.
Arguments Raise {A} e.

Definition rbind {A B} (r : result A) (k : A -> result B) : result B :=
  match r with
  | Ok a => k a
  | Raise e => Raise e
  end.

(* ================================================================== *)
(** ** Text formatting *)
(* ================================================================== *)

Module Fmt.

(** One digit, base 16 (and so base 10 below ten), lower case. *)
Definition digit (d : Z) : ascii :=
  if d <? 10 then ascii_of_nat (Z.to_nat (48 + d))
  else ascii_of_nat (Z.to_nat (87 + d)).

(** Exactly [n] digits of [z] in base [b], most significant first. *)
Fixpoint fixed (b : Z) (n : nat) (z : Z) : string :=
  match n with
  | O => EmptyString
  | S k => fixed b k (z / b) ++ String (digit (z mod b)) EmptyString
  end.

(** The decimal digits of a non-negative [z], without leading zeros
    (["0"] for zero); [fuel] bounds the number of digits. *)
Fixpoint dec_fuel (fuel : nat) (z : Z) : string :=
  match fuel with
  | O => EmptyString
  | S k =>
      if z <? 10 then String (digit z) EmptyString
      else dec_fuel k (z / 10) ++ String (digit (z mod 10)) EmptyString
  end.

(** [str(z)] and ["%d" % z]. *)
Definition dec (z : Z) : string :=
  if z <? 0 then "-" ++ dec_fuel 40 (- z) else dec_fuel 40 z.

(** ["%0<w>d" % z]: zero-padded on the left to at least [w] characters. *)
Fixpoint zeros (n : nat) : string :=
  match n with
  | O => EmptyString
  | S k => String "0" (zeros k)
  end.

Definition zpad (w : nat) (z : Z) : string :=
  let s := dec z in
  if z <? 0 then "-" ++ zeros (w - String.length s) ++ dec_fuel 40 (- z)
  else zeros (w - String.length s) ++ s.

(** ["%032x" % z] for [0 <= z < 2^128]. *)
Definition hex32 (z : Z) : string := fixed 16 32 z.

End Fmt.

(** [sep.join(parts)]. *)
Definition join (sep : string) (parts : list string) : string :=
  String.concat sep parts.

(** Python truthiness of a string, and [s or ""] for an optional one. *)
Definition str_truthy (s : string) : bool :=
  negb (String.eqb s "").

Definition opt_truthy (o : option string) : bool :=
  match o with
  | Some s => str_truthy s
  | None => false
  end.

Definition or_empty (o : option string) : string :=
  match o with
  | Some s => if str_truthy s then s else ""
  | None => ""
  end.

(* ================================================================== *)
(** ** Dates and times *)
(* ================================================================== *)

(** The part of Python's [datetime] module the program relies on, after
    the algorithms of the standard library (proleptic Gregorian ordinals,
    [timedelta] normalisation, [strftime], [isoformat]). *)
Module Datetime.

Record datetime : Type := mk_datetime {
  year : Z; month : Z; day : Z;
  hour : Z; minute : Z; second : Z; microsecond : Z
}.

Definition MINYEAR : Z := 1.
Definition MAXYEAR : Z := 9999.
Definition MAXORDINAL : Z := 3652059.

Definition is_leap (y : Z) : bool :=
  (y mod 4 =? 0) && (negb (y mod 100 =? 0) || (y mod 400 =? 0)).

Definition DAYS_IN_MONTH (m : Z) : Z :=
  nth (Z.to_nat m) [-1; 31; 28; 31; 30; 31; 30; 31; 31; 30; 31; 30; 31] (-1).

Definition DAYS_BEFORE_MONTH (m : Z) : Z :=
  nth (Z.to_nat m) [-1; 0; 31; 59; 90; 120; 151; 181; 212; 243; 273; 304; 334] (-1).

Definition days_before_year (y : Z) : Z :=
  let y1 := y - 1 in
  y1 * 365 + y1 / 4 - y1 / 100 + y1 / 400.

Definition days_in_month (y m : Z) : Z :=
  if (m =? 2) && is_leap y then 29 else DAYS_IN_MONTH m.

Definition days_before_month (y m : Z) : Z :=
  DAYS_BEFORE_MONTH m + (if (2 <? m) && is_leap y then 1 else 0).

Definition ymd2ord (y m d : Z) : Z :=
  days_before_year y + days_before_month y m + d.

Definition DI400Y : Z := 146097.
Definition DI100Y : Z := 36524.
Definition DI4Y : Z := 1461.

Definition ord2ymd (n : Z) : Z * Z * Z :=
  let n := n - 1 in
  let n400 := n / DI400Y in
  let n := n mod DI400Y in
  let y := n400 * 400 + 1 in
  let n100 := n / DI100Y in
  let n := n mod DI100Y in
  let n4 := n / DI4Y in
  let n := n mod DI4Y in
  let n1 := n / 365 in
  let n := n mod 365 in
  let y := y + n100 * 100 + n4 * 4 + n1 in
  if (n1 =? 4) || (n100 =? 4) then (y - 1, 12, 31)
  else
    let leapyear := (n1 =? 3) && (negb (n4 =? 24) || (n100 =? 3)) in
    let m := Z.shiftr (n + 50) 5 in
    let preceding :=
      DAYS_BEFORE_MONTH m + (if (2 <? m) && leapyear then 1 else 0) in
    if n <? preceding then
      let m := m - 1 in
      let preceding :=
        preceding - (DAYS_IN_MONTH m + (if (m =? 2) && leapyear then 1 else 0)) in
      (y, m, n - preceding + 1)
    else (y, m, n - preceding + 1).

(** The invariant of every [datetime] object. *)
Definition valid (dt : datetime) : bool :=
  (MINYEAR <=? year dt) && (year dt <=? MAXYEAR) &&
  (1 <=? month dt) && (month dt <=? 12) &&
  (1 <=? day dt) && (day dt <=? days_in_month (year dt) (month dt)) &&
  (0 <=? hour dt) && (hour dt <? 24) &&
  (0 <=? minute dt) && (minute dt <? 60) &&
  (0 <=? second dt) && (second dt <? 60) &&
  (0 <=? microsecond dt) && (microsecond dt <? 1000000).

Definition toordinal (dt : datetime) : Z :=
  ymd2ord (year dt) (month dt) (day dt).

(** Seconds into the day, and seconds since the start of ordinal day 0:
    the instant a naive [datetime] denotes, to the second. *)
Definition day_seconds (dt : datetime) : Z :=
  hour dt * 3600 + minute dt * 60 + second dt.

Definition instant (dt : datetime) : Z :=
  toordinal dt * 86400 + day_seconds dt.

(** [timedelta(minutes=m)], normalised to days and seconds; a magnitude
    beyond 999999999 days raises [OverflowError]. *)
Record timedelta : Type := mk_timedelta {
  td_days : Z; td_seconds : Z; td_microseconds : Z
}.

Definition timedelta_minutes (m : Z) : result timedelta :=
  let s := m * 60 in
  let d := s / 86400 in
  if (Z.abs d >? 999999999) then Raise OverflowError
  else Ok (mk_timedelta d (s mod 86400) 0).

(** [dt + td] ([datetime.__add__]): the sum is taken as a [timedelta]
    from ordinal day 0 and split again; a day outside
    [1 .. MAXORDINAL] raises [OverflowError]. *)
Definition add (dt : datetime) (td : timedelta) : result datetime :=
  let us := microsecond dt + td_microseconds td in
  let s := day_seconds dt + td_seconds td + us / 1000000 in
  let d := toordinal dt + td_days td + s / 86400 in
  let s := s mod 86400 in
  if (0 <? d) && (d <=? MAXORDINAL) then
    let '(y, m, dd) := ord2ymd d in
    Ok (mk_datetime y m dd (s / 3600) ((s mod 3600) / 60) ((s mod 3600) mod 60)
          (us mod 1000000))
  else Raise OverflowError.

(** [-td] and [dt - td] ([datetime.__sub__] is [self + -other]). *)
Definition neg (td : timedelta) : timedelta :=
  let us := - td_microseconds td in
  let s := - td_seconds td + us / 1000000 in
  mk_timedelta (- td_days td + s / 86400) (s mod 86400) (us mod 1000000).

Definition sub (dt : datetime) (td : timedelta) : result datetime :=
  add dt (neg td).

(** [strftime]'s [%Y].  The C library decides whether a year below 1000
    is padded to four digits; [pad] is that choice of the platform. *)
Definition fmt_Y (pad : bool) (y : Z) : string :=
  if pad then Fmt.zpad 4 y else Fmt.dec y.

Definition fmt_2 (z : Z) : string := Fmt.zpad 2 z.

(** [dt.strftime("%Y%m%dT%H%M%SZ")]. *)
Definition strftime_ics (pad : bool) (dt : datetime) : string :=
  fmt_Y pad (year dt) ++ fmt_2 (month dt) ++ fmt_2 (day dt) ++ "T" ++
  fmt_2 (hour dt) ++ fmt_2 (minute dt) ++ fmt_2 (second dt) ++ "Z".

(** [dt.strftime("%Y-%m-%d %H:%M")]. *)
Definition strftime_local (pad : bool) (dt : datetime) : string :=
  fmt_Y pad (year dt) ++ "-" ++ fmt_2 (month dt) ++ "-" ++ fmt_2 (day dt) ++
  " " ++ fmt_2 (hour dt) ++ ":" ++ fmt_2 (minute dt).

(** [dt.isoformat()] of a naive [datetime]. *)
Definition isoformat (dt : datetime) : string :=
  Fmt.zpad 4 (year dt) ++ "-" ++ fmt_2 (month dt) ++ "-" ++ fmt_2 (day dt) ++
  "T" ++ fmt_2 (hour dt) ++ ":" ++ fmt_2 (minute dt) ++ ":" ++
  fmt_2 (second dt) ++
  (if microsecond dt =? 0 then "" else "." ++ Fmt.zpad 6 (microsecond dt)).

(** [date] and [time] objects, as the form's widgets return them, and
    the two [strftime] calls the script makes on them. *)
Record date : Type := mk_date { d_year : Z; d_month : Z; d_day : Z }.
Record time : Type := mk_time { t_hour : Z; t_minute : Z; t_second : Z }.

(** [d.strftime("%Y-%m-%d")] and [t.strftime("%H:%M")]. *)
Definition date_strftime (pad : bool) (d : date) : string :=
  fmt_Y pad (d_year d) ++ "-" ++ fmt_2 (d_month d) ++ "-" ++ fmt_2 (d_day d).

Definition time_strftime (t : time) : string :=
  fmt_2 (t_hour t) ++ ":" ++ fmt_2 (t_minute t).

End Datetime.
Export Datetime.

(* ================================================================== *)
(** ** [datetime.strptime(text, "%Y-%m-%d %H:%M")] *)
(* ================================================================== *)

(** The format is compiled to a regular expression whose directives are
    ordered alternatives; the first match from the left is taken and must
    consume the whole text.  Texts are ASCII here. *)
Module Strptime.

Definition in_range (lo hi : nat) (c : ascii) : bool :=
  (lo <=? nat_of_ascii c)%nat && (nat_of_ascii c <=? hi)%nat.

Definition digit_val (c : ascii) : Z := Z.of_nat (nat_of_ascii c) - 48.

(** [\d], [[1-9]] and the like, by character codes. *)
Definition d09 := in_range 48 57.
Definition d19 := in_range 49 57.
Definition d01 := in_range 48 49.
Definition d02 := in_range 48 50.
Definition d03 := in_range 48 51.
Definition d05 := in_range 48 53.
Definition d12 := in_range 49 50.
Definition is_c (n : nat) := in_range n n.

(** [\s] on ASCII: tab to carriage return, the four separators
    [0x1c] to [0x1f], and the blank. *)
Definition is_space (c : ascii) : bool :=
  in_range 9 13 c || in_range 28 31 c || is_c 32 c.

(** An alternative reads a value and leaves the rest, or fails. *)
Definition alt : Type := string -> option (Z * string).

Definition one (p : ascii -> bool) : alt := fun s =>
  match s with
  | String a r => if p a then Some (digit_val a, r) else None
  | _ => None
  end.

Definition two (p q : ascii -> bool) : alt := fun s =>
  match s with
  | String a (String b r) =>
      if p a && q b then Some (digit_val a * 10 + digit_val b, r) else None
  | _ => None
  end.

(** The alternative [" [1-9]"] of [%d]. *)
Definition space_one (q : ascii -> bool) : alt := fun s =>
  match s with
  | String a (String b r) =>
      if is_c 32 a && q b then Some (digit_val b, r) else None
  | _ => None
  end.

Definition four (p : ascii -> bool) : alt := fun s =>
  match s with
  | String a (String b (String c (String d r))) =>
      if p a && p b && p c && p d
      then Some (((digit_val a * 10 + digit_val b) * 10 + digit_val c) * 10
                 + digit_val d, r)
      else None
  | _ => None
  end.

(** Ordered choice with backtracking into the continuation [k]. *)
Fixpoint choice {A} (alts : list alt) (k : Z -> string -> option A)
    (s : string) : option A :=
  match alts with
  | [] => None
  | a :: rest =>
      match (match a s with Some (v, r) => k v r | None => None end) with
      | Some x => Some x
      | None => choice rest k s
      end
  end.

Definition lit {A} (n : nat) (k : string -> option A) (s : string) : option A :=
  match s with
  | String a r => if is_c n a then k r else None
  | _ => None
  end.

(** [\s+]: greedy; what follows starts with a digit, so giving white
    space back never helps a match. *)
Fixpoint skip_spaces (s : string) : string :=
  match s with
  | String a r => if is_space a then skip_spaces r else s
  | EmptyString => s
  end.

Definition spaces {A} (k : string -> option A) (s : string) : option A :=
  match s with
  | String a r => if is_space a then k (skip_spaces r) else None
  | _ => None
  end.

Definition dir_Y := [four d09].
Definition dir_m := [two (is_c 49) d02; two (is_c 48) d19; one d19].
Definition dir_d :=
  [two (is_c 51) d01; two d12 d09; two (is_c 48) d19; one d19; space_one d19].
Definition dir_H := [two (is_c 50) d03; two d01 d09; one d09].
Definition dir_M := [two d05 d09; one d09].

(** The fields found and the unconverted rest. *)
Definition regex_match (s : string) : option (Z * Z * Z * Z * Z * string) :=
  choice dir_Y (fun y =>
  lit 45 (choice dir_m (fun m =>
  lit 45 (choice dir_d (fun d =>
  spaces (choice dir_H (fun h =>
  lit 58 (choice dir_M (fun mi r => Some (y, m, d, h, mi, r)))))))))) s.

Definition strptime (s : string) : result datetime :=
  match regex_match s with
  | Some (y, m, d, h, mi, EmptyString) =>
      let dt := mk_datetime y m d h mi 0 0 in
      if Datetime.valid dt then Ok dt else Raise ValueError
  | _ => Raise ValueError
  end.

End Strptime.

(* ================================================================== *)
(** ** Python values *)
(* ================================================================== *)

(** The dynamically typed values that cross the program's interfaces: the
    JSON of the Google APIs and the arguments of a call. *)
#[local] Unset Elimination Schemes.
Inductive pyval : Type :=
  | PNone
  | PBool (b : bool)
  | PInt (z : Z)
  | PStr (s : string)
  | PDatetime (dt : datetime)
  | PList (items : list pyval)
  | PDict (items : list (string * pyval)).
#[local] Set Elimination Schemes.

Definition dict : Type := list (string * pyval).

(** [d.get(key)] on the items of a dictionary. *)
Fixpoint dict_lookup (d : dict) (key : string) : option pyval :=
  match d with
  | [] => None
  | (k, v) :: rest => if String.eqb k key then Some v else dict_lookup rest key
  end.

(** [d[key] = v]. *)
Fixpoint dict_set (d : dict) (key : string) (v : pyval) : dict :=
  match d with
  | [] => [(key, v)]
  | (k, x) :: rest =>
      if String.eqb k key then (k, v) :: rest else (k, x) :: dict_set rest key v
  end.

(** [v.get(key, default)]: only dictionaries have [get]. *)
Definition py_get (v : pyval) (key : string) (default : pyval) : result pyval :=
  match v with
  | PDict d =>
      match dict_lookup d key with
      | Some x => Ok x
      | None => Ok default
      end
  | _ => Raise AttributeError
  end.

(** [v.get], the bound method: Python looks it up before it evaluates
    the arguments of the call, and only dictionaries have it. *)
Definition py_get_method (v : pyval) : result (string -> pyval -> pyval) :=
  match v with
  | PDict d =>
      Ok (fun key default =>
            match dict_lookup d key with
            | Some x => x
            | None => default
            end)
  | _ => Raise AttributeError
  end.

Fixpoint chars (s : string) : list pyval :=
  match s with
  | EmptyString => []
  | String c r => PStr (String c EmptyString) :: chars r
  end.

(** What [for x in v] runs over. *)
Definition py_iter (v : pyval) : result (list pyval) :=
  match v with
  | PList l => Ok l
  | PDict d => Ok (map (fun kv => PStr (fst kv)) d)
  | PStr s => Ok (chars s)
  | _ => Raise TypeError
  end.

(** [v[0]]; the keys of a dictionary are strings here. *)
Definition py_index0 (v : pyval) : result pyval :=
  match v with
  | PList (x :: _) => Ok x
  | PList [] => Raise IndexError
  | PStr (String c _) => Ok (PStr (String c EmptyString))
  | PStr EmptyString => Raise IndexError
  | PDict _ => Raise KeyError
  | _ => Raise TypeError
  end.

Definition py_truthy (v : pyval) : bool :=
  match v with
  | PNone => false
  | PBool b => b
  | PInt z => negb (z =? 0)
  | PStr s => str_truthy s
  | PDatetime _ => true
  | PList l => match l with [] => false | _ => true end
  | PDict d => match d with [] => false | _ => true end
  end.

(** [v == "text"]. *)
Definition py_eq_str (v : pyval) (s : string) : bool :=
  match v with
  | PStr t => String.eqb t s
  | _ => false
  end.

(* ================================================================== *)
(** ** The world and the monad of the script *)
(* ================================================================== *)

(** The HTML body of the invitation: the script's template, kept as the
    values that fill its holes. *)
Record html_invite : Type := mk_html_invite {
  h_topic : string;
  h_date : date;
  h_time : time;
  h_duration : Z;
  h_meet_link : pyval
}.

(** An outgoing mail: the parts [send_custom_email_with_ics] assembles.
    The MIME and base64 encodings are left to the mail library. *)
Record message : Type := mk_message {
  msg_to : string;
  msg_subject : string;
  msg_html : html_invite;
  msg_ics : string
}.

(** What the script shows the user. *)
Inductive ui_event : Type :=
  | UiError (text : string)
  | UiSuccess (text : string) (link : pyval)
  | UiInfo (text : string).

(** Everything outside the process.  The oracles answer the calls to the
    Google services in the order they are made; the logs record what the
    run did. *)
Record world : Type := mk_world {
  w_pad_year : bool;                          (* does [%Y] pad to four digits *)
  w_now : datetime;                           (* [datetime.utcnow()] *)
  w_urandom : nat -> Z;                       (* [os.urandom(16)] as integers *)
  w_draws : nat;                              (* random draws made so far *)
  w_service : nat -> string -> option exn;    (* failures of [get_google_service] *)
  w_service_calls : nat;
  w_calendar_insert : pyval -> result pyval;  (* [events().insert(...).execute()] *)
  w_profile : result pyval;                   (* [getProfile(...).execute()] *)
  w_gmail_send : nat -> option exn;           (* failures of [messages().send] *)
  w_send_calls : nat;
  w_events : list pyval;                      (* events created *)
  w_outbox : list message;                    (* mails delivered *)
  w_ui : list ui_event
}.

(** State and exceptions: the state survives a raise, as effects that
    happened before a Python exception do. *)
Definition M (A : Type) : Type := world -> result A * world.

Definition ret {A} (a : A) : M A := fun w => (Ok a, w).

Definition raise {A} (e : exn) : M A := fun w => (Raise e, w).

Definition bind {A B} (c : M A) (k : A -> M B) : M B := fun w =>
  match c w with
  | (Ok a, w') => k a w'
  | (Raise e, w') => (Raise e, w')
  end.

Definition lift {A} (r : result A) : M A := fun w => (r, w).

Declare Scope monad_scope.
Delimit Scope monad_scope with monad.
Notation "x <- c ;; k" := (bind c (fun x => k))
  (at level 61, c at next level, right associativity) : monad_scope.
Notation "c ;;; k" := (bind c (fun _ => k))
  (at level 61, right associativity) : monad_scope.
Local Open Scope monad_scope.

(** [x or alternative] for an optional string: the alternative runs only
    when [x] is [None] or empty. *)
Definition or_else (x : option string) (alternative : M string) : M string :=
  match x with
  | Some s => if str_truthy s then ret s else alternative
  | None => alternative
  end.

(** [for x in xs: body(x)]. *)
Fixpoint for_each {A} (xs : list A) (body : A -> M unit) : M unit :=
  match xs with
  | [] => ret tt
  | x :: rest => body x ;;; for_each rest body
  end.

(** Field updates of the world. *)
Definition log_ui (ev : ui_event) (w : world) : world :=
  mk_world (w_pad_year w) (w_now w) (w_urandom w) (w_draws w)
    (w_service w) (w_service_calls w) (w_calendar_insert w) (w_profile w)
    (w_gmail_send w) (w_send_calls w) (w_events w) (w_outbox w)
    (w_ui w ++ [ev]).

Definition count_draw (w : world) : world :=
  mk_world (w_pad_year w) (w_now w) (w_urandom w) (S (w_draws w))
    (w_service w) (w_service_calls w) (w_calendar_insert w) (w_profile w)
    (w_gmail_send w) (w_send_calls w) (w_events w) (w_outbox w) (w_ui w).

Definition count_service_call (w : world) : world :=
  mk_world (w_pad_year w) (w_now w) (w_urandom w) (w_draws w)
    (w_service w) (S (w_service_calls w)) (w_calendar_insert w) (w_profile w)
    (w_gmail_send w) (w_send_calls w) (w_events w) (w_outbox w) (w_ui w).

Definition count_send_call (w : world) : world :=
  mk_world (w_pad_year w) (w_now w) (w_urandom w) (w_draws w)
    (w_service w) (w_service_calls w) (w_calendar_insert w) (w_profile w)
    (w_gmail_send w) (S (w_send_calls w)) (w_events w) (w_outbox w) (w_ui w).

Definition log_event (ev : pyval) (w : world) : world :=
  mk_world (w_pad_year w) (w_now w) (w_urandom w) (w_draws w)
    (w_service w) (w_service_calls w) (w_calendar_insert w) (w_profile w)
    (w_gmail_send w) (w_send_calls w) (w_events w ++ [ev]) (w_outbox w)
    (w_ui w).

Definition log_mail (m : message) (w : world) : world :=
  mk_world (w_pad_year w) (w_now w) (w_urandom w) (w_draws w)
    (w_service w) (w_service_calls w) (w_calendar_insert w) (w_profile w)
    (w_gmail_send w) (w_send_calls w) (w_events w) (w_outbox w ++ [m])
    (w_ui w).

Definition st_error (text : string) : M unit := fun w =>
  (Ok tt, log_ui (UiError text) w).

Definition st_success (text : string) (link : pyval) : M unit := fun w =>
  (Ok tt, log_ui (UiSuccess text link) w).

Definition st_info (text : string) : M unit := fun w =>
  (Ok tt, log_ui (UiInfo text) w).

(** [str(uuid.uuid4())]: sixteen random bytes, the variant and version
    bits set, printed as 8-4-4-4-12 hexadecimal digits. *)
Definition uuid_int (r : Z) : Z :=
  let i := r mod 2 ^ 128 in
  let i := Z.land i (Z.lnot (Z.shiftl 49152 48)) in
  let i := Z.lor i (Z.shiftl 32768 48) in
  let i := Z.land i (Z.lnot (Z.shiftl 61440 64)) in
  Z.lor i (Z.shiftl 4 76).

Definition uuid_str (i : Z) : string :=
  let hex := Fmt.hex32 i in
  substring 0 8 hex ++ "-" ++ substring 8 4 hex ++ "-" ++ substring 12 4 hex
  ++ "-" ++ substring 16 4 hex ++ "-" ++ substring 20 12 hex.

Definition uuid4 : M string := fun w =>
  (Ok (uuid_str (uuid_int (w_urandom w (w_draws w)))), count_draw w).

(** [datetime.utcnow()]. *)
Definition utcnow : M datetime := fun w => (Ok (w_now w), w).

(** The platform's choice for [%Y]. *)
Definition pad_year : M bool := fun w => (Ok (w_pad_year w), w).

(** [get_google_service(api_name, api_version)]: loading, refreshing or
    asking for the credential and building the client; it yields the
    client or raises. *)
Definition get_google_service (api_name api_version : string) : M unit := fun w =>
  match w_service w (w_service_calls w) api_name with
  | Some e => (Raise e, count_service_call w)
  | None => (Ok tt, count_service_call w)
  end.

(* ================================================================== *)
(** ** Calendar event creator *)
(* ================================================================== *)

Definition TIMEZONE : string := "Asia/Kolkata".

(** The [event] dictionary of [schedule_meeting], with the [recurrence]
    key set only for a truthy rule. *)
Definition event_body (summary : string) (description location : option string)
    (start_dt_local end_dt_local : datetime) (attendees : list string)
    (request_id : string) (recurrence : option string) : dict :=
  let event :=
    [ ("summary", PStr summary);
      ("description", PStr (or_empty description));
      ("location", PStr (or_empty location));
      ("start", PDict [("dateTime", PStr (isoformat start_dt_local));
                       ("timeZone", PStr TIMEZONE)]);
      ("end", PDict [("dateTime", PStr (isoformat end_dt_local));
                     ("timeZone", PStr TIMEZONE)]);
      ("attendees", PList (map (fun e => PDict [("email", PStr e)]) attendees));
      ("conferenceData",
        PDict [("createRequest",
          PDict [("requestId", PStr request_id);
                 ("conferenceSolutionKey", PDict [("type", PStr "hangoutsMeet")])])]);
      ("reminders",
        PDict [("useDefault", PBool false);
               ("overrides",
                 PList [PDict [("method", PStr "email"); ("minutes", PInt 30)];
                        PDict [("method", PStr "popup"); ("minutes", PInt 10)]])]) ] in
  match recurrence with
  | Some r => if str_truthy r then dict_set event "recurrence" (PList [PStr r]) else event
  | None => event
  end.

(** [service.events().insert(calendarId="primary", body=event, ...).execute()]. *)
Definition events_insert (event : dict) : M pyval := fun w =>
  match w_calendar_insert w (PDict event) with
  | Ok created => (Ok created, log_event (PDict event) w)
  | Raise e => (Raise e, w)
  end.

(** The loop over the entry points: the variable [meet_link] after the
    loop, and the exception that ended it, if any. *)
Fixpoint scan_entry_points (eps : list pyval) (meet_link : pyval)
    : pyval * option exn :=
  match eps with
  | [] => (meet_link, None)
  | ep :: rest =>
      match py_get ep "entryPointType" PNone with
      | Raise e => (meet_link, Some e)
      | Ok t =>
          if py_eq_str t "video" then
            match py_get ep "uri" (PStr "") with
            | Raise e => (meet_link, Some e)
            | Ok u => (u, None)                      (* break *)
            end
          else scan_entry_points rest meet_link
      end
  end.

(** The body of the [try]: the variable [meet_link] when the body ends,
    and the exception that ended it, if any. *)
Definition link_try_body (created : pyval) (meet_link : pyval)
    : pyval * option exn :=
  match py_get created "conferenceData" (PDict []) with
  | Raise e => (meet_link, Some e)
  | Ok conference_data =>
      match py_get conference_data "entryPoints" (PList []) with
      | Raise e => (meet_link, Some e)
      | Ok entry_points =>
          match py_iter entry_points with
          | Raise e => (meet_link, Some e)
          | Ok eps =>
              match scan_entry_points eps meet_link with
              | (meet_link, Some e) => (meet_link, Some e)
              | (meet_link, None) =>
                  if negb (py_truthy meet_link) && py_truthy entry_points then
                    match rbind (py_index0 entry_points)
                            (fun ep0 => py_get ep0 "uri" (PStr "")) with
                    | Raise e => (meet_link, Some e)
                    | Ok u => (u, None)
                    end
                  else (meet_link, None)
              end
          end
      end
  end.

(** [meet_link = ""; try: ... except Exception: pass]. *)
Definition extract_meet_link (created : pyval) : pyval :=
  fst (link_try_body created (PStr "")).

Definition schedule_meeting (date time_str : string) (duration_min : Z)
    (attendees : list string) (summary : string)
    (description location recurrence : option string)
    : M (pyval * pyval * datetime * datetime) :=
  get_google_service "calendar" "v3" ;;;
  start_dt_local <- lift (Strptime.strptime (date ++ " " ++ time_str)) ;;
  end_dt_local <- lift (rbind (timedelta_minutes duration_min)
                          (Datetime.add start_dt_local)) ;;
  request_id <- uuid4 ;;
  let event := event_body summary description location start_dt_local
                 end_dt_local attendees request_id recurrence in
  created <- events_insert event ;;
  let meet_link := extract_meet_link created in
  created_get <- lift (py_get_method created) ;;
  fallback_id <- uuid4 ;;
  ret (meet_link, created_get "id" (PStr fallback_id), start_dt_local, end_dt_local).

(* ================================================================== *)
(** ** ICS generator *)
(* ================================================================== *)

(** [to_utc(dt_local, tz_offset_minutes=330)]: the fields of the result.
    The [tzinfo] that [replace] attaches plays no part in the formats
    used below and is not kept here; [Aware.to_utc] keeps it. *)
Definition DEFAULT_TZ_OFFSET_MINUTES : Z := 330.

Definition to_utc (dt_local : datetime) (tz_offset_minutes : Z) : result datetime :=
  rbind (timedelta_minutes tz_offset_minutes) (fun offset =>
  Datetime.sub dt_local offset).

(** The line terminator ["\r\n"] and the two characters ["\\n"]. *)
Definition CRLF : string :=
  String (ascii_of_nat 13) (String (ascii_of_nat 10) EmptyString).

Definition ESCAPED_NEWLINE : string :=
  String (ascii_of_nat 92) (String (ascii_of_nat 110) EmptyString).

(** [desc_lines] of [build_ics]. *)
Definition desc_lines (pad : bool) (description meet_link : option string)
    (dt_start_local : datetime) : list string :=
  [or_empty description]
  ++ match meet_link with
     | Some link => if str_truthy link then ["Google Meet: " ++ link] else []
     | None => []
     end
  ++ ["Local Timezone: " ++ TIMEZONE ++ " (" ++ strftime_local pad dt_start_local ++ ")"].

Definition attendee_lines (attendees : list string) : list string :=
  map (fun a => "ATTENDEE;ROLE=REQ-PARTICIPANT;RSVP=TRUE:mailto:" ++ a) attendees.

(** The list [ics] of [build_ics]. *)
Definition ics_lines (uid dtstamp_utc dtstart_utc dtend_utc summary desc : string)
    (location : option string) (organizer_email : string)
    (attendees : list string) : list string :=
  [ "BEGIN:VCALENDAR";
    "VERSION:2.0";
    "METHOD:REQUEST";
    "BEGIN:VEVENT";
    "UID:" ++ uid;
    "DTSTAMP:" ++ dtstamp_utc;
    "DTSTART:" ++ dtstart_utc;
    "DTEND:" ++ dtend_utc;
    "SUMMARY:" ++ summary;
    "DESCRIPTION:" ++ desc;
    "LOCATION:" ++ or_empty location;
    "ORGANIZER:mailto:" ++ organizer_email ]
  ++ attendee_lines attendees
  ++ [ "END:VEVENT";
       "END:VCALENDAR" ].

(** [build_ics] up to the list [ics], before the final join. *)
Definition build_ics_lines (summary : string) (description location : option string)
    (organizer_email : string) (attendees : list string)
    (dt_start_local dt_end_local : datetime) (uid meet_link : option string)
    : M (list string) :=
  uid <- or_else uid uuid4 ;;
  pad <- pad_year ;;
  now <- utcnow ;;
  let dtstamp_utc := strftime_ics pad now in
  dtstart <- lift (to_utc dt_start_local DEFAULT_TZ_OFFSET_MINUTES) ;;
  let dtstart_utc := strftime_ics pad dtstart in
  dtend <- lift (to_utc dt_end_local DEFAULT_TZ_OFFSET_MINUTES) ;;
  let dtend_utc := strftime_ics pad dtend in
  let desc := join ESCAPED_NEWLINE (desc_lines pad description meet_link dt_start_local) in
  ret (ics_lines uid dtstamp_utc dtstart_utc dtend_utc summary desc location
         organizer_email attendees).

Definition build_ics (summary : string) (description location : option string)
    (organizer_email : string) (attendees : list string)
    (dt_start_local dt_end_local : datetime) (uid meet_link : option string)
    : M string :=
  ics <- build_ics_lines summary description location organizer_email attendees
           dt_start_local dt_end_local uid meet_link ;;
  ret (join CRLF ics).

(** *** Calling [build_ics]

    Python binds the arguments of a call to the parameters of the
    signature before the body runs: positional arguments in order, then
    keywords, then defaults; a parameter left without a value, a value
    given twice, a surplus argument or an unknown keyword is a
    [TypeError]. *)
Fixpoint bind_params (params : list string) (defaults : dict)
    (positional : list pyval) (keywords : dict) : result (list pyval) :=
  match params with
  | [] =>
      match positional with
      | [] => Ok []
      | _ :: _ => Raise TypeError
      end
  | p :: ps =>
      match positional with
      | v :: rest =>
          match dict_lookup keywords p with
          | Some _ => Raise TypeError
          | None =>
              rbind (bind_params ps defaults rest keywords) (fun vs => Ok (v :: vs))
          end
      | [] =>
          match dict_lookup keywords p, dict_lookup defaults p with
          | Some v, _ | None, Some v =>
              rbind (bind_params ps defaults [] keywords) (fun vs => Ok (v :: vs))
          | None, None => Raise TypeError
          end
      end
  end.

Definition bind_call (params : list string) (defaults : dict)
    (positional : list pyval) (keywords : dict) : result (list pyval) :=
  if forallb (fun kv => existsb (String.eqb (fst kv)) params) keywords
  then bind_params params defaults positional keywords
  else Raise TypeError.

Definition build_ics_params : list string :=
  [ "summary"; "description"; "location"; "organizer_email"; "attendees";
    "dt_start_local"; "dt_end_local"; "uid"; "meet_link" ].

Definition build_ics_defaults : dict :=
  [ ("uid", PNone); ("meet_link", PNone) ].

(** Values of the types [build_ics] is written for. *)
Definition as_str (v : pyval) : option string :=
  match v with PStr s => Some s | _ => None end.

Definition as_opt_str (v : pyval) : option (option string) :=
  match v with PStr s => Some (Some s) | PNone => Some None | _ => None end.

Definition as_datetime (v : pyval) : option datetime :=
  match v with PDatetime dt => Some dt | _ => None end.

Fixpoint as_str_list_aux (l : list pyval) : option (list string) :=
  match l with
  | [] => Some []
  | PStr s :: rest =>
      match as_str_list_aux rest with
      | Some ss => Some (s :: ss)
      | None => None
      end
  | _ :: _ => None
  end.

Definition as_str_list (v : pyval) : option (list string) :=
  match v with PList l => as_str_list_aux l | _ => None end.

(** A call of [build_ics] with positional and keyword arguments.  The
    binding is Python's.  The body is embedded for arguments of its
    intended types; on a call that binds but brings a value of another
    type Python would run the body on that value, which is not embedded:
    such a call is reported as [TypeError] here, and nothing below rests
    on it, the one call of the script failing to bind. *)
Definition call_build_ics (positional : list pyval) (keywords : dict) : M string :=
  match bind_call build_ics_params build_ics_defaults positional keywords with
  | Raise e => raise e
  | Ok [a1; a2; a3; a4; a5; a6; a7; a8; a9] =>
      match as_str a1, as_opt_str a2, as_opt_str a3, as_str a4, as_str_list a5,
            as_datetime a6, as_datetime a7, as_opt_str a8, as_opt_str a9 with
      | Some summary, Some description, Some location, Some organizer_email,
        Some attendees, Some dt_start_local, Some dt_end_local, Some uid,
        Some meet_link =>
          build_ics summary description location organizer_email attendees
            dt_start_local dt_end_local uid meet_link
      | _, _, _, _, _, _, _, _, _ => raise TypeError
      end
  | Ok _ => raise TypeError
  end.

(* ================================================================== *)
(** ** Gmail sender *)
(* ================================================================== *)

(** [gmail.users().messages().send(userId="me", body=...).execute()]. *)
Definition messages_send (m : message) : M unit := fun w =>
  match w_gmail_send w (w_send_calls w) with
  | Some e => (Raise e, count_send_call w)
  | None => (Ok tt, log_mail m (count_send_call w))
  end.

Definition send_custom_email_with_ics (to_email subject : string)
    (html_body : html_invite) (ics_text : string) : M unit :=
  get_google_service "gmail" "v1" ;;;
  messages_send (mk_message to_email subject html_body ics_text).

(** [get_sender_email()]. *)
Definition get_sender_email : M pyval :=
  get_google_service "gmail" "v1" ;;;
  profile <- (fun w => (w_profile w, w)) ;;
  lift (py_get profile "emailAddress" (PStr "me")).

(* ================================================================== *)
(** ** The script: what a form submission runs *)
(* ================================================================== *)

Record form : Type := mk_form {
  meeting_date : date;
  meeting_time : time;
  duration : Z;
  topic : string;
  recurrence : string;
  send_custom : bool;
  submitted : bool
}.

(** The [if]/[elif] chain that sets [recur_rule]. *)
Definition recur_rule_of (recurrence : string) : option string :=
  if String.eqb recurrence "Daily" then Some "RRULE:FREQ=DAILY;COUNT=5"
  else if String.eqb recurrence "Weekly" then Some "RRULE:FREQ=WEEKLY;COUNT=5"
  else if String.eqb recurrence "Monthly" then Some "RRULE:FREQ=MONTHLY;COUNT=5"
  else None.

(** The loop [for email in attendees: ...] that ends the script. *)
Definition send_invites (attendees : list string) (topic : string)
    (html_template : html_invite) (ics_text : string) : M unit :=
  for_each attendees (fun email =>
    send_custom_email_with_ics email ("Meeting Invite: " ++ topic)
      html_template ics_text ;;;
    st_info ("Custom email sent to " ++ email)).

Definition on_submit (attendees : list string) (f : form) : M unit :=
  if submitted f then
    match attendees with
    | [] => st_error "No attendees uploaded."
    | _ :: _ =>
        let recur_rule := recur_rule_of (recurrence f) in
        pad <- pad_year ;;
        scheduled <- schedule_meeting
                       (date_strftime pad (meeting_date f))
                       (time_strftime (meeting_time f))
                       (duration f) attendees (topic f) None None recur_rule ;;
        let '(meet_link, event_id, start_dt, end_dt) := scheduled in
        st_success "Meeting Scheduled" meet_link ;;;
        if send_custom f then
          organizer_email <- get_sender_email ;;
          ics_text <- call_build_ics
                        [ PStr (topic f); organizer_email;
                          PList (map PStr attendees);
                          PDatetime start_dt; PDatetime end_dt ]
                        [ ("uid", event_id); ("meet_link", meet_link) ] ;;
          let html_template :=
            mk_html_invite (topic f) (meeting_date f) (meeting_time f)
              (duration f) meet_link in
          send_invites attendees (topic f) html_template ics_text
        else ret tt
    end
  else ret tt.

(* ================================================================== *)
(** ** Definitions for the statements *)
(* ================================================================== *)

(** Checking a boolean property on every integer of [lo .. lo + 2^depth - 1]
    by halving the interval. *)
Fixpoint check_range (depth : nat) (lo : Z) (f : Z -> bool) : bool :=
  match depth with
  | O => f lo
  | S d => check_range d lo f && check_range d (lo + 2 ^ Z.of_nat d) f
  end.

(** The last steps of [ord2ymd]: month and day from the day of the year
    (from 0) and the leap flag. *)
Definition month_day (n : Z) (leapyear : bool) : Z * Z :=
  let m := Z.shiftr (n + 50) 5 in
  let preceding :=
    DAYS_BEFORE_MONTH m + (if (2 <? m) && leapyear then 1 else 0) in
  if n <? preceding then
    let m := m - 1 in
    let preceding :=
      preceding - (DAYS_IN_MONTH m + (if (m =? 2) && leapyear then 1 else 0)) in
    (m, n - preceding + 1)
  else (m, n - preceding + 1).

(** The check of [month_day] for one day of the year. *)
Definition month_day_ok (leapyear : bool) (n : Z) : bool :=
  if n <? 365 then
    let '(m, d) := month_day n leapyear in
    (DAYS_BEFORE_MONTH m + (if (2 <? m) && leapyear then 1 else 0) + d =? n + 1)
    && (1 <=? m) && (m <=? 12) && (1 <=? d)
    && (d <=? (if (m =? 2) && leapyear then 29 else DAYS_IN_MONTH m))
  else true.

(** The earliest local time the default offset can be taken from:
    0001-01-01T05:30:00. *)
Definition EARLIEST_LOCAL : Z := 86400 + DEFAULT_TZ_OFFSET_MINUTES * 60.

(** The local times [build_ics] accepts without raising. *)
Definition convertible (dt : datetime) : Prop :=
  valid dt = true /\ EARLIEST_LOCAL <= instant dt.

(** The check behind the two-digit fields of the stamps. *)
Definition fmt_2_ok (z : Z) : bool :=
  if z <? 100 then String.eqb (fmt_2 z) (Fmt.fixed 10 2 z) else true.

(** The shape [YYYYMMDDTHHMMSSZ]: fixed-width decimal fields around the
    letters [T] and [Z]. *)
Definition stamp (dt : datetime) : string :=
  Fmt.fixed 10 4 (year dt) ++ Fmt.fixed 10 2 (month dt) ++
  Fmt.fixed 10 2 (day dt) ++ "T" ++ Fmt.fixed 10 2 (hour dt) ++
  Fmt.fixed 10 2 (minute dt) ++ Fmt.fixed 10 2 (second dt) ++ "Z".

(** [s] has [sub] somewhere inside. *)
Definition contains (s sub : string) : Prop :=
  exists before after, s = before ++ sub ++ after.

(** Prefix test by characters. *)
Fixpoint starts_with (p s : string) : bool :=
  match p with
  | EmptyString => true
  | String a p' =>
      match s with
      | String b s' => Ascii.eqb a b && starts_with p' s'
      | EmptyString => false
      end
  end.

(** Does the character [c] occur in [s]. *)
Fixpoint has_char (c : ascii) (s : string) : bool :=
  match s with
  | EmptyString => false
  | String a r => Ascii.eqb a c || has_char c r
  end.

(** The number of places of [s] at which [sub] begins. *)
Fixpoint occurrences (sub s : string) : nat :=
  match s with
  | EmptyString => 0
  | String _ r => ((if starts_with sub s then 1 else 0) + occurrences sub r)%nat
  end.

(** The segments of a description that read as a Google Meet line. *)
Definition meet_lines (lines : list string) : list string :=
  filter (starts_with "Google Meet:") lines.

(** The identifier [build_ics] goes on with after its first line, and the
    world after that line: a truthy [uid] is kept, anything else costs a
    random draw. *)
Definition resolved_uid (uid : option string) (w : world) : string :=
  match uid with
  | Some u =>
      if str_truthy u then u else uuid_str (uuid_int (w_urandom w (w_draws w)))
  | None => uuid_str (uuid_int (w_urandom w (w_draws w)))
  end.

Definition after_uid (uid : option string) (w : world) : world :=
  if opt_truthy uid then w else count_draw w.

(** The line of the description that names the time zone. *)
Definition timezone_line (pad : bool) (dt_start_local : datetime) : string :=
  "Local Timezone: " ++ TIMEZONE ++ " (" ++ strftime_local pad dt_start_local ++ ")".

(** Entry points as the calendar service documents them: a type and an
    address, either of which may be missing; and the JSON they travel in. *)
Record entry_point : Type := mk_entry_point {
  ep_type : option string;
  ep_uri : option string
}.

Definition entry_point_json (ep : entry_point) : pyval :=
  PDict
    ((match ep_type ep with Some t => [("entryPointType", PStr t)] | None => [] end)
     ++ (match ep_uri ep with Some u => [("uri", PStr u)] | None => [] end)).

Definition created_json (id : string) (eps : list entry_point) : pyval :=
  PDict [ ("id", PStr id);
          ("conferenceData",
            PDict [("entryPoints", PList (map entry_point_json eps))]) ].

Definition is_video (ep : entry_point) : bool :=
  match ep_type ep with
  | Some t => String.eqb t "video"
  | None => false
  end.

Definition uri_of (ep : entry_point) : string :=
  match ep_uri ep with
  | Some u => u
  | None => ""
  end.

Definition first_uri (eps : list entry_point) : string :=
  match eps with
  | ep :: _ => uri_of ep
  | [] => ""
  end.

(** The selection in the words of the specification: the first entry
    point of type video; else the first entry point; else the empty
    string. *)
Definition selectEntryPoint (eps : list entry_point) : string :=
  match find is_video eps with
  | Some ep => uri_of ep
  | None => first_uri eps
  end.

(** The selection the code makes: a first video entry point counts only
    with a non-empty address. *)
Definition selected_link (eps : list entry_point) : string :=
  match find is_video eps with
  | Some ep => if str_truthy (uri_of ep) then uri_of ep else first_uri eps
  | None => first_uri eps
  end.

(** The mail for one attendee and the note shown after it is sent. *)
Definition invite_for (topic : string) (html_template : html_invite)
    (ics_text : string) (email : string) : message :=
  mk_message email ("Meeting Invite: " ++ topic) html_template ics_text.

Definition sent_note (email : string) : ui_event :=
  UiInfo ("Custom email sent to " ++ email).

(** What the send of iteration [i] meets, counted from the world at the
    start of the loop: a failure of [get_google_service], or else of the
    mail service. *)
Definition send_fault (w : world) (i : nat) : option exn :=
  match w_service w (w_service_calls w + i)%nat "gmail" with
  | Some e => Some e
  | None => w_gmail_send w (w_send_calls w + i)%nat
  end.

(** One iteration of the loop, and the world after an iteration that
    went well. *)
Definition send_step (topic : string) (html_template : html_invite)
    (ics_text : string) (email : string) : M unit :=
  send_custom_email_with_ics email ("Meeting Invite: " ++ topic)
    html_template ics_text ;;;
  st_info ("Custom email sent to " ++ email).

Definition world_after_send (topic : string) (html_template : html_invite)
    (ics_text : string) (email : string) (w : world) : world :=
  log_ui (sent_note email)
    (log_mail (invite_for topic html_template ics_text email)
       (count_send_call (count_service_call w))).

(* ================================================================== *)
(** ** Sample inputs *)
(* ================================================================== *)

Module Sample.

Definition start : datetime := mk_datetime 2024 1 10 9 0 0 0.
Definition finish : datetime := mk_datetime 2024 1 10 9 30 0 0.

Definition created : pyval :=
  PDict [ ("id", PStr "evt123");
          ("conferenceData",
            PDict [("entryPoints",
              PList [PDict [("entryPointType", PStr "video");
                            ("uri", PStr "https://meet.example/a-b-c")]])]) ].

(** A world where every service answers. *)
Definition world0 : world :=
  mk_world false (mk_datetime 2024 1 9 12 0 0 0) (fun n => Z.of_nat n) 0
    (fun _ _ => None) 0 (fun _ => Ok created)
    (Ok (PDict [("emailAddress", PStr "a@x.com")])) (fun _ => None) 0
    [] [] [].

(** The same world an instant later, with other random bytes. *)
Definition world1 : world :=
  mk_world false (mk_datetime 2024 1 9 12 0 1 0) (fun n => Z.of_nat n + 77) 0
    (fun _ _ => None) 0 (fun _ => Ok created)
    (Ok (PDict [("emailAddress", PStr "a@x.com")])) (fun _ => None) 0
    [] [] [].

(** A world whose mail service fails on the second send. *)
Definition world_mail_down : world :=
  mk_world false (mk_datetime 2024 1 9 12 0 0 0) (fun n => Z.of_nat n) 0
    (fun _ _ => None) 0 (fun _ => Ok created)
    (Ok (PDict [("emailAddress", PStr "a@x.com")]))
    (fun n => if Nat.eqb n 1 then Some (ApiError "quota") else None) 0
    [] [] [].

Definition the_form : form :=
  mk_form (mk_date 2024 1 10) (mk_time 9 0 0) 30 "Team Sync" "None" true true.

Definition html : html_invite :=
  mk_html_invite "Team Sync" (mk_date 2024 1 10) (mk_time 9 0 0) 30
    (PStr "https://meet.example/a-b-c").

End Sample.

(* ================================================================== *)
(** ** The head of the script: loading the attendees *)
(* ================================================================== *)

(** A data frame as [pd.read_csv] hands it over: named columns of text
    cells, a missing cell (NaN) being [None]. *)
Definition dataframe : Type := list (string * list (option string)).

(** ["email" in df.columns] and [df["email"]]. *)
Definition df_has_column (df : dataframe) (name : string) : bool :=
  existsb (fun c => String.eqb (fst c) name) df.

Fixpoint df_column (df : dataframe) (name : string) : list (option string) :=
  match df with
  | [] => []
  | (n, cells) :: rest =>
      if String.eqb n name then cells else df_column rest name
  end.

(** [column.dropna().tolist()]. *)
Fixpoint dropna_tolist (cells : list (option string)) : list string :=
  match cells with
  | [] => []
  | Some v :: rest => v :: dropna_tolist rest
  | None :: rest => dropna_tolist rest
  end.

(** The lines from [st.file_uploader] to [st.success]: the value of
    [attendees] when the form is drawn.  [uploaded_file] is absent, or
    what [pd.read_csv] makes of it. *)
Definition load_attendees (uploaded_file : option (result dataframe))
    : M (list string) :=
  match uploaded_file with
  | None => ret []
  | Some parsed =>
      df <- lift parsed ;;
      if negb (df_has_column df "email") then
        st_error "CSV must have an 'email' column" ;;;
        ret []
      else
        let attendees := dropna_tolist (df_column df "email") in
        st_success "Loaded attendees" (PInt (Z.of_nat (List.length attendees))) ;;;
        ret attendees
  end.

(** One run of the script. *)
Definition script (uploaded_file : option (result dataframe)) (f : form) : M unit :=
  attendees <- load_attendees uploaded_file ;;
  on_submit attendees f.

(** The [date] and [time] objects of the form, and the start they stand
    for once [schedule_meeting] has read them back: seconds are not
    passed on. *)
Definition date_valid (d : date) : bool :=
  (MINYEAR <=? d_year d) && (d_year d <=? MAXYEAR) &&
  (1 <=? d_month d) && (d_month d <=? 12) &&
  (1 <=? d_day d) && (d_day d <=? days_in_month (d_year d) (d_month d)).

Definition time_valid (t : time) : bool :=
  (0 <=? t_hour t) && (t_hour t <? 24) &&
  (0 <=? t_minute t) && (t_minute t <? 60) &&
  (0 <=? t_second t) && (t_second t <? 60).

Definition form_start (f : form) : datetime :=
  mk_datetime (d_year (meeting_date f)) (d_month (meeting_date f))
    (d_day (meeting_date f)) (t_hour (meeting_time f))
    (t_minute (meeting_time f)) 0 0.

(** An answer of the calendar service with the given entry points, and
    the two kinds of entry the loop of [schedule_meeting] tells apart
    among dictionaries. *)
Definition answer_with (entry_points : list pyval) : pyval :=
  PDict [("conferenceData", PDict [("entryPoints", PList entry_points)])].

Definition entry_type (d : dict) : pyval :=
  match dict_lookup d "entryPointType" with
  | Some t => t
  | None => PNone
  end.

(** [ep.get("uri", "")] on a dictionary. *)
Definition entry_uri (d : dict) : pyval :=
  match dict_lookup d "uri" with
  | Some u => u
  | None => PStr ""
  end.

Definition is_video_entry (x : pyval) : bool :=
  match x with
  | PDict d => py_eq_str (entry_type d) "video"
  | _ => false
  end.

Definition is_other_entry (x : pyval) : bool :=
  match x with
  | PDict d => negb (py_eq_str (entry_type d) "video")
  | _ => false
  end.

(* ================================================================== *)
(** ** The credential, in detail *)
(* ================================================================== *)

(** [get_google_service] with its file and its collaborators spelled
    out.  The script above only needs to know whether the call raises;
    here the steps in between are kept. *)
Module Credentials.

(** What the code reads of a credential. *)
Record creds : Type := mk_creds {
  c_name : string;
  c_valid : bool;
  c_expired : bool;
  c_refresh_token : option string
}.

(** The client [build] returns. *)
Record service : Type := mk_service {
  svc_api : string;
  svc_version : string;
  svc_creds : creds
}.

(** The outside: the file [token.pkl] (absent, or what [pickle.load]
    makes of it), and the answers of [creds.refresh], of the sign-in in
    the browser and of [build]; the counters record which of them were
    asked. *)
Record store : Type := mk_store {
  token_pkl : option (result creds);
  refresh : creds -> result creds;
  run_local_server : result creds;
  build : string -> string -> creds -> option exn;
  refreshes : nat;
  sign_ins : nat;
  writes : nat
}.

(** [pickle.dump(creds, token)] into [token.pkl]. *)
Definition dump (c : creds) (s : store) : store :=
  mk_store (Some (Ok c)) (refresh s) (run_local_server s) (build s)
    (refreshes s) (sign_ins s) (S (writes s)).

Definition count_refresh (s : store) : store :=
  mk_store (token_pkl s) (refresh s) (run_local_server s) (build s)
    (S (refreshes s)) (sign_ins s) (writes s).

Definition count_sign_in (s : store) : store :=
  mk_store (token_pkl s) (refresh s) (run_local_server s) (build s)
    (refreshes s) (S (sign_ins s)) (writes s).

(** The two ways to a fresh credential, each followed by the write of
    [token.pkl]: [creds.refresh(Request())], which changes the credential
    in place, and the sign-in of [InstalledAppFlow]. *)
Definition renew_by_refresh (c : creds) (s : store) : result creds * store :=
  match refresh s c with
  | Ok c' => (Ok c', dump c' (count_refresh s))
  | Raise e => (Raise e, count_refresh s)
  end.

Definition renew_by_sign_in (s : store) : result creds * store :=
  match run_local_server s with
  | Ok c' => (Ok c', dump c' (count_sign_in s))
  | Raise e => (Raise e, count_sign_in s)
  end.

(** The credential after the two [if]s: [not creds or not creds.valid],
    then [creds and creds.expired and creds.refresh_token]. *)
Definition current_creds (cached : option creds) (s : store)
    : result creds * store :=
  match cached with
  | Some c =>
      if c_valid c then (Ok c, s)
      else if c_expired c && opt_truthy (c_refresh_token c)
           then renew_by_refresh c s
           else renew_by_sign_in s
  | None => renew_by_sign_in s
  end.

Definition get_google_service (api_name api_version : string) (s : store)
    : result service * store :=
  let loaded :=
    match token_pkl s with
    | None => Ok None
    | Some (Ok c) => Ok (Some c)
    | Some (Raise e) => Raise e
    end in
  match loaded with
  | Raise e => (Raise e, s)
  | Ok cached =>
      match current_creds cached s with
      | (Raise e, s') => (Raise e, s')
      | (Ok c, s') =>
          match build s' api_name api_version c with
          | Some e => (Raise e, s')
          | None => (Ok (mk_service api_name api_version c), s')
          end
      end
  end.

End Credentials.

(** Sample stores: an expired credential with a refresh token, and the
    answers of the collaborators. *)
Module SampleStore.

Definition stale : Credentials.creds :=
  Credentials.mk_creds "cached" false true (Some "refresh-token").

Definition renewed : Credentials.creds :=
  Credentials.mk_creds "renewed" true false (Some "refresh-token").

Definition signed_in : Credentials.creds :=
  Credentials.mk_creds "signed-in" true false (Some "other-token").

Definition with_stale_token : Credentials.store :=
  Credentials.mk_store (Some (Ok stale)) (fun _ => Ok renewed) (Ok signed_in)
    (fun _ _ _ => None) 0 0 0.

Definition with_valid_token : Credentials.store :=
  Credentials.mk_store (Some (Ok renewed)) (fun _ => Ok renewed) (Ok signed_in)
    (fun _ _ _ => None) 0 0 0.

(** The refresh is turned down; and nobody completes the sign-in. *)
Definition with_failing_refresh : Credentials.store :=
  Credentials.mk_store (Some (Ok stale)) (fun _ => Raise (ApiError "invalid_grant"))
    (Ok signed_in) (fun _ _ _ => None) 0 0 0.

Definition with_failing_sign_in : Credentials.store :=
  Credentials.mk_store None (fun _ => Ok renewed) (Raise (ApiError "access_denied"))
    (fun _ _ _ => None) 0 0 0.

End SampleStore.

(* ================================================================== *)
(** ** [to_utc] with the time zone kept *)
(* ================================================================== *)

(** A Python [datetime] carries a [tzinfo]: [None] on the naive times
    that [strptime] returns and the script passes on, [timezone.utc] on
    what [to_utc] returns.  [to_utc] above gives the fields of the
    result, which is all that [strftime] prints; here the mark is kept
    as well.  Subtracting a [timedelta] keeps the [tzinfo] of the time,
    [replace(tzinfo=...)] sets it and leaves the fields alone, and [==]
    holds between two times with the same [tzinfo] and the same
    fields, never between a naive time and a marked one. *)
Module Aware.

Inductive timezone : Type := utc.

Record datetime : Type := mk_datetime {
  fields : Datetime.datetime;
  tzinfo : option timezone
}.

(** [dt - td]. *)
Definition sub (dt : datetime) (td : timedelta) : result datetime :=
  rbind (Datetime.sub (fields dt) td) (fun f => Ok (mk_datetime f (tzinfo dt))).

(** [dt.replace(tzinfo=tz)]. *)
Definition replace_tzinfo (dt : datetime) (tz : option timezone) : datetime :=
  mk_datetime (fields dt) tz.

(** [to_utc(dt_local, tz_offset_minutes)]. *)
Definition to_utc (dt_local : datetime) (tz_offset_minutes : Z) : result datetime :=
  rbind (timedelta_minutes tz_offset_minutes) (fun offset =>
  rbind (sub dt_local offset) (fun moved =>
  Ok (replace_tzinfo moved (Some utc)))).

(** [a == b]. *)
Definition fields_eqb (a b : Datetime.datetime) : bool :=
  (year a =? year b) && (month a =? month b) && (day a =? day b) &&
  (hour a =? hour b) && (minute a =? minute b) && (second a =? second b) &&
  (microsecond a =? microsecond b).

Definition eqb (a b : datetime) : bool :=
  match tzinfo a, tzinfo b with
  | None, None | Some utc, Some utc => fields_eqb (fields a) (fields b)
  | _, _ => false
  end.

End Aware.

(* ================================================================== *)
(** ** Facts about strings and ranges *)
(* ================================================================== *)

Lemma length_append (s t : string) :
  String.length (s ++ t) = (String.length s + String.length t)%nat.
Proof. induction s as [|c s IH]; simpl; [reflexivity | now rewrite IH]. Qed.

Lemma append_assoc (s t u : string) : (s ++ t) ++ u = s ++ (t ++ u).
Proof. induction s as [|c s IH]; simpl; [reflexivity | now rewrite IH]. Qed.

Lemma append_empty_r (s : string) : s ++ "" = s.
Proof. induction s as [|c s IH]; simpl; [reflexivity | now rewrite IH]. Qed.

Lemma check_range_sound (f : Z -> bool) (depth : nat) :
  forall lo, check_range depth lo f = true ->
  forall z, lo <= z < lo + 2 ^ Z.of_nat depth -> f z = true.
Proof.
  induction depth as [|d IH]; intros lo H z Hz.
  - simpl in Hz. assert (z = lo) by lia. subst. exact H.
  - cbn [check_range] in H. apply andb_true_iff in H as [H1 H2].
    rewrite Nat2Z.inj_succ, Z.pow_succ_r in Hz by lia.
    destruct (Z_lt_ge_dec z (lo + 2 ^ Z.of_nat d)).
    + apply (IH lo H1). lia.
    + apply (IH _ H2). lia.
Qed.

(* ================================================================== *)
(** ** Facts about dates *)
(* ================================================================== *)

Module DatetimeFacts.

Lemma month_day_checked (leapyear : bool) :
  check_range 9 0 (month_day_ok leapyear) = true.
Proof. destruct leapyear; vm_compute; reflexivity. Qed.

Lemma month_day_correct (n : Z) (leapyear : bool) :
  0 <= n < 365 ->
  exists m d,
    month_day n leapyear = (m, d) /\
    DAYS_BEFORE_MONTH m + (if (2 <? m) && leapyear then 1 else 0) + d = n + 1 /\
    1 <= m <= 12 /\
    1 <= d <= (if (m =? 2) && leapyear then 29 else DAYS_IN_MONTH m).
Proof.
  intros Hn.
  assert (H : month_day_ok leapyear n = true).
  { apply (check_range_sound _ 9 0 (month_day_checked leapyear)).
    change (2 ^ Z.of_nat 9) with 512. lia. }
  unfold month_day_ok in H.
  destruct (n <? 365) eqn:E; [|apply Z.ltb_ge in E; lia].
  destruct (month_day n leapyear) as [m d]. exists m, d.
  repeat (apply andb_true_iff in H as [H ?]).
  repeat split; try reflexivity; lia.
Qed.

(** [ord2ymd] with its last steps named. *)
Lemma ord2ymd_unfold (n : Z) :
  ord2ymd n =
  let n0 := n - 1 in
  let n400 := n0 / DI400Y in
  let r400 := n0 mod DI400Y in
  let n100 := r400 / DI100Y in
  let r100 := r400 mod DI100Y in
  let n4 := r100 / DI4Y in
  let r4 := r100 mod DI4Y in
  let n1 := r4 / 365 in
  let r1 := r4 mod 365 in
  let y := n400 * 400 + 1 + n100 * 100 + n4 * 4 + n1 in
  if (n1 =? 4) || (n100 =? 4) then (y - 1, 12, 31)
  else
    let '(m, d) :=
      month_day r1 ((n1 =? 3) && (negb (n4 =? 24) || (n100 =? 3))) in
    (y, m, d).
Proof.
  unfold ord2ymd, month_day. cbv zeta.
  repeat match goal with
         | |- context [if ?c then _ else _] => destruct c
         end; reflexivity.
Qed.

(** The leap rule in terms of the position within the 400, 100 and 4
    year cycles. *)
Lemma is_leap_cycles (n400 n100 n4 n1 : Z) :
  0 <= n100 <= 3 -> 0 <= n4 <= 24 -> 0 <= n1 <= 3 ->
  is_leap (n400 * 400 + 1 + n100 * 100 + n4 * 4 + n1)
  = (n1 =? 3) && (negb (n4 =? 24) || (n100 =? 3)).
Proof.
  intros H100 H4 H1. unfold is_leap.
  set (y := n400 * 400 + 1 + n100 * 100 + n4 * 4 + n1).
  assert (Hy : y = n400 * 400 + 1 + n100 * 100 + n4 * 4 + n1) by reflexivity.
  clearbody y.
  destruct (Z.eqb_spec (y mod 4) 0), (Z.eqb_spec (y mod 100) 0),
    (Z.eqb_spec (y mod 400) 0), (Z.eqb_spec n1 3), (Z.eqb_spec n4 24),
    (Z.eqb_spec n100 3); cbn; try reflexivity;
    exfalso; Z.div_mod_to_equations; lia.
Qed.

Lemma days_before_year_cycles (n400 n100 n4 n1 : Z) :
  0 <= n100 <= 3 -> 0 <= n4 <= 24 -> 0 <= n1 <= 3 ->
  days_before_year (n400 * 400 + 1 + n100 * 100 + n4 * 4 + n1)
  = n400 * DI400Y + n100 * DI100Y + n4 * DI4Y + n1 * 365.
Proof.
  intros H100 H4 H1. unfold days_before_year, DI400Y, DI100Y, DI4Y. cbv zeta.
  Z.div_mod_to_equations. lia.
Qed.

(** The last day of a leap year that closes a 4 or 400 year cycle. *)
Lemma last_day_of_cycle (n400 n100 n4 n1 : Z) :
  0 <= n100 <= 4 -> 0 <= n4 <= 24 -> 0 <= n1 <= 4 ->
  (n100 = 4 /\ n4 = 0 /\ n1 = 0) \/ (n100 <= 3 /\ n4 <= 23 /\ n1 = 4) ->
  let y := n400 * 400 + 1 + n100 * 100 + n4 * 4 + n1 - 1 in
  is_leap y = true /\
  days_before_year y + 366
  = n400 * DI400Y + n100 * DI100Y + n4 * DI4Y + n1 * 365 + 1.
Proof.
  intros H100 H4 H1 Hc y.
  assert (Hy : y = n400 * 400 + 1 + n100 * 100 + n4 * 4 + n1 - 1) by reflexivity.
  clearbody y. split.
  - unfold is_leap.
    destruct (Z.eqb_spec (y mod 4) 0), (Z.eqb_spec (y mod 100) 0),
      (Z.eqb_spec (y mod 400) 0); cbn; try reflexivity;
      exfalso; Z.div_mod_to_equations; lia.
  - unfold days_before_year, DI400Y, DI100Y, DI4Y. cbv zeta.
    Z.div_mod_to_equations. lia.
Qed.

(** The round trip and the shape of the date, for every ordinal a
    [datetime] can have. *)
Lemma ord2ymd_correct (n : Z) :
  1 <= n <= MAXORDINAL ->
  exists y m d,
    ord2ymd n = (y, m, d) /\ ymd2ord y m d = n /\
    1 <= y <= MAXYEAR /\ 1 <= m <= 12 /\ 1 <= d <= days_in_month y m.
Proof.
  intros Hn. unfold MAXORDINAL in Hn. rewrite ord2ymd_unfold. cbv zeta.
  assert (E400 : n - 1 = DI400Y * ((n - 1) / DI400Y) + (n - 1) mod DI400Y)
    by (apply Z.div_mod; discriminate).
  assert (B400 : 0 <= (n - 1) mod DI400Y < DI400Y)
    by (apply Z.mod_pos_bound; reflexivity).
  set (n400 := (n - 1) / DI400Y) in *. set (r400 := (n - 1) mod DI400Y) in *.
  assert (E100 : r400 = DI100Y * (r400 / DI100Y) + r400 mod DI100Y)
    by (apply Z.div_mod; discriminate).
  assert (B100 : 0 <= r400 mod DI100Y < DI100Y)
    by (apply Z.mod_pos_bound; reflexivity).
  set (n100 := r400 / DI100Y) in *. set (r100 := r400 mod DI100Y) in *.
  assert (E4 : r100 = DI4Y * (r100 / DI4Y) + r100 mod DI4Y)
    by (apply Z.div_mod; discriminate).
  assert (B4 : 0 <= r100 mod DI4Y < DI4Y)
    by (apply Z.mod_pos_bound; reflexivity).
  set (n4 := r100 / DI4Y) in *. set (r4 := r100 mod DI4Y) in *.
  assert (E1 : r4 = 365 * (r4 / 365) + r4 mod 365)
    by (apply Z.div_mod; discriminate).
  assert (B1 : 0 <= r4 mod 365 < 365)
    by (apply Z.mod_pos_bound; reflexivity).
  set (n1 := r4 / 365) in *. set (r1 := r4 mod 365) in *.
  clearbody n400 r400 n100 r100 n4 r4 n1 r1.
  unfold DI400Y, DI100Y, DI4Y in E400, B400, E100, B100, E4, B4.
  assert (H400 : 0 <= n400 <= 24) by lia.
  assert (H100 : 0 <= n100 <= 4) by lia.
  assert (H4 : 0 <= n4 <= 24) by lia.
  assert (H1 : 0 <= n1 <= 4) by lia.
  destruct ((n1 =? 4) || (n100 =? 4)) eqn:Hc.
  - assert (Hcase : (n100 = 4 /\ n4 = 0 /\ n1 = 0) \/
                    (n100 <= 3 /\ n4 <= 23 /\ n1 = 4)).
    { apply orb_true_iff in Hc as [Hc|Hc]; apply Z.eqb_eq in Hc; lia. }
    destruct (last_day_of_cycle n400 n100 n4 n1 H100 H4 H1 Hcase) as [Hl Hd].
    cbv zeta in Hl, Hd. unfold DI400Y, DI100Y, DI4Y in Hd.
    eexists. exists 12, 31. split; [reflexivity|].
    unfold ymd2ord, days_before_month, days_in_month, MAXYEAR. rewrite Hl.
    change (DAYS_BEFORE_MONTH 12) with 334. change (DAYS_IN_MONTH 12) with 31.
    change ((12 =? 2) && true) with false. change ((2 <? 12) && true) with true.
    cbv iota. repeat split; lia.
  - apply orb_false_iff in Hc as [Hc1 Hc2].
    apply Z.eqb_neq in Hc1. apply Z.eqb_neq in Hc2.
    assert (H100' : 0 <= n100 <= 3) by lia.
    assert (H1' : 0 <= n1 <= 3) by lia.
    rewrite <- (is_leap_cycles n400 n100 n4 n1 H100' H4 H1').
    pose proof (days_before_year_cycles n400 n100 n4 n1 H100' H4 H1') as Hd.
    unfold DI400Y, DI100Y, DI4Y in Hd.
    set (y := n400 * 400 + 1 + n100 * 100 + n4 * 4 + n1) in *.
    destruct (month_day_correct r1 (is_leap y) B1) as (m & d & Hmd & Hs & Hm & Hdd).
    rewrite Hmd. exists y, m, d. split; [reflexivity|].
    unfold ymd2ord, days_before_month, days_in_month, MAXYEAR.
    repeat split; lia.
Qed.

Lemma month_cases (m : Z) :
  1 <= m <= 12 ->
  m = 1 \/ m = 2 \/ m = 3 \/ m = 4 \/ m = 5 \/ m = 6 \/
  m = 7 \/ m = 8 \/ m = 9 \/ m = 10 \/ m = 11 \/ m = 12.
Proof. lia. Qed.

Ltac case_month H :=
  let C := fresh "C" in
  pose proof (month_cases _ H) as C;
  repeat (destruct C as [C|C]; [subst|]); [..|subst].

Lemma valid_fields (dt : datetime) :
  valid dt = true ->
  1 <= year dt <= MAXYEAR /\ 1 <= month dt <= 12 /\
  1 <= day dt <= days_in_month (year dt) (month dt) /\
  0 <= hour dt < 24 /\ 0 <= minute dt < 60 /\ 0 <= second dt < 60 /\
  0 <= microsecond dt < 1000000.
Proof.
  unfold valid, MINYEAR, MAXYEAR. intros H.
  repeat (apply andb_true_iff in H as [H ?]). lia.
Qed.

Lemma fields_valid (y m d h mi s us : Z) :
  1 <= y <= MAXYEAR -> 1 <= m <= 12 -> 1 <= d <= days_in_month y m ->
  0 <= h < 24 -> 0 <= mi < 60 -> 0 <= s < 60 -> 0 <= us < 1000000 ->
  valid (mk_datetime y m d h mi s us) = true.
Proof.
  unfold valid, MINYEAR, MAXYEAR. cbn [year month day hour minute second microsecond].
  intros. repeat (apply andb_true_iff; split); lia.
Qed.

Lemma month_table (m : Z) :
  1 <= m <= 12 ->
  0 <= DAYS_BEFORE_MONTH m /\ 28 <= DAYS_IN_MONTH m <= 31 /\
  DAYS_BEFORE_MONTH m + DAYS_IN_MONTH m <= 365 /\
  (m <= 2 -> DAYS_BEFORE_MONTH m + DAYS_IN_MONTH m <= 59).
Proof.
  intros H. case_month H;
    repeat match goal with
           | |- context [DAYS_BEFORE_MONTH ?k] =>
               let v := eval vm_compute in (DAYS_BEFORE_MONTH k) in
               change (DAYS_BEFORE_MONTH k) with v
           | |- context [DAYS_IN_MONTH ?k] =>
               let v := eval vm_compute in (DAYS_IN_MONTH k) in
               change (DAYS_IN_MONTH k) with v
           end; lia.
Qed.

Lemma toordinal_bounds (dt : datetime) :
  valid dt = true -> 1 <= toordinal dt <= MAXORDINAL.
Proof.
  intros H. destruct (valid_fields dt H) as (Hy & Hm & Hd & _).
  unfold toordinal, ymd2ord, MAXORDINAL, MAXYEAR in *.
  destruct dt as [y m d h mi s us]; cbn [year month day] in *.
  assert (Hby : 0 <= days_before_year y /\
                (y <= 9998 -> days_before_year y <= 3651329) /\
                (y = 9999 -> days_before_year y = 3651694)).
  { unfold days_before_year. cbv zeta.
    repeat split; intros; Z.div_mod_to_equations; lia. }
  clear H. revert Hby. generalize (days_before_year y) as B. intros B Hby.
  pose proof (month_table m Hm) as Ht.
  unfold days_before_month, days_in_month in *.
  destruct (Z.eq_dec y 9999) as [Hy9|Hne].
  - replace (is_leap y) with false in * by (subst y; reflexivity).
    rewrite andb_false_r in *. lia.
  - destruct (is_leap y); rewrite ?andb_true_r, ?andb_false_r in *;
      destruct (2 <? m) eqn:E2; destruct (m =? 2) eqn:E3; lia.
Qed.

Lemma day_seconds_bounds (dt : datetime) :
  valid dt = true -> 0 <= day_seconds dt < 86400.
Proof.
  intros H. destruct (valid_fields dt H) as (_ & _ & _ & Hh & Hmi & Hs & _).
  unfold day_seconds. lia.
Qed.

(** Addition moves the instant by the [timedelta] and keeps the date
    well formed. *)
Lemma add_instant (dt dt' : datetime) (td : timedelta) :
  valid dt = true -> td_microseconds td = 0 ->
  Datetime.add dt td = Ok dt' ->
  instant dt' = instant dt + td_days td * 86400 + td_seconds td /\
  valid dt' = true /\ microsecond dt' = microsecond dt.
Proof.
  intros Hv Hus. unfold Datetime.add. rewrite Hus. cbv zeta.
  destruct (valid_fields dt Hv) as (_ & _ & _ & _ & _ & _ & Hmicro).
  replace (microsecond dt + 0) with (microsecond dt) by lia.
  rewrite (Z.div_small (microsecond dt)), (Z.mod_small (microsecond dt)) by lia.
  set (s := day_seconds dt + td_seconds td + 0).
  set (d := toordinal dt + td_days td + s / 86400).
  destruct ((0 <? d) && (d <=? MAXORDINAL)) eqn:Hr; [|discriminate].
  apply andb_true_iff in Hr as [H1 H2].
  destruct (DatetimeFacts.ord2ymd_correct d ltac:(lia))
    as (y & m & dd & Ho & Hy & Hyr & Hm & Hd).
  rewrite Ho. intros [= <-].
  assert (Hs : 0 <= s mod 86400 < 86400) by (apply Z.mod_pos_bound; lia).
  assert (Hsd : s = day_seconds dt + td_seconds td) by (subst s; lia).
  assert (Hdd : d = toordinal dt + td_days td + s / 86400) by reflexivity.
  clearbody d. clearbody s.
  split; [|split; [|reflexivity]].
  - unfold instant at 1. unfold toordinal at 1. unfold day_seconds at 1.
    cbn [year month day hour minute second]. rewrite Hy.
    unfold instant. Z.div_mod_to_equations. lia.
  - apply fields_valid; try assumption; Z.div_mod_to_equations; lia.
Qed.

Lemma timedelta_minutes_total (m : Z) (td : timedelta) :
  timedelta_minutes m = Ok td ->
  td_days td * 86400 + td_seconds td = m * 60 /\
  0 <= td_seconds td < 86400 /\ td_microseconds td = 0.
Proof.
  unfold timedelta_minutes. cbv zeta.
  destruct (Z.abs (m * 60 / 86400) >? 999999999); [discriminate|].
  intros [= <-]. cbn [td_days td_seconds td_microseconds].
  repeat split; Z.div_mod_to_equations; lia.
Qed.

Lemma neg_total (td : timedelta) :
  td_microseconds td = 0 ->
  td_days (neg td) * 86400 + td_seconds (neg td)
    = - (td_days td * 86400 + td_seconds td) /\
  td_microseconds (neg td) = 0.
Proof.
  intros H. unfold neg. rewrite H. cbn.
  split; [|reflexivity]. Z.div_mod_to_equations. lia.
Qed.

End DatetimeFacts.

(** [to_utc] subtracts the offset: the instant moves back by
    [tz_offset_minutes] minutes, whatever the offset. *)
Lemma to_utc_instant (dt u : datetime) (off : Z) :
  valid dt = true -> to_utc dt off = Ok u ->
  instant u = instant dt - off * 60 /\ valid u = true /\
  microsecond u = microsecond dt.
Proof.
  intros Hv. unfold to_utc, rbind, Datetime.sub.
  destruct (timedelta_minutes off) as [td|] eqn:Htd; [|discriminate].
  destruct (DatetimeFacts.timedelta_minutes_total _ _ Htd) as (Ht & _ & Hus).
  destruct (DatetimeFacts.neg_total td Hus) as (Hn & Hnus).
  intros Ha.
  destruct (DatetimeFacts.add_instant _ _ _ Hv Hnus Ha) as (Hi & Hv' & Hm).
  repeat split; try assumption. lia.
Qed.

Lemma to_utc_default_total (dt : datetime) :
  valid dt = true -> EARLIEST_LOCAL <= instant dt ->
  exists u, to_utc dt DEFAULT_TZ_OFFSET_MINUTES = Ok u.
Proof.
  intros Hv He.
  pose proof (DatetimeFacts.toordinal_bounds dt Hv) as Ho.
  pose proof (DatetimeFacts.day_seconds_bounds dt Hv) as Hs.
  destruct (DatetimeFacts.valid_fields dt Hv) as (_ & _ & _ & _ & _ & _ & Hmicro).
  unfold EARLIEST_LOCAL, DEFAULT_TZ_OFFSET_MINUTES, instant in *.
  unfold to_utc, DEFAULT_TZ_OFFSET_MINUTES.
  change (timedelta_minutes 330) with (Ok (mk_timedelta 0 19800 0)).
  unfold rbind, Datetime.sub.
  change (neg (mk_timedelta 0 19800 0)) with (mk_timedelta (-1) 66600 0).
  unfold Datetime.add. cbn [td_days td_seconds td_microseconds]. cbv zeta.
  replace (microsecond dt + 0) with (microsecond dt) by lia.
  rewrite (Z.div_small (microsecond dt)) by lia.
  set (d := toordinal dt + -1 + (day_seconds dt + 66600 + 0) / 86400).
  assert (Hd : 0 < d <= MAXORDINAL).
  { subst d. unfold MAXORDINAL in *. Z.div_mod_to_equations. lia. }
  replace ((0 <? d) && (d <=? MAXORDINAL)) with true
    by (symmetry; apply andb_true_iff; split; lia).
  destruct (ord2ymd d) as [[y m] dd]. eexists. reflexivity.
Qed.

(** Before that time the conversion raises: the day would fall before
    ordinal 1. *)
Lemma to_utc_default_overflow (dt : datetime) :
  valid dt = true -> instant dt < EARLIEST_LOCAL ->
  to_utc dt DEFAULT_TZ_OFFSET_MINUTES = Raise OverflowError.
Proof.
  intros Hv He.
  pose proof (DatetimeFacts.toordinal_bounds dt Hv) as Ho.
  pose proof (DatetimeFacts.day_seconds_bounds dt Hv) as Hs.
  destruct (DatetimeFacts.valid_fields dt Hv) as (_ & _ & _ & _ & _ & _ & Hmicro).
  unfold EARLIEST_LOCAL, DEFAULT_TZ_OFFSET_MINUTES, instant in *.
  unfold to_utc, DEFAULT_TZ_OFFSET_MINUTES.
  change (timedelta_minutes 330) with (Ok (mk_timedelta 0 19800 0)).
  unfold rbind, Datetime.sub.
  change (neg (mk_timedelta 0 19800 0)) with (mk_timedelta (-1) 66600 0).
  unfold Datetime.add. cbn [td_days td_seconds td_microseconds]. cbv zeta.
  replace (microsecond dt + 0) with (microsecond dt) by lia.
  rewrite (Z.div_small (microsecond dt)) by lia.
  set (d := toordinal dt + -1 + (day_seconds dt + 66600 + 0) / 86400).
  assert (Hd : d <= 0) by (subst d; Z.div_mod_to_equations; lia).
  replace (0 <? d) with false by (symmetry; apply Z.ltb_ge; lia).
  reflexivity.
Qed.

(* ================================================================== *)
(** ** Facts about the formats *)
(* ================================================================== *)

Lemma fixed_length (b : Z) (n : nat) (z : Z) :
  String.length (Fmt.fixed b n z) = n.
Proof.
  revert z. induction n as [|n IH]; intros z; cbn [Fmt.fixed].
  - reflexivity.
  - rewrite length_append, IH. cbn. lia.
Qed.

Lemma fmt_2_checked : check_range 7 0 fmt_2_ok = true.
Proof. vm_compute. reflexivity. Qed.

(** Two digits for every field below 100. *)
Lemma fmt_2_fixed (z : Z) : 0 <= z < 100 -> fmt_2 z = Fmt.fixed 10 2 z.
Proof.
  intros Hz.
  assert (H : fmt_2_ok z = true).
  { apply (check_range_sound _ 7 0 fmt_2_checked).
    change (2 ^ Z.of_nat 7) with 128. lia. }
  unfold fmt_2_ok in H.
  destruct (z <? 100) eqn:E; [|apply Z.ltb_ge in E; lia].
  now apply String.eqb_eq.
Qed.

(** Decimal printing against fixed-width printing, digit count by digit
    count. *)
Lemma dec_fuel_1 (fuel : nat) (z : Z) :
  0 <= z < 10 -> Fmt.dec_fuel (S fuel) z = Fmt.fixed 10 1 z.
Proof.
  intros H. cbn [Fmt.dec_fuel Fmt.fixed].
  replace (z <? 10) with true by (symmetry; apply Z.ltb_lt; lia).
  rewrite Z.mod_small by lia. reflexivity.
Qed.

Lemma dec_fuel_step (fuel : nat) (z : Z) :
  10 <= z ->
  Fmt.dec_fuel (S fuel) z
  = Fmt.dec_fuel fuel (z / 10) ++ String (Fmt.digit (z mod 10)) EmptyString.
Proof.
  intros H. cbn [Fmt.dec_fuel].
  replace (z <? 10) with false by (symmetry; apply Z.ltb_ge; lia).
  reflexivity.
Qed.

Lemma dec_fuel_2 (fuel : nat) (z : Z) :
  10 <= z < 100 -> Fmt.dec_fuel (S (S fuel)) z = Fmt.fixed 10 2 z.
Proof.
  intros H. rewrite dec_fuel_step by lia.
  rewrite dec_fuel_1 by (Z.div_mod_to_equations; lia). reflexivity.
Qed.

Lemma dec_fuel_3 (fuel : nat) (z : Z) :
  100 <= z < 1000 -> Fmt.dec_fuel (S (S (S fuel))) z = Fmt.fixed 10 3 z.
Proof.
  intros H. rewrite dec_fuel_step by lia.
  rewrite dec_fuel_2 by (Z.div_mod_to_equations; lia). reflexivity.
Qed.

Lemma dec_fuel_4 (fuel : nat) (z : Z) :
  1000 <= z < 10000 -> Fmt.dec_fuel (S (S (S (S fuel)))) z = Fmt.fixed 10 4 z.
Proof.
  intros H. rewrite dec_fuel_step by lia.
  rewrite dec_fuel_3 by (Z.div_mod_to_equations; lia). reflexivity.
Qed.

(** A number that fits [k] digits starts with a zero when printed with
    one digit more. *)
Lemma fixed_leading_zero (k : nat) :
  forall z, 0 <= z < 10 ^ Z.of_nat k ->
  Fmt.fixed 10 (S k) z = String "0" (Fmt.fixed 10 k z).
Proof.
  induction k as [|k IH]; intros z Hz.
  - change (10 ^ Z.of_nat 0) with 1 in Hz. assert (z = 0) by lia. subst.
    reflexivity.
  - rewrite Nat2Z.inj_succ, Z.pow_succ_r in Hz by lia.
    change (Fmt.fixed 10 (S (S k)) z)
      with (Fmt.fixed 10 (S k) (z / 10)
            ++ String (Fmt.digit (z mod 10)) EmptyString).
    rewrite IH by (split; [apply Z.div_pos; lia
                          | apply Z.div_lt_upper_bound; lia]).
    reflexivity.
Qed.

(** Four digits for the year: always where [%Y] pads, and from the year
    1000 on where it does not. *)
Lemma fmt_Y_fixed (pad : bool) (y : Z) :
  0 <= y <= 9999 -> pad = true \/ 1000 <= y ->
  fmt_Y pad y = Fmt.fixed 10 4 y.
Proof.
  intros Hy Hp. unfold fmt_Y, Fmt.zpad, Fmt.dec.
  replace (y <? 0) with false by (symmetry; apply Z.ltb_ge; lia).
  change 40%nat with (S (S (S (S 36)))).
  destruct (Z_lt_ge_dec y 1000) as [Hlt|Hge].
  - destruct pad; [|destruct Hp as [Hp|Hp]; [discriminate|lia]].
    destruct (Z_lt_ge_dec y 10) as [H1|H1];
      [|destruct (Z_lt_ge_dec y 100) as [H2|H2]].
    + rewrite dec_fuel_1 by lia.
      rewrite (fixed_leading_zero 3), (fixed_leading_zero 2),
        (fixed_leading_zero 1)
        by (cbn; lia).
      rewrite fixed_length. reflexivity.
    + rewrite dec_fuel_2 by lia.
      rewrite (fixed_leading_zero 3), (fixed_leading_zero 2) by (cbn; lia).
      rewrite fixed_length. reflexivity.
    + rewrite dec_fuel_3 by lia.
      rewrite (fixed_leading_zero 3) by (cbn; lia).
      rewrite fixed_length. reflexivity.
  - rewrite dec_fuel_4 by lia.
    destruct pad; [|reflexivity].
    rewrite fixed_length. reflexivity.
Qed.

Lemma stamp_length (dt : datetime) : String.length (stamp dt) = 16%nat.
Proof.
  unfold stamp. rewrite !length_append, !fixed_length. reflexivity.
Qed.

Lemma stamp_ends_with_Z (dt : datetime) :
  substring 15 1 (stamp dt) = "Z".
Proof.
  unfold stamp.
  assert (H : forall a b, String.length a = 15%nat -> substring 15 1 (a ++ b) = substring 0 1 b).
  { intros a.
    do 15 (destruct a as [|? a]; [discriminate|]).
    destruct a; [|discriminate]. reflexivity. }
  set (m := Fmt.fixed 10 2 (month dt)). set (d := Fmt.fixed 10 2 (day dt)).
  set (h := Fmt.fixed 10 2 (hour dt)). set (mi := Fmt.fixed 10 2 (minute dt)).
  set (s := Fmt.fixed 10 2 (second dt)). set (y := Fmt.fixed 10 4 (year dt)).
  replace (y ++ m ++ d ++ "T" ++ h ++ mi ++ s ++ "Z")
    with ((y ++ m ++ d ++ "T" ++ h ++ mi ++ s) ++ "Z")
    by (now rewrite !append_assoc).
  apply H. subst y m d h mi s.
  rewrite !length_append, !fixed_length. reflexivity.
Qed.

Lemma strftime_ics_stamp (pad : bool) (dt : datetime) :
  valid dt = true -> pad = true \/ 1000 <= year dt ->
  strftime_ics pad dt = stamp dt.
Proof.
  intros Hv Hp.
  destruct (DatetimeFacts.valid_fields dt Hv) as (Hy & Hm & Hd & Hh & Hmi & Hs & _).
  assert (Hd' : day dt <= 31).
  { pose proof (DatetimeFacts.month_table (month dt) Hm) as Ht.
    unfold days_in_month in Hd.
    destruct ((month dt =? 2) && is_leap (year dt)); lia. }
  unfold strftime_ics, stamp, MAXYEAR in *.
  rewrite fmt_Y_fixed by (assumption || lia).
  rewrite !fmt_2_fixed by lia. reflexivity.
Qed.

(* ================================================================== *)
(** ** Runs of the ICS generator *)
(* ================================================================== *)

Lemma join_contains (sep line : string) (lines : list string) :
  In line lines -> contains (join sep lines) line.
Proof.
  unfold join. induction lines as [|x xs IH]; intros Hin; [destruct Hin|].
  destruct Hin as [->|Hin].
  - destruct xs as [|y ys].
    + exists "", "". cbn. now rewrite append_empty_r.
    + exists "", (sep ++ String.concat sep (y :: ys)). reflexivity.
  - destruct (IH Hin) as (b & a & E).
    destruct xs as [|y ys]; [destruct Hin|].
    exists (x ++ sep ++ b), a.
    change (String.concat sep (x :: y :: ys))
      with (x ++ sep ++ String.concat sep (y :: ys)).
    rewrite E. now rewrite !append_assoc.
Qed.

Section BuildIcsRuns.

Variables (summary : string) (description location : option string)
          (organizer_email : string) (attendees : list string)
          (dt_start_local dt_end_local : datetime)
          (uid meet_link : option string) (w : world).

Let pad := w_pad_year w.

Let desc :=
  join ESCAPED_NEWLINE (desc_lines pad description meet_link dt_start_local).

(** When both conversions succeed, the run yields the list [ics]. *)
Lemma build_ics_lines_ok (us ue : datetime) :
  to_utc dt_start_local DEFAULT_TZ_OFFSET_MINUTES = Ok us ->
  to_utc dt_end_local DEFAULT_TZ_OFFSET_MINUTES = Ok ue ->
  build_ics_lines summary description location organizer_email attendees
    dt_start_local dt_end_local uid meet_link w
  = (Ok (ics_lines (resolved_uid uid w) (strftime_ics pad (w_now w))
           (strftime_ics pad us) (strftime_ics pad ue) summary desc
           location organizer_email attendees),
     after_uid uid w).
Proof.
  intros Hs He.
  unfold build_ics_lines, bind, lift, ret, pad_year, utcnow, uuid4,
    resolved_uid, after_uid.
  unfold or_else, opt_truthy.
  destruct uid as [u|]; [destruct (str_truthy u)|]; cbv beta iota; unfold count_draw;
    cbn [w_pad_year w_now]; rewrite Hs, He; reflexivity.
Qed.

Lemma build_ics_ok (us ue : datetime) :
  to_utc dt_start_local DEFAULT_TZ_OFFSET_MINUTES = Ok us ->
  to_utc dt_end_local DEFAULT_TZ_OFFSET_MINUTES = Ok ue ->
  build_ics summary description location organizer_email attendees
    dt_start_local dt_end_local uid meet_link w
  = (Ok (join CRLF
           (ics_lines (resolved_uid uid w) (strftime_ics pad (w_now w))
              (strftime_ics pad us) (strftime_ics pad ue) summary desc
              location organizer_email attendees)),
     after_uid uid w).
Proof.
  intros Hs He. unfold build_ics, bind.
  rewrite (build_ics_lines_ok us ue Hs He). reflexivity.
Qed.

(** A conversion out of range ends the run with [OverflowError] or
    whatever [to_utc] raised. *)
Lemma build_ics_start_fails (e : exn) :
  to_utc dt_start_local DEFAULT_TZ_OFFSET_MINUTES = Raise e ->
  build_ics summary description location organizer_email attendees
    dt_start_local dt_end_local uid meet_link w
  = (Raise e, after_uid uid w).
Proof.
  intros Hs.
  unfold build_ics, build_ics_lines, bind, lift, ret, pad_year, utcnow,
    uuid4, after_uid.
  unfold or_else, opt_truthy.
  destruct uid as [u|]; [destruct (str_truthy u)|]; cbv beta iota; unfold count_draw;
    cbn [w_pad_year w_now]; rewrite Hs; reflexivity.
Qed.

Lemma build_ics_end_fails (us : datetime) (e : exn) :
  to_utc dt_start_local DEFAULT_TZ_OFFSET_MINUTES = Ok us ->
  to_utc dt_end_local DEFAULT_TZ_OFFSET_MINUTES = Raise e ->
  build_ics summary description location organizer_email attendees
    dt_start_local dt_end_local uid meet_link w
  = (Raise e, after_uid uid w).
Proof.
  intros Hs He.
  unfold build_ics, build_ics_lines, bind, lift, ret, pad_year, utcnow,
    uuid4, after_uid.
  unfold or_else, opt_truthy.
  destruct uid as [u|]; [destruct (str_truthy u)|]; cbv beta iota; unfold count_draw;
    cbn [w_pad_year w_now]; rewrite Hs, He; reflexivity.
Qed.

End BuildIcsRuns.

(** The first half-day of the calendar is out of reach. *)
Example build_ics_before_calendar :
  fst (build_ics "Team Sync" None None "a@x.com" ["b@x.com"]
         (mk_datetime 1 1 1 5 29 59 0) (mk_datetime 1 1 1 6 0 0 0)
         (Some "evt123") None Sample.world0)
  = Raise OverflowError.
Proof.
  rewrite (build_ics_start_fails _ _ _ _ _ _ _ _ _ _ OverflowError);
    [reflexivity|].
  apply to_utc_default_overflow; [reflexivity | vm_compute; reflexivity].
Qed.

Lemma convertible_to_utc (dt : datetime) :
  convertible dt ->
  exists u,
    to_utc dt DEFAULT_TZ_OFFSET_MINUTES = Ok u /\ valid u = true /\
    instant u = instant dt - DEFAULT_TZ_OFFSET_MINUTES * 60.
Proof.
  intros [Hv He].
  destruct (to_utc_default_total dt Hv He) as [u Hu].
  destruct (to_utc_instant dt u _ Hv Hu) as (Hi & Hvu & _).
  exists u. auto.
Qed.

Lemma sample_start_convertible : convertible Sample.start.
Proof. split; [reflexivity | vm_compute; discriminate]. Defined.

Lemma sample_finish_convertible : convertible Sample.finish.
Proof. split; [reflexivity | vm_compute; discriminate]. Defined.

(* ================================================================== *)
(** ** The ICS generator: start and end stamps *)
(* ================================================================== *)




(* ================================================================== *)
(** ** The ICS generator: identifier, description, location, attendees *)
(* ================================================================== *)

Lemma str_truthy_nonempty (s : string) : s <> "" -> str_truthy s = true.
Proof.
  intros H. unfold str_truthy. destruct (String.eqb_spec s ""); [contradiction|reflexivity].
Qed.

Lemma substring_length (n m : nat) (s : string) :
  (n + m <= String.length s)%nat -> String.length (substring n m s) = m.
Proof.
  revert n m. induction s as [|c s IH]; intros n m H; cbn in H.
  - assert (n = 0%nat) by lia. assert (m = 0%nat) by lia. subst. reflexivity.
  - destruct n as [|n]; cbn.
    + destruct m as [|m]; [reflexivity|]. cbn. f_equal. apply (IH 0%nat). cbn. lia.
    + apply IH. lia.
Qed.

(** A UUID prints as 36 characters. *)
Lemma uuid_str_length (i : Z) : String.length (uuid_str i) = 36%nat.
Proof.
  unfold uuid_str, Fmt.hex32. cbv zeta.
  rewrite !length_append.
  rewrite !substring_length by (rewrite fixed_length; lia).
  reflexivity.
Qed.

Lemma uuid_str_nonempty (i : Z) : uuid_str i <> "".
Proof.
  intros H. pose proof (uuid_str_length i) as L. rewrite H in L. discriminate.
Qed.

Lemma desc_lines_without_link (pad : bool) (description meet_link : option string)
    (dt : datetime) :
  opt_truthy meet_link = false ->
  desc_lines pad description meet_link dt
  = [or_empty description; timezone_line pad dt].
Proof.
  intros H. unfold desc_lines, opt_truthy in *.
  destruct meet_link as [link|]; [rewrite H|]; reflexivity.
Qed.

Lemma desc_lines_with_link (pad : bool) (description : option string)
    (link : string) (dt : datetime) :
  link <> "" ->
  desc_lines pad description (Some link) dt
  = [or_empty description; "Google Meet: " ++ link; timezone_line pad dt].
Proof.
  intros H. unfold desc_lines.
  rewrite (str_truthy_nonempty link H). reflexivity.
Qed.



(** C9: on convertible times, an empty or absent [location] gives the
    line [LOCATION:] with nothing after the colon, and an empty or absent
    [description] gives an empty first segment, so that the
    [DESCRIPTION:] line goes on with the separator at once; neither
    [None] nor [null] is printed for them. *)
Theorem build_ics_empty_location_description :
  forall summary description location organizer_email attendees
         dt_start_local dt_end_local uid meet_link w,
    convertible dt_start_local -> convertible dt_end_local ->
    exists ics w',
      build_ics_lines summary description location organizer_email attendees
        dt_start_local dt_end_local uid meet_link w = (Ok ics, w') /\
      build_ics summary description location organizer_email attendees
        dt_start_local dt_end_local uid meet_link w = (Ok (join CRLF ics), w') /\
      (location = None \/ location = Some "" ->
       nth_error ics 10 = Some "LOCATION:") /\
      (description = None \/ description = Some "" ->
       hd_error (desc_lines (w_pad_year w) description meet_link dt_start_local)
       = Some "" /\
       exists rest,
         tl (desc_lines (w_pad_year w) description meet_link dt_start_local) = rest /\
         nth_error ics 9
         = Some ("DESCRIPTION:" ++ ESCAPED_NEWLINE ++ join ESCAPED_NEWLINE rest)).
Proof.
  intros summary description location organizer_email attendees
    dt_start_local dt_end_local uid meet_link w Hs He.
  destruct (convertible_to_utc _ Hs) as (us & Hus & _).
  destruct (convertible_to_utc _ He) as (ue & Hue & _).
  eexists. eexists.
  rewrite (build_ics_lines_ok _ _ _ _ _ _ _ _ _ _ us ue Hus Hue).
  rewrite (build_ics_ok _ _ _ _ _ _ _ _ _ _ us ue Hus Hue).
  split; [reflexivity|]. split; [reflexivity|]. split.
  - intros Hl. assert (E : or_empty location = "") by (destruct Hl; subst; reflexivity).
    cbn [ics_lines app nth_error]. now rewrite E.
  - intros Hd. assert (E : or_empty description = "") by (destruct Hd; subst; reflexivity).
    unfold desc_lines. rewrite E. split; [reflexivity|].
    eexists. split; [reflexivity|].
    cbn [ics_lines app nth_error tl]. f_equal. f_equal.
    unfold join. destruct meet_link as [link|]; [destruct (str_truthy link)|];
      reflexivity.
Qed.

Lemma build_ics_empty_location_description_witness :
  convertible Sample.start /\ convertible Sample.finish /\
  (Some "" = @None string \/ Some "" = Some "") /\
  (@None string = None \/ @None string = Some "") /\
  exists ics w',
    build_ics "Team Sync" None (Some "") "a@x.com" ["b@x.com"]
      Sample.start Sample.finish (Some "evt123") None Sample.world0
    = (Ok (join CRLF ics), w') /\
    nth_error ics 10 = Some "LOCATION:" /\
    nth_error ics 9
    = Some "DESCRIPTION:\nLocal Timezone: Asia/Kolkata (2024-01-10 09:00)".
Proof.
  split; [exact sample_start_convertible|].
  split; [exact sample_finish_convertible|].
  split; [right; reflexivity|]. split; [left; reflexivity|].
  destruct (build_ics_empty_location_description "Team Sync" None (Some "")
              "a@x.com" ["b@x.com"] Sample.start Sample.finish (Some "evt123")
              None Sample.world0 sample_start_convertible
              sample_finish_convertible)
    as (ics & w' & _ & Hrun & Hloc & Hdesc).
  exists ics, w'. split; [exact Hrun|].
  split; [exact (Hloc (or_intror eq_refl))|].
  destruct (Hdesc (or_introl eq_refl)) as (_ & rest & <- & Hline).
  exact Hline.
Defined.

(** *** Where the text [Google Meet:] can come from

    The separator begins with a backslash, which the text does not hold,
    so an occurrence never runs across a separator; and the time-zone
    line is made of a fixed text without the letter [G], digits and
    punctuation. *)
Lemma has_char_append (c : ascii) (s t : string) :
  has_char c (s ++ t) = has_char c s || has_char c t.
Proof.
  induction s as [|a s IH]; [reflexivity|].
  cbn [append has_char]. rewrite IH. apply orb_assoc.
Qed.

Lemma starts_with_before (p s t : string) (c : ascii) :
  has_char c p = false ->
  starts_with p (s ++ String c t) = starts_with p s.
Proof.
  revert s. induction p as [|a p IH]; intros s H; [reflexivity|].
  cbn [has_char] in H. apply orb_false_iff in H as [Ha Hp].
  destruct s as [|b s]; cbn [append starts_with].
  - now rewrite Ha.
  - now rewrite (IH s Hp).
Qed.

Lemma occurrences_before (p s t : string) (c : ascii) :
  has_char c p = false ->
  occurrences p (s ++ String c t)
  = (occurrences p s + occurrences p (String c t))%nat.
Proof.
  intros H. induction s as [|b s IH]; [reflexivity|].
  change (String b s ++ String c t) with (String b (s ++ String c t)).
  cbn [occurrences].
  change (String b (s ++ String c t)) with (String b s ++ String c t).
  rewrite (starts_with_before p (String b s) t c H), IH. cbn [occurrences].
  destruct (starts_with p (String b s)), (starts_with p (String c t)); lia.
Qed.

Lemma occurrences_absent (c : ascii) (p s : string) :
  has_char c s = false -> occurrences (String c p) s = 0%nat.
Proof.
  induction s as [|a s IH]; intros H; [reflexivity|].
  cbn [has_char] in H. apply orb_false_iff in H as [Ha Hs].
  cbn [occurrences starts_with]. rewrite Ascii.eqb_sym, Ha, (IH Hs). reflexivity.
Qed.

Lemma digit_is_not_G (d : Z) :
  0 <= d < 10 -> has_char "G" (String (Fmt.digit d) EmptyString) = false.
Proof.
  intros H.
  assert (E : d = 0 \/ d = 1 \/ d = 2 \/ d = 3 \/ d = 4 \/ d = 5 \/ d = 6
              \/ d = 7 \/ d = 8 \/ d = 9) by lia.
  repeat (destruct E as [->|E]; [reflexivity|]). now subst.
Qed.

Lemma dec_fuel_without_G (fuel : nat) (z : Z) :
  0 <= z -> has_char "G" (Fmt.dec_fuel fuel z) = false.
Proof.
  revert z. induction fuel as [|k IH]; intros z Hz; [reflexivity|].
  cbn [Fmt.dec_fuel]. destruct (Z.ltb_spec z 10).
  - apply digit_is_not_G. lia.
  - rewrite has_char_append, IH, digit_is_not_G; [reflexivity| |].
    + apply Z.mod_pos_bound. lia.
    + apply Z.div_pos; lia.
Qed.

Lemma zeros_without_G (n : nat) : has_char "G" (Fmt.zeros n) = false.
Proof. induction n as [|n IH]; [reflexivity|exact IH]. Qed.

Lemma dec_without_G (z : Z) : has_char "G" (Fmt.dec z) = false.
Proof.
  unfold Fmt.dec. destruct (Z.ltb_spec z 0).
  - rewrite has_char_append, dec_fuel_without_G by lia. reflexivity.
  - apply dec_fuel_without_G. lia.
Qed.

Lemma zpad_without_G (n : nat) (z : Z) : has_char "G" (Fmt.zpad n z) = false.
Proof.
  unfold Fmt.zpad. cbv zeta. destruct (Z.ltb_spec z 0).
  - rewrite !has_char_append, zeros_without_G, dec_fuel_without_G by lia.
    reflexivity.
  - rewrite has_char_append, zeros_without_G, dec_without_G. reflexivity.
Qed.

Lemma timezone_line_without_G (pad : bool) (dt : datetime) :
  has_char "G" (timezone_line pad dt) = false.
Proof.
  unfold timezone_line, strftime_local, fmt_Y, fmt_2.
  rewrite !has_char_append, !zpad_without_G.
  destruct pad; rewrite ?zpad_without_G, ?dec_without_G; reflexivity.
Qed.

Lemma occurrences_none_starts (c : ascii) (p s : string) :
  occurrences (String c p) s = 0%nat -> starts_with (String c p) s = false.
Proof.
  destruct s as [|a s]; [reflexivity|]. cbn [occurrences].
  destruct (starts_with (String c p) (String a s)); [discriminate|reflexivity].
Qed.

(** The text occurs in [given \n rest] as often as in the two parts. *)
Lemma occurrences_segments (given rest : string) :
  occurrences "Google Meet:" (given ++ ESCAPED_NEWLINE ++ rest)
  = (occurrences "Google Meet:" given + occurrences "Google Meet:" rest)%nat.
Proof.
  unfold ESCAPED_NEWLINE.
  change (String (ascii_of_nat 92) (String (ascii_of_nat 110) "") ++ rest)
    with (String (ascii_of_nat 92) (String (ascii_of_nat 110) rest)).
  rewrite occurrences_before by reflexivity. reflexivity.
Qed.

Lemma occurrences_meet_line (link : string) :
  occurrences "Google Meet:" ("Google Meet: " ++ link)
  = S (occurrences "Google Meet:" link).
Proof. reflexivity. Qed.




(** The attendee records of [ics] are the lines made from the attendees,
    one for each, whatever the other fields hold. *)
Lemma attendee_records (uid dtstamp dtstart dtend summary desc : string)
    (location : option string) (organizer_email : string)
    (attendees : list string) :
  filter (starts_with "ATTENDEE")
    (ics_lines uid dtstamp dtstart dtend summary desc location organizer_email
       attendees)
  = attendee_lines attendees.
Proof.
  unfold ics_lines. rewrite !filter_app.
  assert (Ha : filter (starts_with "ATTENDEE") (attendee_lines attendees)
               = attendee_lines attendees).
  { induction attendees as [|a l IH]; [reflexivity|].
    cbn [attendee_lines map filter] in *.
    change (starts_with "ATTENDEE"
              ("ATTENDEE;ROLE=REQ-PARTICIPANT;RSVP=TRUE:mailto:" ++ a)) with true.
    cbv iota. f_equal. exact IH. }
  rewrite Ha. cbn. now rewrite app_nil_r.
Qed.

(** C4: with no attendees, on convertible times, [ics] has its fourteen
    fixed lines and no attendee record; it opens with [BEGIN:VCALENDAR],
    closes with [END:VCALENDAR], holds [BEGIN:VEVENT] once (line 3) and
    [END:VEVENT] once (line 12), and the output is these lines joined by
    carriage return and line feed. *)
Theorem build_ics_no_attendees :
  forall summary description location organizer_email
         dt_start_local dt_end_local uid meet_link w,
    convertible dt_start_local -> convertible dt_end_local ->
    exists ics w' body,
      build_ics_lines summary description location organizer_email []
        dt_start_local dt_end_local uid meet_link w = (Ok ics, w') /\
      build_ics summary description location organizer_email []
        dt_start_local dt_end_local uid meet_link w = (Ok (join CRLF ics), w') /\
      List.length ics = 14%nat /\
      filter (starts_with "ATTENDEE") ics = [] /\
      hd_error ics = Some "BEGIN:VCALENDAR" /\
      nth_error ics 13 = Some "END:VCALENDAR" /\
      nth_error ics 3 = Some "BEGIN:VEVENT" /\
      nth_error ics 12 = Some "END:VEVENT" /\
      filter (String.eqb "BEGIN:VEVENT") ics = ["BEGIN:VEVENT"] /\
      filter (String.eqb "END:VEVENT") ics = ["END:VEVENT"] /\
      list_ascii_of_string CRLF = [ascii_of_nat 13; ascii_of_nat 10] /\
      join CRLF ics
      = "BEGIN:VCALENDAR" ++ CRLF ++ body ++ CRLF ++ "END:VEVENT" ++ CRLF
        ++ "END:VCALENDAR".
Proof.
  intros summary description location organizer_email
    dt_start_local dt_end_local uid meet_link w Hs He.
  destruct (convertible_to_utc _ Hs) as (us & Hus & _).
  destruct (convertible_to_utc _ He) as (ue & Hue & _).
  eexists. eexists.
  rewrite (build_ics_lines_ok _ _ _ _ _ _ _ _ _ _ us ue Hus Hue).
  rewrite (build_ics_ok _ _ _ _ _ _ _ _ _ _ us ue Hus Hue).
  set (u := resolved_uid uid w).
  set (t0 := strftime_ics (w_pad_year w) (w_now w)).
  set (t1 := strftime_ics (w_pad_year w) us).
  set (t2 := strftime_ics (w_pad_year w) ue).
  set (d := join ESCAPED_NEWLINE _).
  exists (join CRLF
            [ "VERSION:2.0"; "METHOD:REQUEST"; "BEGIN:VEVENT"; "UID:" ++ u;
              "DTSTAMP:" ++ t0; "DTSTART:" ++ t1; "DTEND:" ++ t2;
              "SUMMARY:" ++ summary; "DESCRIPTION:" ++ d;
              "LOCATION:" ++ or_empty location;
              "ORGANIZER:mailto:" ++ organizer_email ]).
  split; [reflexivity|]. split; [reflexivity|].
  split; [reflexivity|].
  split; [apply attendee_records|].
  repeat (split; [reflexivity|]).
  unfold ics_lines, attendee_lines, join.
  cbn [map app String.concat].
  generalize CRLF as sep. intros sep.
  rewrite !append_assoc. reflexivity.
Qed.

Lemma build_ics_no_attendees_witness :
  convertible Sample.start /\ convertible Sample.finish /\
  exists ics w',
    build_ics "Team Sync" None None "a@x.com" []
      Sample.start Sample.finish (Some "evt123") None Sample.world0
    = (Ok (join CRLF ics), w') /\
    List.length ics = 14%nat /\
    filter (starts_with "ATTENDEE") ics = [].
Proof.
  split; [exact sample_start_convertible|].
  split; [exact sample_finish_convertible|].
  destruct (build_ics_no_attendees "Team Sync" None None "a@x.com"
              Sample.start Sample.finish (Some "evt123") None Sample.world0
              sample_start_convertible sample_finish_convertible)
    as (ics & w' & body & _ & Hrun & Hlen & Hatt & _).
  exists ics, w'. split; [exact Hrun|]. split; [exact Hlen|exact Hatt].
Defined.

(** C5: two runs on the same inputs with a non-empty [uid], on the same
    platform and on convertible times, both succeed, and their lists
    [ics] are equally long and agree at every index but 5, where each has
    its own [DTSTAMP:] line; the output of each run is its list joined by
    CRLF. *)
Theorem build_ics_repeatable :
  forall summary description location organizer_email attendees
         dt_start_local dt_end_local u meet_link w1 w2,
    convertible dt_start_local -> convertible dt_end_local ->
    u <> "" -> w_pad_year w1 = w_pad_year w2 ->
    exists ics1 ics2,
      build_ics_lines summary description location organizer_email attendees
        dt_start_local dt_end_local (Some u) meet_link w1 = (Ok ics1, w1) /\
      build_ics_lines summary description location organizer_email attendees
        dt_start_local dt_end_local (Some u) meet_link w2 = (Ok ics2, w2) /\
      build_ics summary description location organizer_email attendees
        dt_start_local dt_end_local (Some u) meet_link w1
      = (Ok (join CRLF ics1), w1) /\
      build_ics summary description location organizer_email attendees
        dt_start_local dt_end_local (Some u) meet_link w2
      = (Ok (join CRLF ics2), w2) /\
      List.length ics1 = List.length ics2 /\
      (forall i, i <> 5%nat -> nth_error ics1 i = nth_error ics2 i) /\
      nth_error ics1 5
      = Some ("DTSTAMP:" ++ strftime_ics (w_pad_year w1) (w_now w1)) /\
      nth_error ics2 5
      = Some ("DTSTAMP:" ++ strftime_ics (w_pad_year w2) (w_now w2)).
Proof.
  intros summary description location organizer_email attendees
    dt_start_local dt_end_local u meet_link w1 w2 Hs He Hu Hp.
  destruct (convertible_to_utc _ Hs) as (us & Hus & _).
  destruct (convertible_to_utc _ He) as (ue & Hue & _).
  eexists. eexists.
  rewrite !(build_ics_lines_ok _ _ _ _ _ _ _ _ _ _ us ue Hus Hue).
  rewrite !(build_ics_ok _ _ _ _ _ _ _ _ _ _ us ue Hus Hue).
  unfold after_uid, resolved_uid, opt_truthy.
  rewrite (str_truthy_nonempty u Hu), <- Hp.
  repeat split; try reflexivity.
  intros i Hi. unfold ics_lines.
  do 5 (destruct i as [|i]; [reflexivity|]).
  destruct i as [|i]; [contradiction|reflexivity].
Qed.

Lemma build_ics_repeatable_witness :
  convertible Sample.start /\ convertible Sample.finish /\ "evt123" <> "" /\
  w_pad_year Sample.world0 = w_pad_year Sample.world1 /\
  exists ics1 ics2,
    build_ics "Team Sync" None None "a@x.com" ["b@x.com"]
      Sample.start Sample.finish (Some "evt123") None Sample.world0
    = (Ok (join CRLF ics1), Sample.world0) /\
    build_ics "Team Sync" None None "a@x.com" ["b@x.com"]
      Sample.start Sample.finish (Some "evt123") None Sample.world1
    = (Ok (join CRLF ics2), Sample.world1) /\
    (forall i, i <> 5%nat -> nth_error ics1 i = nth_error ics2 i) /\
    nth_error ics1 5 = Some "DTSTAMP:20240109T120000Z" /\
    nth_error ics2 5 = Some "DTSTAMP:20240109T120001Z".
Proof.
  split; [exact sample_start_convertible|].
  split; [exact sample_finish_convertible|].
  assert (H : "evt123" <> "") by discriminate.
  split; [exact H|]. split; [reflexivity|].
  destruct (build_ics_repeatable "Team Sync" None None "a@x.com" ["b@x.com"]
              Sample.start Sample.finish "evt123" None Sample.world0 Sample.world1
              sample_start_convertible sample_finish_convertible H eq_refl)
    as (ics1 & ics2 & _ & _ & H1 & H2 & _ & Hi & H5 & H5').
  exists ics1, ics2.
  split; [exact H1|]. split; [exact H2|]. split; [exact Hi|].
  split; [exact H5|exact H5'].
Defined.

(* ================================================================== *)
(** ** Meeting-link extraction *)
(* ================================================================== *)

Lemma scan_entry_points_json (eps : list entry_point) (v : pyval) :
  scan_entry_points (map entry_point_json eps) v
  = (match find is_video eps with
     | Some ep => PStr (uri_of ep)
     | None => v
     end, None).
Proof.
  induction eps as [|ep eps IH]; [reflexivity|].
  cbn [map scan_entry_points find].
  destruct ep as [[t|] [u|]]; unfold is_video, uri_of; cbn;
    try (destruct (String.eqb t "video")); try reflexivity; exact IH.
Qed.

(** A raise inside the loop leaves [meet_link] as it was. *)
Lemma scan_entry_points_raise (eps : list pyval) (v0 v : pyval) (e : exn) :
  scan_entry_points eps v0 = (v, Some e) -> v = v0.
Proof.
  induction eps as [|ep eps IH]; cbn [scan_entry_points]; [discriminate|].
  destruct (py_get ep "entryPointType" PNone) as [t|e1]; [|now intros [= <- _]].
  destruct (py_eq_str t "video"); [|exact IH].
  destruct (py_get ep "uri" (PStr "")); [discriminate | now intros [= <- _]].
Qed.

(** After a loop that ended without a raise, [entry_points[0].get] cannot
    raise either. *)
Lemma fallback_cannot_raise (entry_points : pyval) (eps : list pyval)
    (v0 v : pyval) (e : exn) :
  py_iter entry_points = Ok eps ->
  scan_entry_points eps v0 = (v, None) ->
  rbind (py_index0 entry_points) (fun ep0 => py_get ep0 "uri" (PStr "")) <> Raise e
  \/ py_truthy entry_points = false.
Proof.
  intros Hi Hs.
  destruct entry_points as [| | |s| |l|d]; try discriminate; cbn in Hi.
  - injection Hi as <-. destruct s as [|c r]; [right; reflexivity|].
    cbn in Hs. discriminate.
  - injection Hi as <-. destruct l as [|x l]; [right; reflexivity|].
    left. cbn [scan_entry_points] in Hs. cbn [py_index0 rbind].
    destruct x; cbn in Hs |- *; try discriminate.
    destruct (dict_lookup items "uri"); discriminate.
  - injection Hi as <-. destruct d as [|[k x] d]; [right; reflexivity|].
    cbn in Hs. discriminate.
Qed.

Lemma link_try_body_raise (created v : pyval) (e : exn) :
  link_try_body created (PStr "") = (v, Some e) -> v = PStr "".
Proof.
  unfold link_try_body.
  destruct (py_get created "conferenceData" (PDict [])) as [cd|]; [|now intros [= <- _]].
  destruct (py_get cd "entryPoints" (PList [])) as [entry_points|]; [|now intros [= <- _]].
  destruct (py_iter entry_points) as [eps|] eqn:Hi; [|now intros [= <- _]].
  destruct (scan_entry_points eps (PStr "")) as [m [e1|]] eqn:Hs.
  - intros [= <- _]. exact (scan_entry_points_raise _ _ _ _ Hs).
  - destruct (negb (py_truthy m) && py_truthy entry_points) eqn:Hc; [|discriminate].
    apply andb_true_iff in Hc as [_ Ht].
    destruct (rbind (py_index0 entry_points) (fun ep0 => py_get ep0 "uri" (PStr "")))
      as [u|e2] eqn:Hf; [discriminate|].
    destruct (fallback_cannot_raise entry_points eps (PStr "") m e2 Hi Hs) as [H|H].
    + contradiction.
    + rewrite H in Ht. discriminate.
Qed.

(** The body of the [try] on an answer that has both keys. *)
Lemma link_try_body_entry_points (d cd : dict) (entry_points meet_link : pyval) :
  dict_lookup d "conferenceData" = Some (PDict cd) ->
  dict_lookup cd "entryPoints" = Some entry_points ->
  link_try_body (PDict d) meet_link
  = match py_iter entry_points with
    | Raise e => (meet_link, Some e)
    | Ok eps =>
        match scan_entry_points eps meet_link with
        | (meet_link, Some e) => (meet_link, Some e)
        | (meet_link, None) =>
            if negb (py_truthy meet_link) && py_truthy entry_points then
              match rbind (py_index0 entry_points)
                      (fun ep0 => py_get ep0 "uri" (PStr "")) with
              | Raise e => (meet_link, Some e)
              | Ok u => (u, None)
              end
            else (meet_link, None)
        end
    end.
Proof.
  intros Hcd Hep. unfold link_try_body. cbn [py_get]. rewrite Hcd.
  cbn [py_get]. rewrite Hep. reflexivity.
Qed.

Lemma extract_meet_link_entries (d cd : dict) (eps : list entry_point) :
  dict_lookup d "conferenceData" = Some (PDict cd) ->
  dict_lookup cd "entryPoints" = Some (PList (map entry_point_json eps)) ->
  extract_meet_link (PDict d) = PStr (selected_link eps).
Proof.
  intros Hcd Hep. unfold extract_meet_link, selected_link.
  rewrite (link_try_body_entry_points d cd _ _ Hcd Hep).
  cbn [py_iter]. rewrite scan_entry_points_json.
  destruct (find is_video eps) as [ep|] eqn:Hf.
  - cbn [py_truthy]. destruct (str_truthy (uri_of ep)); [reflexivity|].
    destruct eps as [|ep0 eps]; [discriminate Hf|].
    cbn [negb andb map py_truthy py_index0 rbind fst first_uri].
    destruct ep0 as [[t|] [u|]]; reflexivity.
  - destruct eps as [|ep0 eps]; [reflexivity|].
    cbn [negb andb map py_truthy py_index0 rbind fst first_uri str_truthy].
    destruct ep0 as [[t|] [u|]]; reflexivity.
Qed.

Lemma extract_meet_link_json (id : string) (eps : list entry_point) :
  extract_meet_link (created_json id eps) = PStr (selected_link eps).
Proof.
  exact (extract_meet_link_entries
           [ ("id", PStr id);
             ("conferenceData",
               PDict [("entryPoints", PList (map entry_point_json eps))]) ]
           [("entryPoints", PList (map entry_point_json eps))] eps
           eq_refl eq_refl).
Qed.

(** Entry points of other types are passed over. *)
Lemma scan_entry_points_others (before rest : list pyval) (v : pyval) :
  forallb is_other_entry before = true ->
  scan_entry_points (before ++ rest) v = scan_entry_points rest v.
Proof.
  induction before as [|x before IH]; intros H; [reflexivity|].
  cbn [forallb] in H. apply andb_true_iff in H as [Hx Hb].
  destruct x; try discriminate Hx.
  cbn [app scan_entry_points py_get is_other_entry] in *.
  unfold entry_type in Hx.
  destruct (dict_lookup items "entryPointType") as [t|];
    apply negb_true_iff in Hx; rewrite Hx; exact (IH Hb).
Qed.

Lemma scan_entry_points_no_video (eps : list pyval) (v : pyval) :
  forallb is_other_entry eps = true -> scan_entry_points eps v = (v, None).
Proof.
  intros H. rewrite <- (app_nil_r eps).
  now rewrite (scan_entry_points_others eps [] v H).
Qed.

(** The first entry of a list that is not a dictionary of another type
    is either no dictionary at all or a video entry; or there is no such
    entry. *)
Lemma entry_points_cases (eps : list pyval) :
  forallb is_other_entry eps = true \/
  exists before x after,
    eps = (before ++ x :: after)%list /\
    forallb is_other_entry before = true /\
    ((forall entry, x <> PDict entry) \/
     exists entry, x = PDict entry /\ py_eq_str (entry_type entry) "video" = true).
Proof.
  induction eps as [|x eps IH]; [left; reflexivity|].
  destruct (is_other_entry x) eqn:Hx.
  - destruct IH as [IH|(before & y & after & -> & Hb & Hy)].
    + left. cbn [forallb]. now rewrite Hx, IH.
    + right. exists (x :: before), y, after.
      split; [reflexivity|]. split; [cbn [forallb]; now rewrite Hx, Hb|exact Hy].
  - right. exists [], x, eps. split; [reflexivity|]. split; [reflexivity|].
    destruct x; try (left; discriminate).
    right. exists items. split; [reflexivity|].
    cbn [is_other_entry] in Hx. now apply negb_false_iff in Hx.
Qed.

(** The entry points are dictionaries up to a video entry, or throughout:
    nothing raises. *)
Lemma link_try_body_video (d cd : dict) (before after : list pyval) (entry : dict) :
  dict_lookup d "conferenceData" = Some (PDict cd) ->
  dict_lookup cd "entryPoints" = Some (PList (before ++ PDict entry :: after)) ->
  forallb is_other_entry before = true ->
  py_eq_str (entry_type entry) "video" = true ->
  link_try_body (PDict d) (PStr "")
  = (if py_truthy (entry_uri entry) then entry_uri entry
     else match hd (PDict entry) before with
          | PDict first => entry_uri first
          | _ => PStr ""
          end, None).
Proof.
  intros Hcd Hep Hb Hv.
  rewrite (link_try_body_entry_points d cd _ _ Hcd Hep). cbn [py_iter].
  rewrite (scan_entry_points_others before _ _ Hb).
  cbn [scan_entry_points py_get]. unfold entry_type in Hv.
  assert (Ht : py_eq_str (match dict_lookup entry "entryPointType" with
                          | Some t => t
                          | None => PNone
                          end) "video" = true) by exact Hv.
  destruct (dict_lookup entry "entryPointType") as [t|]; rewrite Ht;
    fold (entry_uri entry);
    (replace (match dict_lookup entry "uri" with
              | Some x => Ok x
              | None => Ok (PStr "")
              end) with (Ok (entry_uri entry))
       by (unfold entry_uri; now destruct (dict_lookup entry "uri")));
    (destruct (py_truthy (entry_uri entry)); cbn [negb andb]; [reflexivity|]);
    (destruct before as [|x before'];
     [ cbn [app py_truthy py_index0 rbind py_get hd]; unfold entry_uri;
       destruct (dict_lookup entry "uri"); reflexivity
     | cbn [forallb] in Hb; apply andb_true_iff in Hb as [Hx _];
       destruct x; try discriminate Hx;
       cbn [app py_truthy py_index0 rbind py_get hd]; unfold entry_uri;
       destruct (dict_lookup items "uri"); reflexivity ]).
Qed.

Lemma link_try_body_no_video (d cd : dict) (eps : list pyval) :
  dict_lookup d "conferenceData" = Some (PDict cd) ->
  dict_lookup cd "entryPoints" = Some (PList eps) ->
  forallb is_other_entry eps = true ->
  link_try_body (PDict d) (PStr "")
  = (match eps with
     | PDict first :: _ => entry_uri first
     | _ => PStr ""
     end, None).
Proof.
  intros Hcd Hep Hb.
  rewrite (link_try_body_entry_points d cd _ _ Hcd Hep). cbn [py_iter].
  rewrite (scan_entry_points_no_video eps _ Hb).
  destruct eps as [|x eps]; [reflexivity|].
  cbn [forallb] in Hb. apply andb_true_iff in Hb as [Hx _].
  destruct x; try discriminate Hx.
  cbn [py_truthy str_truthy String.eqb negb andb py_index0 rbind py_get].
  unfold entry_uri. destruct (dict_lookup items "uri"); reflexivity.
Qed.

(** Answers without entry points: a missing key is made up for by the
    default of [get], and nothing raises. *)
Lemma link_try_body_no_entry_points (d : dict) :
  dict_lookup d "conferenceData" = None \/
  (exists cd,
     dict_lookup d "conferenceData" = Some (PDict cd) /\
     (dict_lookup cd "entryPoints" = None \/
      dict_lookup cd "entryPoints" = Some (PList []))) ->
  link_try_body (PDict d) (PStr "") = (PStr "", None).
Proof.
  intros [Hcd|(cd & Hcd & [Hep|Hep])].
  - unfold link_try_body. cbn [py_get]. rewrite Hcd. reflexivity.
  - unfold link_try_body. cbn [py_get]. rewrite Hcd. cbn [py_get].
    rewrite Hep. reflexivity.
  - rewrite (link_try_body_entry_points d cd _ _ Hcd Hep). reflexivity.
Qed.

(** Answers of the wrong shape: whatever is not a dictionary where one is
    expected, not a list where the entry points are expected, or not a
    dictionary among the entry points the loop reads, leaves the link
    empty. *)
Lemma extract_meet_link_not_a_dict (created : pyval) :
  (forall d, created <> PDict d) -> extract_meet_link created = PStr "".
Proof.
  intros H. destruct created; try reflexivity. now destruct (H items).
Qed.

Lemma extract_meet_link_bad_conference_data (d : dict) (v : pyval) :
  dict_lookup d "conferenceData" = Some v ->
  (forall cd, v <> PDict cd) ->
  extract_meet_link (PDict d) = PStr "".
Proof.
  intros Hcd H. unfold extract_meet_link, link_try_body. cbn [py_get].
  rewrite Hcd. destruct v; try reflexivity. now destruct (H items).
Qed.

Lemma extract_meet_link_bad_entry_points (d cd : dict) (v : pyval) :
  dict_lookup d "conferenceData" = Some (PDict cd) ->
  dict_lookup cd "entryPoints" = Some v ->
  (forall l, v <> PList l) ->
  extract_meet_link (PDict d) = PStr "".
Proof.
  intros Hcd Hep H. unfold extract_meet_link.
  rewrite (link_try_body_entry_points d cd _ _ Hcd Hep).
  destruct v as [| | |s| |l|items]; try reflexivity.
  - destruct s; reflexivity.
  - now destruct (H l).
  - destruct items as [|[k x] items]; reflexivity.
Qed.

Lemma extract_meet_link_bad_entry (d cd : dict) (before after : list pyval)
    (x : pyval) :
  dict_lookup d "conferenceData" = Some (PDict cd) ->
  dict_lookup cd "entryPoints" = Some (PList (before ++ x :: after)) ->
  forallb is_other_entry before = true ->
  (forall entry, x <> PDict entry) ->
  snd (link_try_body (PDict d) (PStr "")) = Some AttributeError /\
  extract_meet_link (PDict d) = PStr "".
Proof.
  intros Hcd Hep Hb H. unfold extract_meet_link.
  rewrite (link_try_body_entry_points d cd _ _ Hcd Hep).
  cbn [py_iter]. rewrite (scan_entry_points_others before _ _ Hb).
  destruct x; try (split; reflexivity). now destruct (H items).
Qed.

(** [v.get(key, default)] is the bound method applied. *)
Lemma py_get_method_get (v : pyval) (key : string) (default x : pyval) :
  py_get v key default = Ok x <->
  exists get, py_get_method v = Ok get /\ get key default = x.
Proof.
  destruct v; cbn [py_get py_get_method]; split;
    try discriminate; try (intros (get & H & _); discriminate H).
  - intros H. eexists. split; [reflexivity|]. cbv beta.
    destruct (dict_lookup items key); now injection H.
  - intros (get & [= <-] & <-). now destruct (dict_lookup items key).
Qed.

(** A run of [schedule_meeting] in which the credential, the parsing, the
    end time and the insertion succeed and the answer has [get]. *)
Lemma schedule_meeting_ok (date time_str : string) (duration_min : Z)
    (attendees : list string) (summary : string)
    (description location recurrence : option string) (w : world)
    (start_dt end_dt : datetime) (created event_id : pyval) :
  let request_id := uuid_str (uuid_int (w_urandom w (w_draws w))) in
  let fallback_id := uuid_str (uuid_int (w_urandom w (S (w_draws w)))) in
  let event := event_body summary description location start_dt end_dt
                 attendees request_id recurrence in
  w_service w (w_service_calls w) "calendar" = None ->
  Strptime.strptime (date ++ " " ++ time_str) = Ok start_dt ->
  rbind (timedelta_minutes duration_min) (Datetime.add start_dt) = Ok end_dt ->
  w_calendar_insert w (PDict event) = Ok created ->
  py_get created "id" (PStr fallback_id) = Ok event_id ->
  schedule_meeting date time_str duration_min attendees summary description
    location recurrence w
  = (Ok (extract_meet_link created, event_id, start_dt, end_dt),
     count_draw (log_event (PDict event) (count_draw (count_service_call w)))).
Proof.
  intros request_id fallback_id event Hsvc Hparse Hend Hins Hid.
  subst request_id fallback_id event.
  unfold schedule_meeting, bind, get_google_service, lift, uuid4, events_insert, ret.
  rewrite Hsvc, Hparse, Hend.
  cbn [w_urandom w_draws w_calendar_insert count_draw count_service_call].
  rewrite Hins.
  cbn [w_urandom w_draws log_event].
  apply py_get_method_get in Hid as (get & Hget & <-).
  rewrite Hget. reflexivity.
Qed.

(** C6, as the code has it.  In an answer that is a dictionary holding
    the entry points as the service documents them, the link is the
    address of the first entry point of type ["video"] when that address
    is non-empty; otherwise (no such entry point, or one with an empty or
    missing address) the address of the first entry point; and the empty
    string when there is none.  There is none, and nothing raises, when
    the list is empty or when the answer has no [conferenceData] or the
    conference data no [entryPoints].  A raise inside the [try] leaves
    the link empty, for any answer whatever: so does an answer that is
    not a dictionary, conference data that is not one, entry points that
    are not a list, and an entry that is not a dictionary before any
    video entry.  Entry points that are dictionaries, whatever they hold,
    are selected from in the same way, and every list of entry points is
    of one of these kinds.  When the answer is a dictionary,
    [schedule_meeting] goes on to return the link with the event
    identifier and the times. *)
Theorem meet_link_extraction :
  (forall d cd eps,
     dict_lookup d "conferenceData" = Some (PDict cd) ->
     dict_lookup cd "entryPoints" = Some (PList (map entry_point_json eps)) ->
     extract_meet_link (PDict d) = PStr (selected_link eps)) /\
  (forall id eps,
     extract_meet_link (created_json id eps) = PStr (selected_link eps)) /\
  (forall eps,
     selected_link eps
     = match find is_video eps with
       | Some ep => if str_truthy (uri_of ep) then uri_of ep else first_uri eps
       | None => first_uri eps
       end) /\
  selected_link [] = "" /\
  (forall d,
     dict_lookup d "conferenceData" = None \/
     (exists cd,
        dict_lookup d "conferenceData" = Some (PDict cd) /\
        (dict_lookup cd "entryPoints" = None \/
         dict_lookup cd "entryPoints" = Some (PList []))) ->
     snd (link_try_body (PDict d) (PStr "")) = None /\
     extract_meet_link (PDict d) = PStr "") /\
  (forall created e,
     snd (link_try_body created (PStr "")) = Some e ->
     extract_meet_link created = PStr "") /\
  (forall created,
     (forall d, created <> PDict d) -> extract_meet_link created = PStr "") /\
  (forall d v,
     dict_lookup d "conferenceData" = Some v ->
     (forall cd, v <> PDict cd) ->
     extract_meet_link (PDict d) = PStr "") /\
  (forall d cd v,
     dict_lookup d "conferenceData" = Some (PDict cd) ->
     dict_lookup cd "entryPoints" = Some v ->
     (forall l, v <> PList l) ->
     extract_meet_link (PDict d) = PStr "") /\
  (forall d cd before x after,
     dict_lookup d "conferenceData" = Some (PDict cd) ->
     dict_lookup cd "entryPoints" = Some (PList (before ++ x :: after)) ->
     forallb is_other_entry before = true ->
     (forall entry, x <> PDict entry) ->
     snd (link_try_body (PDict d) (PStr "")) = Some AttributeError /\
     extract_meet_link (PDict d) = PStr "") /\
  (forall d cd before entry after,
     dict_lookup d "conferenceData" = Some (PDict cd) ->
     dict_lookup cd "entryPoints" = Some (PList (before ++ PDict entry :: after)) ->
     forallb is_other_entry before = true ->
     py_eq_str (entry_type entry) "video" = true ->
     snd (link_try_body (PDict d) (PStr "")) = None /\
     extract_meet_link (PDict d)
     = (if py_truthy (entry_uri entry) then entry_uri entry
        else match hd (PDict entry) before with
             | PDict first => entry_uri first
             | _ => PStr ""
             end)) /\
  (forall d cd eps,
     dict_lookup d "conferenceData" = Some (PDict cd) ->
     dict_lookup cd "entryPoints" = Some (PList eps) ->
     forallb is_other_entry eps = true ->
     snd (link_try_body (PDict d) (PStr "")) = None /\
     extract_meet_link (PDict d)
     = match eps with
       | PDict first :: _ => entry_uri first
       | _ => PStr ""
       end) /\
  (forall eps,
     forallb is_other_entry eps = true \/
     exists before x after,
       eps = (before ++ x :: after)%list /\
       forallb is_other_entry before = true /\
       ((forall entry, x <> PDict entry) \/
        exists entry,
          x = PDict entry /\ py_eq_str (entry_type entry) "video" = true)) /\
  (forall date time_str duration_min attendees summary description location
          recurrence w start_dt end_dt d,
     w_service w (w_service_calls w) "calendar" = None ->
     Strptime.strptime (date ++ " " ++ time_str) = Ok start_dt ->
     rbind (timedelta_minutes duration_min) (Datetime.add start_dt) = Ok end_dt ->
     w_calendar_insert w
       (PDict (event_body summary description location start_dt end_dt attendees
                 (uuid_str (uuid_int (w_urandom w (w_draws w)))) recurrence))
     = Ok (PDict d) ->
     exists event_id w',
       schedule_meeting date time_str duration_min attendees summary description
         location recurrence w
       = (Ok (extract_meet_link (PDict d), event_id, start_dt, end_dt), w')).
Proof.
  split; [exact extract_meet_link_entries|].
  split; [exact extract_meet_link_json|].
  split; [reflexivity|]. split; [reflexivity|].
  split.
  { intros d H. unfold extract_meet_link.
    rewrite (link_try_body_no_entry_points d H). split; reflexivity. }
  split.
  { intros created e H. unfold extract_meet_link.
    destruct (link_try_body created (PStr "")) as [v o] eqn:Hb.
    cbn in H. subst o. exact (link_try_body_raise _ _ _ Hb). }
  split; [exact extract_meet_link_not_a_dict|].
  split; [exact extract_meet_link_bad_conference_data|].
  split; [exact extract_meet_link_bad_entry_points|].
  split; [intros d cd before x after; apply extract_meet_link_bad_entry|].
  split.
  { intros d cd before entry after Hcd Hep Hb Hv. unfold extract_meet_link.
    rewrite (link_try_body_video d cd before after entry Hcd Hep Hb Hv).
    split; reflexivity. }
  split.
  { intros d cd eps Hcd Hep Hb. unfold extract_meet_link.
    rewrite (link_try_body_no_video d cd eps Hcd Hep Hb). split; reflexivity. }
  split; [exact entry_points_cases|].
  intros date time_str duration_min attendees summary description location
    recurrence w start_dt end_dt d Hsvc Hparse Hend Hins.
  destruct (py_get (PDict d) "id"
              (PStr (uuid_str (uuid_int (w_urandom w (S (w_draws w)))))))
    as [event_id|e] eqn:Hid.
  - eexists. eexists.
    exact (schedule_meeting_ok _ _ _ _ _ _ _ _ _ _ _ _ _ Hsvc Hparse Hend Hins Hid).
  - cbn in Hid. destruct (dict_lookup d "id"); discriminate.
Qed.

Lemma meet_link_extraction_witness :
  (snd (link_try_body (PDict [("conferenceData", PNone)]) (PStr ""))
     = Some AttributeError /\
   extract_meet_link (PDict [("conferenceData", PNone)]) = PStr "") /\
  (dict_lookup [("id", PStr "evt123")] "conferenceData" = None /\
   snd (link_try_body (PDict [("id", PStr "evt123")]) (PStr "")) = None /\
   extract_meet_link (PDict [("id", PStr "evt123")]) = PStr "") /\
  (dict_lookup [("id", PStr "evt123"); ("conferenceData", PDict [])]
     "conferenceData" = Some (PDict []) /\
   dict_lookup [] "entryPoints" = None /\
   extract_meet_link (PDict [("id", PStr "evt123"); ("conferenceData", PDict [])])
   = PStr "") /\
  (w_service Sample.world0 (w_service_calls Sample.world0) "calendar" = None /\
   Strptime.strptime ("2024-01-10" ++ " " ++ "09:00") = Ok Sample.start /\
   rbind (timedelta_minutes 30) (Datetime.add Sample.start) = Ok Sample.finish /\
   exists event_id w',
     schedule_meeting "2024-01-10" "09:00" 30 ["b@x.com"] "Team Sync" None None
       None Sample.world0
     = (Ok (PStr "https://meet.example/a-b-c", event_id, Sample.start,
            Sample.finish), w')).
Proof.
  destruct meet_link_extraction
    as (_ & _ & _ & _ & Hnone & Hraise & _ & _ & _ & _ & _ & _ & _ & Hflow).
  split; [|split; [|split]].
  - split; [reflexivity|].
    exact (Hraise (PDict [("conferenceData", PNone)]) AttributeError eq_refl).
  - split; [reflexivity|].
    exact (Hnone [("id", PStr "evt123")] (or_introl eq_refl)).
  - split; [reflexivity|]. split; [reflexivity|].
    exact (proj2 (Hnone [("id", PStr "evt123"); ("conferenceData", PDict [])]
                    (or_intror (ex_intro _ [] (conj eq_refl (or_introl eq_refl)))))).
  - split; [reflexivity|]. split; [reflexivity|]. split; [reflexivity|].
    exact (Hflow "2024-01-10" "09:00" 30 ["b@x.com"] "Team Sync" None None None
             Sample.world0 Sample.start Sample.finish
             [ ("id", PStr "evt123");
               ("conferenceData",
                 PDict [("entryPoints",
                   PList [PDict [("entryPointType", PStr "video");
                                 ("uri", PStr "https://meet.example/a-b-c")]])]) ]
             eq_refl eq_refl eq_refl eq_refl).
Defined.

(** C6 as the specification words it, refuted: a telephone entry point
    comes first and the video entry point has an empty address; the
    selection of the specification is that empty address, the code
    returns the telephone address. *)
Lemma meet_link_skips_empty_video :
  let eps := [ mk_entry_point (Some "phone") (Some "tel:+1-555-0100");
               mk_entry_point (Some "video") (Some "") ] in
  selectEntryPoint eps = "" /\
  extract_meet_link (created_json "evt123" eps) = PStr "tel:+1-555-0100" /\
  extract_meet_link (created_json "evt123" eps) <> PStr (selectEntryPoint eps).
Proof.
  cbv zeta. split; [reflexivity|]. split; [reflexivity|].
  vm_compute. discriminate.
Qed.

(* ================================================================== *)
(** ** Recurrence *)
(* ================================================================== *)

(** What [schedule_meeting] adds to the log of created events: nothing, or
    the one event it built. *)
Lemma schedule_meeting_events (date time_str : string) (duration_min : Z)
    (attendees : list string) (summary : string)
    (description location recurrence : option string) (w : world) :
  let '(_, w') := schedule_meeting date time_str duration_min attendees summary
                    description location recurrence w in
  w_events w' = w_events w \/
  exists start_dt end_dt request_id,
    w_events w' = (w_events w
                   ++ [PDict (event_body summary description location start_dt
                                end_dt attendees request_id recurrence)])%list.
Proof.
  unfold schedule_meeting, bind, get_google_service, lift, uuid4, events_insert, ret.
  destruct (w_service w (w_service_calls w) "calendar"); [left; reflexivity|].
  destruct (Strptime.strptime (date ++ " " ++ time_str)) as [start_dt|];
    [|left; reflexivity].
  destruct (rbind (timedelta_minutes duration_min) (Datetime.add start_dt))
    as [end_dt|]; [|left; reflexivity].
  match goal with
  | |- context [w_calendar_insert ?a ?b] => destruct (w_calendar_insert a b) as [created|]
  end; [|left; reflexivity].
  destruct (py_get_method created); right; eexists; eexists; eexists; reflexivity.
Qed.

(** C8: the selection maps to the rule as listed, [None] (and nothing
    else of the four) to no rule; an event built without a rule has no
    [recurrence] key, an event built with one of the three rules has
    [recurrence] set to the list of that rule; and a run of
    [schedule_meeting] for the selection [None] logs no event with a
    [recurrence] key. *)
Theorem recurrence_mapping :
  recur_rule_of "Daily" = Some "RRULE:FREQ=DAILY;COUNT=5" /\
  recur_rule_of "Weekly" = Some "RRULE:FREQ=WEEKLY;COUNT=5" /\
  recur_rule_of "Monthly" = Some "RRULE:FREQ=MONTHLY;COUNT=5" /\
  recur_rule_of "None" = None /\
  (forall summary description location start_dt end_dt attendees request_id,
     dict_lookup
       (event_body summary description location start_dt end_dt attendees
          request_id (recur_rule_of "None")) "recurrence" = None /\
     (forall selection rule,
        In selection ["Daily"; "Weekly"; "Monthly"] ->
        recur_rule_of selection = Some rule ->
        dict_lookup
          (event_body summary description location start_dt end_dt attendees
             request_id (recur_rule_of selection)) "recurrence"
        = Some (PList [PStr rule]))) /\
  (forall date time_str duration_min attendees summary description location
          w r w' ev,
     schedule_meeting date time_str duration_min attendees summary description
       location (recur_rule_of "None") w = (r, w') ->
     In ev (w_events w') -> ~ In ev (w_events w) ->
     exists d, ev = PDict d /\ dict_lookup d "recurrence" = None).
Proof.
  repeat (split; [reflexivity|]). split.
  - intros. split; [reflexivity|].
    intros selection rule Hin Hr.
    cbn [In] in Hin.
    destruct Hin as [<-|[<-|[<-|[]]]]; cbn in Hr; injection Hr as <-; reflexivity.
  - intros date time_str duration_min attendees summary description location
      w r w' ev Hrun Hin Hnew.
    pose proof (schedule_meeting_events date time_str duration_min attendees
                  summary description location (recur_rule_of "None") w) as H.
    rewrite Hrun in H.
    destruct H as [H|(s & e & rid & H)]; rewrite H in Hin; [contradiction|].
    apply in_app_or in Hin as [Hin|[<-|[]]]; [contradiction|].
    eexists. split; reflexivity.
Qed.

Lemma recurrence_mapping_witness :
  recur_rule_of "Weekly" = Some "RRULE:FREQ=WEEKLY;COUNT=5" /\
  (forall ev,
     In ev (w_events (snd (schedule_meeting "2024-01-10" "09:00" 30 ["b@x.com"]
                             "Team Sync" None None (recur_rule_of "None")
                             Sample.world0))) ->
     ~ In ev (w_events Sample.world0) ->
     exists d, ev = PDict d /\ dict_lookup d "recurrence" = None) /\
  dict_lookup
    (event_body "Team Sync" None None Sample.start Sample.finish ["b@x.com"]
       "r1" (recur_rule_of "Weekly")) "recurrence"
  = Some (PList [PStr "RRULE:FREQ=WEEKLY;COUNT=5"]).
Proof.
  split; [reflexivity|]. split.
  - intros ev.
    exact (proj2 (proj2 (proj2 (proj2 (proj2 recurrence_mapping))))
             "2024-01-10" "09:00" 30 ["b@x.com"] "Team Sync" None None
             Sample.world0 _ _ ev (surjective_pairing _)).
  - exact (proj2 (proj1 (proj2 (proj2 (proj2 (proj2 recurrence_mapping))))
                    "Team Sync" None None Sample.start Sample.finish ["b@x.com"] "r1")
             "Weekly" "RRULE:FREQ=WEEKLY;COUNT=5"
             (or_intror (or_introl eq_refl)) eq_refl).
Defined.

(* ================================================================== *)
(** ** The mailing loop *)
(* ================================================================== *)

Section MailingLoop.

Variables (topic : string) (html_template : html_invite) (ics_text : string).

Lemma send_step_ok (email : string) (w : world) :
  send_fault w 0 = None ->
  send_step topic html_template ics_text email w = (Ok tt, world_after_send topic html_template ics_text email w).
Proof.
  unfold send_fault. rewrite !Nat.add_0_r. intros H.
  unfold send_step, send_custom_email_with_ics, bind, get_google_service,
    messages_send, st_info.
  destruct (w_service w (w_service_calls w) "gmail"); [discriminate|].
  cbn [count_service_call w_gmail_send w_send_calls]. rewrite H. reflexivity.
Qed.

Lemma send_step_fails (email : string) (w : world) (e : exn) :
  send_fault w 0 = Some e ->
  exists w',
    send_step topic html_template ics_text email w = (Raise e, w') /\
    w_outbox w' = w_outbox w /\ w_events w' = w_events w /\
    w_ui w' = w_ui w /\ w_service_calls w' = S (w_service_calls w).
Proof.
  unfold send_fault. rewrite !Nat.add_0_r. intros H.
  unfold send_step, send_custom_email_with_ics, bind, get_google_service,
    messages_send, st_info.
  destruct (w_service w (w_service_calls w) "gmail").
  - injection H as ->. eexists. repeat split.
  - cbn [count_service_call w_gmail_send w_send_calls]. rewrite H.
    eexists. repeat split.
Qed.

Lemma send_fault_after_send (email : string) (w : world) (i : nat) :
  send_fault (world_after_send topic html_template ics_text email w) i = send_fault w (S i).
Proof.
  unfold send_fault, world_after_send. cbn.
  now rewrite !Nat.add_succ_r.
Qed.

Lemma send_invites_cons (email : string) (rest : list string) (w : world) :
  send_invites (email :: rest) topic html_template ics_text w
  = match send_step topic html_template ics_text email w with
    | (Ok _, w') => send_invites rest topic html_template ics_text w'
    | (Raise e, w') => (Raise e, w')
    end.
Proof. reflexivity. Qed.

(** Every send succeeds: one mail for each attendee, in order. *)
Lemma send_invites_all (attendees : list string) :
  forall w,
    (forall i, (i < List.length attendees)%nat -> send_fault w i = None) ->
    exists w',
      send_invites attendees topic html_template ics_text w = (Ok tt, w') /\
      w_outbox w' = (w_outbox w ++ map (invite_for topic html_template ics_text) attendees)%list /\
      w_ui w' = (w_ui w ++ map sent_note attendees)%list /\
      w_events w' = w_events w /\
      w_service_calls w' = (w_service_calls w + List.length attendees)%nat.
Proof.
  induction attendees as [|a l IH]; intros w Hok.
  - exists w. cbn. rewrite !app_nil_r, Nat.add_0_r. repeat split.
  - rewrite send_invites_cons, (send_step_ok a w (Hok 0%nat ltac:(cbn; lia))).
    destruct (IH (world_after_send topic html_template ics_text a w)) as (w' & Hr & Ho & Hu & He & Hc).
    { intros i Hi. rewrite send_fault_after_send. apply Hok. cbn. lia. }
    exists w'. split; [exact Hr|].
    rewrite Ho, Hu, He, Hc. cbn. rewrite <- !app_assoc.
    repeat split. lia.
Qed.

(** The send for the attendee at position [k] is the first to fail. *)
Lemma send_invites_stops (attendees : list string) :
  forall w k e,
    (k < List.length attendees)%nat ->
    (forall i, (i < k)%nat -> send_fault w i = None) ->
    send_fault w k = Some e ->
    exists w',
      send_invites attendees topic html_template ics_text w = (Raise e, w') /\
      w_outbox w' = (w_outbox w ++ map (invite_for topic html_template ics_text) (firstn k attendees))%list /\
      w_ui w' = (w_ui w ++ map sent_note (firstn k attendees))%list /\
      w_events w' = w_events w /\
      w_service_calls w' = (w_service_calls w + k + 1)%nat.
Proof.
  induction attendees as [|a l IH]; intros w k e Hk Hok Hf; [cbn in Hk; lia|].
  rewrite send_invites_cons. destruct k as [|k].
  - destruct (send_step_fails a w e Hf) as (w' & Hr & Ho & He & Hu & Hc).
    exists w'. rewrite Hr, Ho, He, Hu, Hc. cbn. rewrite !app_nil_r.
    repeat split. lia.
  - rewrite (send_step_ok a w (Hok 0%nat ltac:(lia))).
    destruct (IH (world_after_send topic html_template ics_text a w) k e) as (w' & Hr & Ho & Hu & He & Hc).
    + cbn in Hk. lia.
    + intros i Hi. rewrite send_fault_after_send. apply Hok. lia.
    + rewrite send_fault_after_send. exact Hf.
    + exists w'. split; [exact Hr|].
      rewrite Ho, Hu, He, Hc. cbn. rewrite <- !app_assoc.
      repeat split. lia.
Qed.

End MailingLoop.

(** C7: the loop sends one mail for each attendee, in the order of the
    list.  When every send succeeds the outbox grows by exactly these
    mails.  When the send at position [k] is the first to fail with [e],
    the loop ends with [e] raised; the outbox has grown by the mails of
    the first [k] attendees and no other, the send function has been
    entered [k + 1] times and so for nobody after position [k], and the
    created events are as they were. *)
Theorem send_invites_in_order :
  forall attendees topic html_template ics_text w,
    ((forall i, (i < List.length attendees)%nat -> send_fault w i = None) ->
     exists w',
       send_invites attendees topic html_template ics_text w = (Ok tt, w') /\
       w_outbox w'
       = (w_outbox w
          ++ map (invite_for topic html_template ics_text) attendees)%list /\
       w_events w' = w_events w /\
       w_service_calls w' = (w_service_calls w + List.length attendees)%nat) /\
    (forall k e,
       (k < List.length attendees)%nat ->
       (forall i, (i < k)%nat -> send_fault w i = None) ->
       send_fault w k = Some e ->
       exists w',
         send_invites attendees topic html_template ics_text w = (Raise e, w') /\
         w_outbox w'
         = (w_outbox w
            ++ map (invite_for topic html_template ics_text)
                 (firstn k attendees))%list /\
         w_events w' = w_events w /\
         w_service_calls w' = (w_service_calls w + k + 1)%nat).
Proof.
  intros attendees topic html_template ics_text w. split.
  - intros Hok.
    destruct (send_invites_all topic html_template ics_text attendees w Hok)
      as (w' & Hr & Ho & _ & He & Hc).
    exists w'. auto.
  - intros k e Hk Hok Hf.
    destruct (send_invites_stops topic html_template ics_text attendees w k e
                Hk Hok Hf) as (w' & Hr & Ho & _ & He & Hc).
    exists w'. auto.
Qed.

Lemma send_invites_in_order_witness :
  ((forall i, (i < List.length ["b@x.com"; "c@x.com"])%nat ->
      send_fault Sample.world0 i = None) /\
   exists w',
     send_invites ["b@x.com"; "c@x.com"] "Team Sync" Sample.html "ICS"
       Sample.world0 = (Ok tt, w') /\
     w_outbox w'
     = [ mk_message "b@x.com" "Meeting Invite: Team Sync" Sample.html "ICS";
         mk_message "c@x.com" "Meeting Invite: Team Sync" Sample.html "ICS" ] /\
     w_events w' = [] /\
     w_service_calls w' = 2%nat) /\
  ((1 < List.length ["b@x.com"; "c@x.com"; "d@x.com"])%nat /\
   (forall i, (i < 1)%nat -> send_fault Sample.world_mail_down i = None) /\
   send_fault Sample.world_mail_down 1 = Some (ApiError "quota") /\
   exists w',
     send_invites ["b@x.com"; "c@x.com"; "d@x.com"] "Team Sync" Sample.html "ICS"
       Sample.world_mail_down = (Raise (ApiError "quota"), w') /\
     w_outbox w'
     = [mk_message "b@x.com" "Meeting Invite: Team Sync" Sample.html "ICS"] /\
     w_events w' = [] /\
     w_service_calls w' = 2%nat).
Proof.
  assert (H0 : forall i, (i < List.length ["b@x.com"; "c@x.com"])%nat ->
                 send_fault Sample.world0 i = None) by reflexivity.
  assert (H1 : (1 < List.length ["b@x.com"; "c@x.com"; "d@x.com"])%nat)
    by (cbn; lia).
  assert (H2 : forall i, (i < 1)%nat -> send_fault Sample.world_mail_down i = None).
  { intros i Hi. destruct i as [|i]; [reflexivity|lia]. }
  split.
  - split; [exact H0|].
    exact (proj1 (send_invites_in_order ["b@x.com"; "c@x.com"] "Team Sync"
                    Sample.html "ICS" Sample.world0) H0).
  - split; [exact H1|]. split; [exact H2|]. split; [reflexivity|].
    exact (proj2 (send_invites_in_order ["b@x.com"; "c@x.com"; "d@x.com"]
                    "Team Sync" Sample.html "ICS" Sample.world_mail_down)
             1%nat (ApiError "quota") H1 H2 eq_refl).
Defined.

(* ================================================================== *)
(** ** The script's call of [build_ics] *)
(* ================================================================== *)

(** Five positional arguments and the keywords [uid] and [meet_link] leave
    [dt_start_local] and [dt_end_local] without a value. *)
Lemma call_build_ics_five_positional (a1 a2 a3 a4 a5 event_id meet_link : pyval)
    (w : world) :
  call_build_ics [a1; a2; a3; a4; a5]
    [("uid", event_id); ("meet_link", meet_link)] w
  = (Raise TypeError, w).
Proof. reflexivity. Qed.

Lemma schedule_meeting_outbox (date time_str : string) (duration_min : Z)
    (attendees : list string) (summary : string)
    (description location recurrence : option string) (w : world) :
  w_outbox (snd (schedule_meeting date time_str duration_min attendees summary
                   description location recurrence w))
  = w_outbox w.
Proof.
  unfold schedule_meeting, bind, get_google_service, lift, uuid4, events_insert, ret.
  destruct (w_service w (w_service_calls w) "calendar"); [reflexivity|].
  destruct (Strptime.strptime (date ++ " " ++ time_str)) as [start_dt|];
    [|reflexivity].
  destruct (rbind (timedelta_minutes duration_min) (Datetime.add start_dt))
    as [end_dt|]; [|reflexivity].
  match goal with
  | |- context [w_calendar_insert ?a ?b] => destruct (w_calendar_insert a b) as [created|]
  end; [|reflexivity].
  destruct (py_get_method created); reflexivity.
Qed.

Lemma get_sender_email_outbox (w : world) :
  w_outbox (snd (get_sender_email w)) = w_outbox w.
Proof.
  unfold get_sender_email, bind, get_google_service, lift.
  destruct (w_service w (w_service_calls w) "gmail"); [reflexivity|].
  cbn [count_service_call w_profile].
  destruct (w_profile w) as [profile|]; [|reflexivity].
  destruct (py_get profile "emailAddress" (PStr "me")); reflexivity.
Qed.

(** With the custom mail switched on, a submission never ends well and
    never mails an invitation: whatever the services answer, the run is
    over at the call of [build_ics] at the latest. *)
Lemma on_submit_never_mails (attendees : list string) (f : form) (w w' : world)
    (r : result unit) :
  on_submit attendees f w = (r, w') ->
  w_outbox w' = w_outbox w /\
  (submitted f = true -> send_custom f = true -> attendees <> [] ->
   exists e, r = Raise e).
Proof.
  unfold on_submit.
  destruct (submitted f); [|intros [= <- <-]; split; [reflexivity|discriminate]].
  destruct attendees as [|a l].
  { intros [= <- <-]. split; [reflexivity|]. intros _ _ H. now contradiction H. }
  unfold bind at 1. unfold pad_year at 1. unfold bind at 1.
  pose proof (schedule_meeting_outbox
                (date_strftime (w_pad_year w) (meeting_date f))
                (time_strftime (meeting_time f)) (duration f) (a :: l) (topic f)
                None None (recur_rule_of (recurrence f)) w) as Hs.
  destruct (schedule_meeting _ _ _ _ _ _ _ _ w)
    as [[[[[meet_link event_id] s] e]|ex] w1]; cbn [snd] in Hs.
  2:{ intros [= <- <-]. split; [exact Hs|]. intros _ _ _. now exists ex. }
  unfold bind at 1. unfold st_success at 1.
  destruct (send_custom f).
  2:{ intros [= <- <-]. split; [exact Hs|discriminate]. }
  unfold bind at 1.
  pose proof (get_sender_email_outbox
                (log_ui (UiSuccess "Meeting Scheduled" meet_link) w1)) as Hg.
  destruct (get_sender_email _) as [[organizer_email|ex] w2]; cbn [snd] in Hg.
  2:{ intros [= <- <-]. split; [now rewrite Hg|]. intros _ _ _. now exists ex. }
  unfold bind at 1. rewrite call_build_ics_five_positional.
  intros [= <- <-]. split; [now rewrite Hg|]. intros _ _ _. now exists TypeError.
Qed.

(** C2, at a submission in a world where every service answers: the
    event is created and announced, its identifier [evt123] is handed to
    [build_ics] as [uid], and the call raises [TypeError] while binding
    its arguments (five positional arguments for seven required
    parameters, whatever their values).  No invitation text exists at the
    end of the run and no mail has left. *)
Theorem on_submit_build_ics_call_raises :
  (forall a1 a2 a3 a4 a5 event_id meet_link w,
     call_build_ics [a1; a2; a3; a4; a5]
       [("uid", event_id); ("meet_link", meet_link)] w = (Raise TypeError, w)) /\
  (exists w1,
     schedule_meeting "2024-01-10" "09:00" 30 ["b@x.com"; "c@x.com"] "Team Sync"
       None None None Sample.world0
     = (Ok (PStr "https://meet.example/a-b-c", PStr "evt123", Sample.start,
            Sample.finish), w1)) /\
  (exists w',
     on_submit ["b@x.com"; "c@x.com"] Sample.the_form Sample.world0
     = (Raise TypeError, w') /\
     List.length (w_events w') = 1%nat /\
     w_outbox w' = [] /\
     w_ui w' = [UiSuccess "Meeting Scheduled" (PStr "https://meet.example/a-b-c")]).
Proof.
  split; [exact call_build_ics_five_positional|].
  split; eexists; [vm_compute; reflexivity|].
  repeat split; vm_compute; reflexivity.
Qed.

(* ================================================================== *)
(** ** More on the ICS generator *)
(* ================================================================== *)

Lemma attendee_lines_nth (attendees : list string) (i : nat) (a : string) :
  nth_error attendees i = Some a ->
  nth_error (attendee_lines attendees) i
  = Some ("ATTENDEE;ROLE=REQ-PARTICIPANT;RSVP=TRUE:mailto:" ++ a).
Proof.
  intros H. unfold attendee_lines.
  rewrite nth_error_map, H. reflexivity.
Qed.

Lemma ics_lines_tail (uid dtstamp dtstart dtend summary desc : string)
    (location : option string) (organizer_email : string)
    (attendees : list string) (i : nat) :
  nth_error
    (ics_lines uid dtstamp dtstart dtend summary desc location organizer_email
       attendees) (12 + i)
  = nth_error (attendee_lines attendees ++ ["END:VEVENT"; "END:VCALENDAR"]) i.
Proof. reflexivity. Qed.

(** X1: on convertible times, [ics] has fourteen lines and one more for
    each attendee; the attendee records are exactly the lines that start
    with [ATTENDEE], one for each attendee in the order of the list, from
    index 12 on, after the [ORGANIZER] line and before [END:VEVENT] and
    [END:VCALENDAR], which come last. *)
Theorem build_ics_attendee_records :
  forall summary description location organizer_email attendees
         dt_start_local dt_end_local uid meet_link w,
    convertible dt_start_local -> convertible dt_end_local ->
    exists ics w',
      build_ics_lines summary description location organizer_email attendees
        dt_start_local dt_end_local uid meet_link w = (Ok ics, w') /\
      build_ics summary description location organizer_email attendees
        dt_start_local dt_end_local uid meet_link w = (Ok (join CRLF ics), w') /\
      List.length ics = (14 + List.length attendees)%nat /\
      filter (starts_with "ATTENDEE") ics = attendee_lines attendees /\
      (forall i a,
         nth_error attendees i = Some a ->
         nth_error ics (12 + i)
         = Some ("ATTENDEE;ROLE=REQ-PARTICIPANT;RSVP=TRUE:mailto:" ++ a)) /\
      nth_error ics 11 = Some ("ORGANIZER:mailto:" ++ organizer_email) /\
      nth_error ics (12 + List.length attendees) = Some "END:VEVENT" /\
      nth_error ics (13 + List.length attendees) = Some "END:VCALENDAR".
Proof.
  intros summary description location organizer_email attendees
    dt_start_local dt_end_local uid meet_link w Hs He.
  destruct (convertible_to_utc _ Hs) as (us & Hus & _).
  destruct (convertible_to_utc _ He) as (ue & Hue & _).
  eexists. eexists.
  rewrite (build_ics_lines_ok _ _ _ _ _ _ _ _ _ _ us ue Hus Hue).
  rewrite (build_ics_ok _ _ _ _ _ _ _ _ _ _ us ue Hus Hue).
  split; [reflexivity|]. split; [reflexivity|].
  assert (Hl : List.length (attendee_lines attendees) = List.length attendees)
    by apply length_map.
  split; [|split; [apply attendee_records|split; [|split; [reflexivity|split]]]].
  - unfold ics_lines. rewrite !length_app, Hl. cbn. lia.
  - intros i a Ha. rewrite ics_lines_tail.
    rewrite nth_error_app1 by (rewrite Hl; apply nth_error_Some; congruence).
    now apply attendee_lines_nth.
  - rewrite ics_lines_tail, nth_error_app2 by lia.
    rewrite Hl, Nat.sub_diag. reflexivity.
  - change (13 + List.length attendees)%nat
      with (12 + S (List.length attendees))%nat.
    rewrite ics_lines_tail, nth_error_app2 by lia.
    rewrite Hl. replace (S (List.length attendees) - List.length attendees)%nat
      with 1%nat by lia.
    reflexivity.
Qed.

Lemma build_ics_attendee_records_witness :
  convertible Sample.start /\ convertible Sample.finish /\
  exists ics w',
    build_ics "Team Sync" None None "a@x.com" ["b@x.com"; "c@x.com"]
      Sample.start Sample.finish (Some "evt123") None Sample.world0
    = (Ok (join CRLF ics), w') /\
    List.length ics = 16%nat /\
    nth_error ics 12
    = Some "ATTENDEE;ROLE=REQ-PARTICIPANT;RSVP=TRUE:mailto:b@x.com" /\
    nth_error ics 13
    = Some "ATTENDEE;ROLE=REQ-PARTICIPANT;RSVP=TRUE:mailto:c@x.com" /\
    nth_error ics 14 = Some "END:VEVENT".
Proof.
  split; [exact sample_start_convertible|].
  split; [exact sample_finish_convertible|].
  destruct (build_ics_attendee_records "Team Sync" None None "a@x.com"
              ["b@x.com"; "c@x.com"] Sample.start Sample.finish (Some "evt123")
              None Sample.world0 sample_start_convertible
              sample_finish_convertible)
    as (ics & w' & _ & Hrun & Hlen & _ & Hatt & _ & Hend & _).
  exists ics, w'. split; [exact Hrun|]. split; [exact Hlen|].
  split; [exact (Hatt 0%nat "b@x.com" eq_refl)|].
  split; [exact (Hatt 1%nat "c@x.com" eq_refl)|exact Hend].
Defined.

(** X2: for well-formed local times, [build_ics] returns a text exactly
    when both are at or after 0001-01-01T05:30; otherwise it raises
    [OverflowError] and returns nothing. *)
Theorem build_ics_overflow :
  forall summary description location organizer_email attendees
         dt_start_local dt_end_local uid meet_link w,
    valid dt_start_local = true -> valid dt_end_local = true ->
    (EARLIEST_LOCAL <= instant dt_start_local /\
     EARLIEST_LOCAL <= instant dt_end_local ->
     exists out w',
       build_ics summary description location organizer_email attendees
         dt_start_local dt_end_local uid meet_link w = (Ok out, w')) /\
    (instant dt_start_local < EARLIEST_LOCAL \/
     instant dt_end_local < EARLIEST_LOCAL ->
     exists w',
       build_ics summary description location organizer_email attendees
         dt_start_local dt_end_local uid meet_link w = (Raise OverflowError, w')).
Proof.
  intros summary description location organizer_email attendees
    dt_start_local dt_end_local uid meet_link w Hvs Hve. split.
  - intros [Hs He].
    destruct (to_utc_default_total _ Hvs Hs) as [us Hus].
    destruct (to_utc_default_total _ Hve He) as [ue Hue].
    eexists. eexists.
    exact (build_ics_ok _ _ _ _ _ _ _ _ _ _ us ue Hus Hue).
  - intros H.
    destruct (Z_lt_ge_dec (instant dt_start_local) EARLIEST_LOCAL) as [Hs|Hs].
    + eexists. apply build_ics_start_fails.
      now apply to_utc_default_overflow.
    + destruct H as [H|He]; [lia|].
      destruct (to_utc_default_total _ Hvs ltac:(lia)) as [us Hus].
      eexists. apply (build_ics_end_fails _ _ _ _ _ _ _ _ _ _ us); [exact Hus|].
      now apply to_utc_default_overflow.
Qed.

Lemma build_ics_overflow_witness :
  valid (mk_datetime 1 1 1 5 0 0 0) = true /\
  valid (mk_datetime 1 1 1 5 30 0 0) = true /\
  (instant (mk_datetime 1 1 1 5 0 0 0) < EARLIEST_LOCAL \/
   instant (mk_datetime 1 1 1 5 30 0 0) < EARLIEST_LOCAL) /\
  exists w',
    build_ics "Team Sync" None None "a@x.com" ["b@x.com"]
      (mk_datetime 1 1 1 5 0 0 0) (mk_datetime 1 1 1 5 30 0 0)
      (Some "evt123") None Sample.world0 = (Raise OverflowError, w').
Proof.
  assert (H : instant (mk_datetime 1 1 1 5 0 0 0) < EARLIEST_LOCAL \/
              instant (mk_datetime 1 1 1 5 30 0 0) < EARLIEST_LOCAL)
    by (left; reflexivity).
  split; [reflexivity|]. split; [reflexivity|]. split; [exact H|].
  exact (proj2 (build_ics_overflow "Team Sync" None None "a@x.com" ["b@x.com"]
                  (mk_datetime 1 1 1 5 0 0 0) (mk_datetime 1 1 1 5 30 0 0)
                  (Some "evt123") None Sample.world0 eq_refl eq_refl) H).
Defined.

(** X3: [to_utc] keeps distances: two well-formed local times converted
    with the same offset are as far apart afterwards as before, and in
    the same order; so for an end that is the start plus a number of
    minutes, as [schedule_meeting] computes it, the two stamps are that
    many minutes apart. *)
Theorem to_utc_keeps_distance :
  forall dt_start dt_end off us ue,
    valid dt_start = true -> valid dt_end = true ->
    to_utc dt_start off = Ok us -> to_utc dt_end off = Ok ue ->
    instant ue - instant us = instant dt_end - instant dt_start /\
    (instant dt_start <= instant dt_end <-> instant us <= instant ue) /\
    (forall duration_min,
       rbind (timedelta_minutes duration_min) (Datetime.add dt_start) = Ok dt_end ->
       instant ue = instant us + duration_min * 60).
Proof.
  intros dt_start dt_end off us ue Hvs Hve Hs He.
  destruct (to_utc_instant _ _ _ Hvs Hs) as (His & _).
  destruct (to_utc_instant _ _ _ Hve He) as (Hie & _).
  split; [lia|]. split; [lia|].
  intros duration_min Hadd. unfold rbind in Hadd.
  destruct (timedelta_minutes duration_min) as [td|] eqn:Htd; [|discriminate].
  destruct (DatetimeFacts.timedelta_minutes_total _ _ Htd) as (Ht & _ & Hus).
  destruct (DatetimeFacts.add_instant _ _ _ Hvs Hus Hadd) as (Hi & _).
  lia.
Qed.

Lemma to_utc_keeps_distance_witness :
  valid Sample.start = true /\ valid Sample.finish = true /\
  to_utc Sample.start 330 = Ok (mk_datetime 2024 1 10 3 30 0 0) /\
  to_utc Sample.finish 330 = Ok (mk_datetime 2024 1 10 4 0 0 0) /\
  rbind (timedelta_minutes 30) (Datetime.add Sample.start) = Ok Sample.finish /\
  instant (mk_datetime 2024 1 10 4 0 0 0)
  = instant (mk_datetime 2024 1 10 3 30 0 0) + 30 * 60.
Proof.
  split; [reflexivity|]. split; [reflexivity|]. split; [reflexivity|].
  split; [reflexivity|]. split; [reflexivity|].
  exact (proj2 (proj2 (to_utc_keeps_distance Sample.start Sample.finish 330
                         (mk_datetime 2024 1 10 3 30 0 0)
                         (mk_datetime 2024 1 10 4 0 0 0)
                         eq_refl eq_refl eq_refl eq_refl)) 30 eq_refl).
Defined.

(* ================================================================== *)
(** ** More on the call of [build_ics] *)
(* ================================================================== *)

(** X4: how a call binds to the signature of [build_ics].  With the
    keywords [uid] and [meet_link], as the script passes them, the call
    binds for exactly seven positional arguments, to these seven followed
    by the two keyword values; with no keywords it binds for seven, eight
    or nine positional arguments, [None] standing in for what is left of
    [uid] and [meet_link].  Every other number raises [TypeError]. *)
Theorem build_ics_binding :
  (forall positional uid meet_link,
     bind_call build_ics_params build_ics_defaults positional
       [("uid", uid); ("meet_link", meet_link)]
     = if (List.length positional =? 7)%nat
       then Ok (positional ++ [uid; meet_link])%list
       else Raise TypeError) /\
  (forall positional,
     bind_call build_ics_params build_ics_defaults positional []
     = if (7 <=? List.length positional)%nat
          && (List.length positional <=? 9)%nat
       then Ok (positional ++ repeat PNone (9 - List.length positional))%list
       else Raise TypeError).
Proof.
  split.
  - intros positional uid meet_link.
    do 8 (destruct positional as [|? positional]; [reflexivity|]).
    reflexivity.
  - intros positional.
    do 10 (destruct positional as [|? positional]; [reflexivity|]).
    reflexivity.
Qed.

(* ================================================================== *)
(** ** Reading back the date and time of the form *)
(* ================================================================== *)

Module StrptimeFacts.

Lemma digit_code (d : Z) :
  0 <= d < 10 -> nat_of_ascii (Fmt.digit d) = Z.to_nat (48 + d).
Proof.
  intros H.
  assert (C : d = 0 \/ d = 1 \/ d = 2 \/ d = 3 \/ d = 4 \/ d = 5 \/ d = 6 \/
              d = 7 \/ d = 8 \/ d = 9) by lia.
  repeat (destruct C as [C|C]; [subst; reflexivity|]). subst. reflexivity.
Qed.

Lemma d09_digit (d : Z) : 0 <= d < 10 -> Strptime.d09 (Fmt.digit d) = true.
Proof.
  intros H. unfold Strptime.d09, Strptime.in_range. rewrite digit_code by exact H.
  apply andb_true_iff. split; apply Nat.leb_le; lia.
Qed.

Lemma digit_val_digit (d : Z) :
  0 <= d < 10 -> Strptime.digit_val (Fmt.digit d) = d.
Proof.
  intros H. unfold Strptime.digit_val. rewrite digit_code by exact H. lia.
Qed.

(** Four printed digits read back as the number. *)
Lemma four_fixed (y : Z) (rest : string) :
  0 <= y <= 9999 ->
  Strptime.four Strptime.d09 (Fmt.fixed 10 4 y ++ rest) = Some (y, rest).
Proof.
  intros H. cbn [Fmt.fixed append Strptime.four].
  rewrite !d09_digit by (apply Z.mod_pos_bound; lia).
  rewrite !digit_val_digit by (apply Z.mod_pos_bound; lia).
  cbn [andb]. f_equal. f_equal. Z.div_mod_to_equations. lia.
Qed.

Lemma choice_year {A} (k : Z -> string -> option A) (y : Z) (rest : string) (x : A) :
  0 <= y <= 9999 -> k y rest = Some x ->
  Strptime.choice Strptime.dir_Y k (Fmt.fixed 10 4 y ++ rest) = Some x.
Proof.
  intros Hy Hk. unfold Strptime.dir_Y. cbn [Strptime.choice].
  rewrite four_fixed by exact Hy. rewrite Hk. reflexivity.
Qed.

(** The cases of a two-digit field, one value after the other. *)
Ltac enum_from v k n tac :=
  lazymatch n with
  | O => exfalso; lia
  | S ?n' =>
      destruct (Z.eq_dec v k) as [->|];
      [ tac
      | let k' := eval compute in (k + 1) in enum_from v k' n' tac ]
  end.

Ltac run_field Hk := vm_compute; rewrite Hk; reflexivity.

Lemma choice_month {A} (k : Z -> string -> option A) (m : Z) (rest : string) (x : A) :
  1 <= m <= 12 -> k m rest = Some x ->
  Strptime.choice Strptime.dir_m k (fmt_2 m ++ rest) = Some x.
Proof.
  intros Hm Hk. enum_from m 1 12%nat ltac:(run_field Hk).
Qed.

Lemma choice_day {A} (k : Z -> string -> option A) (d : Z) (rest : string) (x : A) :
  1 <= d <= 31 -> k d rest = Some x ->
  Strptime.choice Strptime.dir_d k (fmt_2 d ++ rest) = Some x.
Proof.
  intros Hd Hk. enum_from d 1 31%nat ltac:(run_field Hk).
Qed.

Lemma spaces_choice_hour {A} (k : Z -> string -> option A) (h : Z) (rest : string)
    (x : A) :
  0 <= h < 24 -> k h rest = Some x ->
  Strptime.spaces (Strptime.choice Strptime.dir_H k)
    (String " " (fmt_2 h ++ rest)) = Some x.
Proof.
  intros Hh Hk. enum_from h 0 24%nat ltac:(run_field Hk).
Qed.

Lemma choice_minute {A} (k : Z -> string -> option A) (mi : Z) (rest : string)
    (x : A) :
  0 <= mi < 60 -> k mi rest = Some x ->
  Strptime.choice Strptime.dir_M k (fmt_2 mi ++ rest) = Some x.
Proof.
  intros Hmi Hk. enum_from mi 0 60%nat ltac:(run_field Hk).
Qed.

Lemma regex_match_canonical (y m d h mi : Z) :
  0 <= y <= 9999 -> 1 <= m <= 12 -> 1 <= d <= 31 -> 0 <= h < 24 -> 0 <= mi < 60 ->
  Strptime.regex_match
    (Fmt.fixed 10 4 y ++ String "-" (fmt_2 m ++ String "-" (fmt_2 d ++
       String " " (fmt_2 h ++ String ":" (fmt_2 mi ++ "")))))
  = Some (y, m, d, h, mi, "").
Proof.
  intros Hy Hm Hd Hh Hmi. unfold Strptime.regex_match.
  apply choice_year; [exact Hy|].
  change (Strptime.lit 45 ?k (String "-" ?r)) with (k r).
  apply choice_month; [exact Hm|].
  change (Strptime.lit 45 ?k (String "-" ?r)) with (k r).
  apply choice_day; [exact Hd|].
  apply spaces_choice_hour; [exact Hh|].
  change (Strptime.lit 58 ?k (String ":" ?r)) with (k r).
  apply choice_minute; [exact Hmi|]. reflexivity.
Qed.

End StrptimeFacts.

Lemma date_time_valid (d : date) (t : time) :
  date_valid d = true -> time_valid t = true ->
  valid (mk_datetime (d_year d) (d_month d) (d_day d) (t_hour t) (t_minute t) 0 0)
  = true /\
  0 <= d_year d <= 9999 /\ 1 <= d_month d <= 12 /\ 1 <= d_day d <= 31 /\
  0 <= t_hour t < 24 /\ 0 <= t_minute t < 60.
Proof.
  unfold date_valid, time_valid, MINYEAR, MAXYEAR. intros Hd Ht.
  repeat (apply andb_true_iff in Hd as [Hd ?]).
  repeat (apply andb_true_iff in Ht as [Ht ?]).
  assert (Hm : 1 <= d_month d <= 12) by lia.
  pose proof (DatetimeFacts.month_table _ Hm) as Htab.
  assert (Hdim : days_in_month (d_year d) (d_month d) <= 31).
  { unfold days_in_month.
    destruct ((d_month d =? 2) && is_leap (d_year d)); lia. }
  split; [apply DatetimeFacts.fields_valid; unfold MAXYEAR; lia|]. lia.
Qed.

(** X5: what the script prints of the form's date and time,
    [schedule_meeting] reads back: for a well-formed date and time (on a
    platform that does not pad [%Y], from the year 1000 on), parsing
    [date.strftime("%Y-%m-%d")], a blank and [time.strftime("%H:%M")]
    gives that date at that hour and minute, with the seconds at zero. *)
Theorem strptime_reads_back_the_form :
  forall pad d t,
    date_valid d = true -> time_valid t = true ->
    pad = true \/ 1000 <= d_year d ->
    Strptime.strptime (date_strftime pad d ++ " " ++ time_strftime t)
    = Ok (mk_datetime (d_year d) (d_month d) (d_day d) (t_hour t) (t_minute t)
            0 0).
Proof.
  intros pad d t Hd Ht Hp.
  destruct (date_time_valid d t Hd Ht) as (Hv & Hy & Hm & Hdd & Hh & Hmi).
  assert (E : date_strftime pad d ++ " " ++ time_strftime t
              = Fmt.fixed 10 4 (d_year d)
                ++ String "-" (fmt_2 (d_month d)
                ++ String "-" (fmt_2 (d_day d)
                ++ String " " (fmt_2 (t_hour t)
                ++ String ":" (fmt_2 (t_minute t) ++ ""))))).
  { unfold date_strftime, time_strftime.
    rewrite fmt_Y_fixed by (assumption || lia).
    rewrite !append_assoc, append_empty_r. reflexivity. }
  rewrite E. unfold Strptime.strptime.
  rewrite StrptimeFacts.regex_match_canonical by assumption.
  rewrite Hv. reflexivity.
Qed.

Lemma strptime_reads_back_the_form_witness :
  date_valid (mk_date 2024 2 29) = true /\ time_valid (mk_time 18 5 42) = true /\
  (false = true \/ 1000 <= d_year (mk_date 2024 2 29)) /\
  Strptime.strptime
    (date_strftime false (mk_date 2024 2 29) ++ " "
     ++ time_strftime (mk_time 18 5 42))
  = Ok (mk_datetime 2024 2 29 18 5 0 0).
Proof.
  assert (H : false = true \/ 1000 <= d_year (mk_date 2024 2 29))
    by (right; cbn; lia).
  split; [reflexivity|]. split; [reflexivity|]. split; [exact H|].
  exact (strptime_reads_back_the_form false (mk_date 2024 2 29)
           (mk_time 18 5 42) eq_refl eq_refl H).
Defined.

(* ================================================================== *)
(** ** More on [schedule_meeting] *)
(* ================================================================== *)

Lemma strptime_fields (text : string) (dt : datetime) :
  Strptime.strptime text = Ok dt ->
  valid dt = true /\ second dt = 0 /\ microsecond dt = 0.
Proof.
  unfold Strptime.strptime.
  destruct (Strptime.regex_match text) as [[[[[[y m] d] h] mi] r]|];
    [|discriminate].
  destruct r; [|discriminate].
  destruct (valid (mk_datetime y m d h mi 0 0)) eqn:Hv; [|discriminate].
  intros [= <-]. auto.
Qed.

(** A return of [schedule_meeting], taken apart. *)
Lemma schedule_meeting_returns (date time_str : string) (duration_min : Z)
    (attendees : list string) (summary : string)
    (description location recurrence : option string) (w w' : world)
    (meet_link event_id : pyval) (start_dt end_dt : datetime) :
  schedule_meeting date time_str duration_min attendees summary description
    location recurrence w = (Ok (meet_link, event_id, start_dt, end_dt), w') ->
  let request_id := uuid_str (uuid_int (w_urandom w (w_draws w))) in
  let fallback_id := uuid_str (uuid_int (w_urandom w (S (w_draws w)))) in
  let event := event_body summary description location start_dt end_dt
                 attendees request_id recurrence in
  w_service w (w_service_calls w) "calendar" = None /\
  Strptime.strptime (date ++ " " ++ time_str) = Ok start_dt /\
  rbind (timedelta_minutes duration_min) (Datetime.add start_dt) = Ok end_dt /\
  exists created,
    w_calendar_insert w (PDict event) = Ok created /\
    meet_link = extract_meet_link created /\
    py_get created "id" (PStr fallback_id) = Ok event_id /\
    w' = count_draw (log_event (PDict event) (count_draw (count_service_call w))).
Proof.
  unfold schedule_meeting, bind, get_google_service, lift, uuid4, events_insert, ret.
  destruct (w_service w (w_service_calls w) "calendar") eqn:Hsvc; [discriminate|].
  destruct (Strptime.strptime (date ++ " " ++ time_str)) as [s|] eqn:Hparse;
    [|discriminate].
  destruct (rbind (timedelta_minutes duration_min) (Datetime.add s)) as [e|]
    eqn:Hend; [|discriminate].
  cbn [w_urandom w_draws w_calendar_insert count_draw count_service_call].
  match goal with
  | |- context [w_calendar_insert w ?b] =>
      destruct (w_calendar_insert w b) as [created|] eqn:Hins
  end; [|discriminate].
  cbn [w_urandom w_draws log_event].
  change (w_urandom (count_draw (count_service_call w))) with (w_urandom w).
  change (w_draws (count_draw (count_service_call w))) with (S (w_draws w)).
  destruct (py_get_method created) as [get|] eqn:Hget; [|discriminate].
  intros [= <- <- <- <- <-]. cbv zeta.
  split; [reflexivity|]. split; [reflexivity|]. split; [exact Hend|].
  exists created.
  split; [exact Hins|]. split; [reflexivity|].
  split; [apply py_get_method_get; exists get; split; [exact Hget|reflexivity]
         |reflexivity].
Qed.

(** X6: when [schedule_meeting] returns, the start is the parsed date and
    time, a well-formed time with the seconds at zero, and the end is a
    well-formed time exactly [duration_min] minutes after it. *)
Theorem schedule_meeting_times :
  forall date time_str duration_min attendees summary description location
         recurrence w w' meet_link event_id start_dt end_dt,
    schedule_meeting date time_str duration_min attendees summary description
      location recurrence w = (Ok (meet_link, event_id, start_dt, end_dt), w') ->
    Strptime.strptime (date ++ " " ++ time_str) = Ok start_dt /\
    valid start_dt = true /\ second start_dt = 0 /\
    valid end_dt = true /\ second end_dt = 0 /\
    instant end_dt = instant start_dt + duration_min * 60.
Proof.
  intros date time_str duration_min attendees summary description location
    recurrence w w' meet_link event_id start_dt end_dt Hrun.
  destruct (schedule_meeting_returns _ _ _ _ _ _ _ _ _ _ _ _ _ _ Hrun)
    as (_ & Hparse & Hend & _).
  destruct (strptime_fields _ _ Hparse) as (Hv & Hsec & Hus).
  unfold rbind in Hend.
  destruct (timedelta_minutes duration_min) as [td|] eqn:Htd; [|discriminate].
  destruct (DatetimeFacts.timedelta_minutes_total _ _ Htd) as (Ht & Hts & Htus).
  destruct (DatetimeFacts.add_instant _ _ _ Hv Htus Hend) as (Hi & Hve & _).
  repeat split; try assumption; [|lia].
  (* the seconds of the end *)
  destruct (DatetimeFacts.valid_fields _ Hv) as (_ & _ & _ & Hh & Hmi & _ & _).
  destruct (DatetimeFacts.valid_fields _ Hve) as (_ & _ & _ & Hh' & Hmi' & Hs' & _).
  unfold instant, day_seconds in Hi. rewrite Hsec in Hi.
  assert (H60 : second end_dt mod 60 = 0).
  { replace (second end_dt)
      with ((toordinal start_dt * 86400 + (hour start_dt * 3600 + minute start_dt * 60 + 0)
             + td_days td * 86400 + td_seconds td
             - toordinal end_dt * 86400 - hour end_dt * 3600 - minute end_dt * 60))
      by lia.
    replace (td_seconds td) with (duration_min * 60 - td_days td * 86400) by lia.
    match goal with
    | |- ?e mod 60 = 0 =>
        replace e with ((toordinal start_dt * 1440 + hour start_dt * 60
                         + minute start_dt + duration_min
                         - toordinal end_dt * 1440 - hour end_dt * 60
                         - minute end_dt) * 60) by lia
    end.
    apply Z.mod_mul. lia. }
  rewrite Z.mod_small in H60 by lia. exact H60.
Qed.

Lemma schedule_meeting_times_witness :
  schedule_meeting "2024-01-10" "09:00" 30 ["b@x.com"] "Team Sync" None None
    None Sample.world0
  = (Ok (PStr "https://meet.example/a-b-c", PStr "evt123", Sample.start,
         Sample.finish),
     snd (schedule_meeting "2024-01-10" "09:00" 30 ["b@x.com"] "Team Sync" None
            None None Sample.world0)) /\
  instant Sample.finish = instant Sample.start + 30 * 60.
Proof.
  assert (Hrun : schedule_meeting "2024-01-10" "09:00" 30 ["b@x.com"] "Team Sync"
                   None None None Sample.world0
                 = (Ok (PStr "https://meet.example/a-b-c", PStr "evt123",
                        Sample.start, Sample.finish),
                    snd (schedule_meeting "2024-01-10" "09:00" 30 ["b@x.com"]
                           "Team Sync" None None None Sample.world0)))
    by (vm_compute; reflexivity).
  split; [exact Hrun|].
  exact (proj2 (proj2 (proj2 (proj2 (proj2
           (schedule_meeting_times _ _ _ _ _ _ _ _ _ _ _ _ _ _ Hrun)))))).
Defined.

(** X7: what a return of [schedule_meeting] has done and what it hands
    back.  Exactly one event has been created, the one built from the
    parsed times, the attendees and a fresh request identifier; two UUIDs
    have been drawn and the credential asked for once; no mail was sent
    and nothing shown.  The answer of the calendar was a dictionary; the
    link is the one extracted from it, and the identifier is its [id]
    when it has one and the second UUID otherwise. *)
Theorem schedule_meeting_effects :
  forall date time_str duration_min attendees summary description location
         recurrence w w' meet_link event_id start_dt end_dt,
    schedule_meeting date time_str duration_min attendees summary description
      location recurrence w = (Ok (meet_link, event_id, start_dt, end_dt), w') ->
    let event := event_body summary description location start_dt end_dt
                   attendees (uuid_str (uuid_int (w_urandom w (w_draws w))))
                   recurrence in
    w_events w' = (w_events w ++ [PDict event])%list /\
    w_draws w' = S (S (w_draws w)) /\
    w_service_calls w' = S (w_service_calls w) /\
    w_send_calls w' = w_send_calls w /\
    w_outbox w' = w_outbox w /\ w_ui w' = w_ui w /\
    exists answer,
      w_calendar_insert w (PDict event) = Ok (PDict answer) /\
      meet_link = extract_meet_link (PDict answer) /\
      event_id = match dict_lookup answer "id" with
                 | Some v => v
                 | None =>
                     PStr (uuid_str (uuid_int (w_urandom w (S (w_draws w)))))
                 end.
Proof.
  intros date time_str duration_min attendees summary description location
    recurrence w w' meet_link event_id start_dt end_dt Hrun event.
  destruct (schedule_meeting_returns _ _ _ _ _ _ _ _ _ _ _ _ _ _ Hrun)
    as (_ & _ & _ & created & Hins & Hlink & Hid & Hw).
  subst w'. repeat (split; [reflexivity|]).
  destruct created as [| | | | | |answer]; try discriminate.
  exists answer. split; [exact Hins|]. split; [exact Hlink|].
  cbn [py_get] in Hid.
  destruct (dict_lookup answer "id"); injection Hid as <-; reflexivity.
Qed.

Lemma schedule_meeting_effects_witness :
  schedule_meeting "2024-01-10" "09:00" 30 ["b@x.com"] "Team Sync" None None
    None Sample.world0
  = (Ok (PStr "https://meet.example/a-b-c", PStr "evt123", Sample.start,
         Sample.finish),
     snd (schedule_meeting "2024-01-10" "09:00" 30 ["b@x.com"] "Team Sync" None
            None None Sample.world0)) /\
  List.length
    (w_events (snd (schedule_meeting "2024-01-10" "09:00" 30 ["b@x.com"]
                      "Team Sync" None None None Sample.world0))) = 1%nat /\
  w_draws (snd (schedule_meeting "2024-01-10" "09:00" 30 ["b@x.com"]
                  "Team Sync" None None None Sample.world0)) = 2%nat.
Proof.
  assert (Hrun : schedule_meeting "2024-01-10" "09:00" 30 ["b@x.com"] "Team Sync"
                   None None None Sample.world0
                 = (Ok (PStr "https://meet.example/a-b-c", PStr "evt123",
                        Sample.start, Sample.finish),
                    snd (schedule_meeting "2024-01-10" "09:00" 30 ["b@x.com"]
                           "Team Sync" None None None Sample.world0)))
    by (vm_compute; reflexivity).
  split; [exact Hrun|].
  destruct (schedule_meeting_effects _ _ _ _ _ _ _ _ _ _ _ _ _ _ Hrun)
    as (He & Hd & _).
  split; [rewrite He; reflexivity|exact Hd].
Defined.

(** X8: when [schedule_meeting] raises, no mail was sent and nothing was
    shown, and no event was created, with one exception: an answer of
    the calendar that is not a dictionary makes the reading of its [id]
    raise [AttributeError] after the event has been created, and before
    the second UUID is drawn. *)
Theorem schedule_meeting_raises :
  forall date time_str duration_min attendees summary description location
         recurrence w w' e,
    schedule_meeting date time_str duration_min attendees summary description
      location recurrence w = (Raise e, w') ->
    w_outbox w' = w_outbox w /\ w_ui w' = w_ui w /\
    w_send_calls w' = w_send_calls w /\
    (w_events w' = w_events w \/
     (e = AttributeError /\
      exists start_dt end_dt created,
        (forall d, created <> PDict d) /\
        w_calendar_insert w
          (PDict (event_body summary description location start_dt end_dt
                    attendees (uuid_str (uuid_int (w_urandom w (w_draws w))))
                    recurrence)) = Ok created /\
        w_events w'
        = (w_events w
           ++ [PDict (event_body summary description location start_dt end_dt
                        attendees
                        (uuid_str (uuid_int (w_urandom w (w_draws w))))
                        recurrence)])%list /\
        w_draws w' = S (w_draws w))).
Proof.
  intros date time_str duration_min attendees summary description location
    recurrence w w' e.
  unfold schedule_meeting, bind, get_google_service, lift, uuid4, events_insert, ret.
  destruct (w_service w (w_service_calls w) "calendar").
  { intros [= <- <-]. repeat split; try reflexivity. left; reflexivity. }
  destruct (Strptime.strptime (date ++ " " ++ time_str)) as [s|].
  2:{ intros [= <- <-]. repeat split; try reflexivity. left; reflexivity. }
  destruct (rbind (timedelta_minutes duration_min) (Datetime.add s)) as [en|].
  2:{ intros [= <- <-]. repeat split; try reflexivity. left; reflexivity. }
  cbn [w_urandom w_draws w_calendar_insert count_draw count_service_call].
  match goal with
  | |- context [w_calendar_insert w ?b] =>
      destruct (w_calendar_insert w b) as [created|] eqn:Hins
  end.
  2:{ intros [= <- <-]. repeat split; try reflexivity. left; reflexivity. }
  cbn [w_urandom w_draws log_event].
  destruct (py_get_method created) as [get|e1] eqn:Hget; [discriminate|].
  intros [= <- <-]. repeat split; try reflexivity. right.
  assert (Hc : e1 = AttributeError /\ forall d, created <> PDict d).
  { destruct created; cbn [py_get_method] in Hget;
      try (injection Hget as <-; split; [reflexivity|discriminate]).
    discriminate Hget. }
  destruct Hc as [-> Hc]. split; [reflexivity|].
  exists s, en, created. repeat split; assumption || reflexivity.
Qed.

Lemma schedule_meeting_raises_witness :
  schedule_meeting "2024-02-30" "09:00" 30 ["b@x.com"] "Team Sync" None None
    None Sample.world0
  = (Raise ValueError,
     snd (schedule_meeting "2024-02-30" "09:00" 30 ["b@x.com"] "Team Sync" None
            None None Sample.world0)) /\
  w_events (snd (schedule_meeting "2024-02-30" "09:00" 30 ["b@x.com"]
                   "Team Sync" None None None Sample.world0)) = [].
Proof.
  assert (Hrun : schedule_meeting "2024-02-30" "09:00" 30 ["b@x.com"] "Team Sync"
                   None None None Sample.world0
                 = (Raise ValueError,
                    snd (schedule_meeting "2024-02-30" "09:00" 30 ["b@x.com"]
                           "Team Sync" None None None Sample.world0)))
    by (vm_compute; reflexivity).
  split; [exact Hrun|].
  destruct (schedule_meeting_raises _ _ _ _ _ _ _ _ _ _ _ Hrun)
    as (_ & _ & _ & [He|(He & _)]); [exact He|discriminate He].
Defined.

(** X9: a submission with the custom mail switched off, for a
    well-formed date and time (from the year 1000 on where [%Y] is not
    padded), an end that [datetime] can represent, a credential that is
    granted and a calendar that answers with a dictionary: the run ends
    well; one event has been created, starting at the date, hour and
    minute of the form and built for the topic, the attendees and the
    recurrence chosen; the success note shows the extracted link; the
    mail service is never approached and no mail is sent. *)
Theorem on_submit_without_custom_mail :
  forall attendees f w end_dt answer,
    submitted f = true -> send_custom f = false -> attendees <> [] ->
    date_valid (meeting_date f) = true -> time_valid (meeting_time f) = true ->
    w_pad_year w = true \/ 1000 <= d_year (meeting_date f) ->
    w_service w (w_service_calls w) "calendar" = None ->
    rbind (timedelta_minutes (duration f)) (Datetime.add (form_start f))
    = Ok end_dt ->
    w_calendar_insert w
      (PDict (event_body (topic f) None None (form_start f) end_dt attendees
                (uuid_str (uuid_int (w_urandom w (w_draws w))))
                (recur_rule_of (recurrence f)))) = Ok (PDict answer) ->
    exists w',
      on_submit attendees f w = (Ok tt, w') /\
      w_events w'
      = (w_events w
         ++ [PDict (event_body (topic f) None None (form_start f) end_dt
                      attendees (uuid_str (uuid_int (w_urandom w (w_draws w))))
                      (recur_rule_of (recurrence f)))])%list /\
      w_ui w'
      = (w_ui w
         ++ [UiSuccess "Meeting Scheduled" (extract_meet_link (PDict answer))])%list /\
      w_outbox w' = w_outbox w /\
      w_send_calls w' = w_send_calls w /\
      w_service_calls w' = S (w_service_calls w).
Proof.
  intros attendees f w end_dt answer Hsub Hcustom Hne Hd Ht Hp Hsvc Hend Hins.
  pose proof (strptime_reads_back_the_form (w_pad_year w) _ _ Hd Ht Hp) as Hparse.
  fold (form_start f) in Hparse.
  assert (Hid : exists event_id,
             py_get (PDict answer) "id"
               (PStr (uuid_str (uuid_int (w_urandom w (S (w_draws w))))))
             = Ok event_id).
  { cbn [py_get]. destruct (dict_lookup answer "id"); eexists; reflexivity. }
  destruct Hid as [event_id Hid].
  pose proof (schedule_meeting_ok _ _ (duration f) attendees (topic f) None None
                (recur_rule_of (recurrence f)) w _ _ _ _
                Hsvc Hparse Hend Hins Hid) as Hrun.
  cbv zeta in Hrun.
  unfold on_submit. rewrite Hsub, Hcustom.
  destruct attendees as [|a l]; [now contradiction Hne|].
  unfold bind at 1. unfold pad_year at 1. unfold bind at 1.
  rewrite Hrun. unfold bind, st_success, ret.
  eexists. split; [reflexivity|]. repeat split.
Qed.

Lemma on_submit_without_custom_mail_witness :
  exists w',
    on_submit ["b@x.com"; "c@x.com"]
      (mk_form (mk_date 2024 1 10) (mk_time 9 0 0) 30 "Team Sync" "Weekly"
         false true) Sample.world0 = (Ok tt, w') /\
    w_events w'
    = [PDict (event_body "Team Sync" None None Sample.start Sample.finish
                ["b@x.com"; "c@x.com"] "00000000-0000-4000-8000-000000000000"
                (Some "RRULE:FREQ=WEEKLY;COUNT=5"))] /\
    w_ui w' = [UiSuccess "Meeting Scheduled" (PStr "https://meet.example/a-b-c")] /\
    w_outbox w' = [] /\
    w_send_calls w' = 0%nat /\
    w_service_calls w' = 1%nat.
Proof.
  assert (Hne : ["b@x.com"; "c@x.com"] <> []) by discriminate.
  assert (Hp : w_pad_year Sample.world0 = true \/
               1000 <= d_year (mk_date 2024 1 10)) by (right; cbn; lia).
  exact (on_submit_without_custom_mail ["b@x.com"; "c@x.com"]
           (mk_form (mk_date 2024 1 10) (mk_time 9 0 0) 30 "Team Sync" "Weekly"
              false true) Sample.world0 Sample.finish
           [ ("id", PStr "evt123");
             ("conferenceData",
               PDict [("entryPoints",
                 PList [PDict [("entryPointType", PStr "video");
                               ("uri", PStr "https://meet.example/a-b-c")]])]) ]
           eq_refl eq_refl Hne eq_refl eq_refl Hp eq_refl eq_refl eq_refl).
Defined.

(* ================================================================== *)
(** ** Loading the attendees *)
(* ================================================================== *)

Lemma dropna_tolist_in (cells : list (option string)) (a : string) :
  In a (dropna_tolist cells) <-> In (Some a) cells.
Proof.
  induction cells as [|[v|] rest IH]; cbn [dropna_tolist In].
  - tauto.
  - rewrite IH. split; intros [H|H]; auto; left; congruence.
  - rewrite IH. split; [auto|]. intros [H|H]; [discriminate|exact H].
Qed.

Lemma dropna_tolist_length (cells : list (option string)) :
  (List.length (dropna_tolist cells)
   + List.length (filter (fun c => match c with None => true | Some _ => false end)
                    cells)
   = List.length cells)%nat.
Proof.
  induction cells as [|[v|] rest IH]; cbn [dropna_tolist filter List.length]; lia.
Qed.

Lemma dropna_tolist_all (cells : list (option string)) :
  dropna_tolist (map Some (dropna_tolist cells)) = dropna_tolist cells.
Proof.
  induction cells as [|[v|] rest IH]; cbn [dropna_tolist map];
    [reflexivity | now rewrite IH | exact IH].
Qed.

(** X10: loading a parsed CSV.  Without a column [email] the error is
    shown and the attendees are empty.  With it, the attendees are the
    cells of the column that are not missing: an address is loaded
    exactly when it stands in a cell, the missing cells account for the
    difference in number, and the number shown is the number loaded.
    Nothing but the note is changed in the world. *)
Theorem load_attendees_from_csv :
  forall df w,
    (df_has_column df "email" = false ->
     load_attendees (Some (Ok df)) w
     = (Ok [], log_ui (UiError "CSV must have an 'email' column") w)) /\
    (df_has_column df "email" = true ->
     exists attendees,
       load_attendees (Some (Ok df)) w
       = (Ok attendees,
          log_ui (UiSuccess "Loaded attendees"
                    (PInt (Z.of_nat (List.length attendees)))) w) /\
       (forall a, In a attendees <-> In (Some a) (df_column df "email")) /\
       (List.length attendees
        + List.length (filter (fun c => match c with
                                        | None => true
                                        | Some _ => false
                                        end) (df_column df "email"))
        = List.length (df_column df "email"))%nat /\
       map Some attendees
       = filter (fun c => match c with Some _ => true | None => false end)
           (df_column df "email")).
Proof.
  intros df w. unfold load_attendees, bind, lift, st_error, st_success, ret.
  split; intros H; rewrite H; cbn [negb]; [reflexivity|].
  eexists. split; [reflexivity|].
  split; [intros a; apply dropna_tolist_in|].
  split; [apply dropna_tolist_length|].
  induction (df_column df "email") as [|[v|] rest IH];
    cbn [dropna_tolist map filter]; [reflexivity | now rewrite IH | exact IH].
Qed.

Lemma load_attendees_from_csv_witness :
  df_has_column [("name", [Some "B"; Some "C"])] "email" = false /\
  load_attendees (Some (Ok [("name", [Some "B"; Some "C"])])) Sample.world0
  = (Ok [], log_ui (UiError "CSV must have an 'email' column") Sample.world0) /\
  df_has_column [("name", [Some "B"; None; Some "C"]);
                 ("email", [Some "b@x.com"; None; Some "c@x.com"])] "email"
  = true /\
  exists attendees,
    load_attendees
      (Some (Ok [("name", [Some "B"; None; Some "C"]);
                 ("email", [Some "b@x.com"; None; Some "c@x.com"])]))
      Sample.world0
    = (Ok attendees,
       log_ui (UiSuccess "Loaded attendees"
                 (PInt (Z.of_nat (List.length attendees)))) Sample.world0) /\
    In "c@x.com" attendees /\
    (List.length attendees + 1 = 3)%nat.
Proof.
  split; [reflexivity|].
  split; [exact (proj1 (load_attendees_from_csv
                          [("name", [Some "B"; Some "C"])] Sample.world0)
                   eq_refl)|].
  split; [reflexivity|].
  destruct (proj2 (load_attendees_from_csv
                     [("name", [Some "B"; None; Some "C"]);
                      ("email", [Some "b@x.com"; None; Some "c@x.com"])]
                     Sample.world0) eq_refl)
    as (attendees & Hrun & Hin & Hlen & _).
  exists attendees. split; [exact Hrun|]. split.
  - apply Hin. cbn. auto.
  - exact Hlen.
Defined.

(** X11: a run of the script with the form submitted and no attendee to
    show for it, because no file was uploaded, or the CSV has no column
    [email], or every cell of that column is missing: the run ends well
    with the error [No attendees uploaded.] as its last note; no
    credential is asked for, no service called, no event created and no
    mail sent. *)
Theorem script_without_attendees :
  forall uploaded_file f w,
    submitted f = true ->
    uploaded_file = None \/
    (exists df,
       uploaded_file = Some (Ok df) /\
       (df_has_column df "email" = false \/
        forall c, In c (df_column df "email") -> c = None)) ->
    exists w' notes,
      script uploaded_file f w = (Ok tt, w') /\
      w_ui w' = (w_ui w ++ notes ++ [UiError "No attendees uploaded."])%list /\
      (List.length notes <= 1)%nat /\
      w_events w' = w_events w /\ w_outbox w' = w_outbox w /\
      w_service_calls w' = w_service_calls w /\
      w_send_calls w' = w_send_calls w /\ w_draws w' = w_draws w.
Proof.
  intros uploaded_file f w Hsub Hcase.
  unfold script, bind.
  destruct Hcase as [->|(df & -> & [Hno|Hall])].
  - cbn [load_attendees ret]. unfold on_submit, st_error. rewrite Hsub.
    eexists. exists []. repeat split. cbn. lia.
  - rewrite (proj1 (load_attendees_from_csv df w) Hno).
    unfold on_submit, st_error. rewrite Hsub.
    eexists. exists [UiError "CSV must have an 'email' column"].
    split; [reflexivity|]. split; [cbn; now rewrite <- app_assoc|].
    repeat split. cbn. lia.
  - destruct (df_has_column df "email") eqn:Hcol.
    + destruct (proj2 (load_attendees_from_csv df w) Hcol)
        as (attendees & Hrun & Hin & _).
      rewrite Hrun.
      assert (attendees = []) as ->.
      { destruct attendees as [|a l]; [reflexivity|].
        assert (Some a = None) by (apply Hall, Hin; left; reflexivity).
        discriminate. }
      unfold on_submit, st_error. rewrite Hsub.
      eexists. exists [UiSuccess "Loaded attendees" (PInt 0)].
      split; [reflexivity|]. split; [cbn; now rewrite <- app_assoc|].
      repeat split. cbn. lia.
    + rewrite (proj1 (load_attendees_from_csv df w) Hcol).
      unfold on_submit, st_error. rewrite Hsub.
      eexists. exists [UiError "CSV must have an 'email' column"].
      split; [reflexivity|]. split; [cbn; now rewrite <- app_assoc|].
      repeat split. cbn. lia.
Qed.

Lemma script_without_attendees_witness :
  submitted Sample.the_form = true /\
  (exists df,
     Some (Ok [("email", [@None string; None])]) = Some (Ok df) /\
     (df_has_column df "email" = false \/
      forall c, In c (df_column df "email") -> c = None)) /\
  exists w' notes,
    script (Some (Ok [("email", [None; None])])) Sample.the_form Sample.world0
    = (Ok tt, w') /\
    w_ui w' = (w_ui Sample.world0 ++ notes ++ [UiError "No attendees uploaded."])%list /\
    w_events w' = w_events Sample.world0 /\
    w_service_calls w' = w_service_calls Sample.world0.
Proof.
  assert (H : exists df,
             Some (Ok [("email", [@None string; None])]) = Some (Ok df) /\
             (df_has_column df "email" = false \/
              forall c, In c (df_column df "email") -> c = None)).
  { eexists. split; [reflexivity|]. right. intros c Hc. cbn in Hc.
    destruct Hc as [<-|[<-|[]]]; reflexivity. }
  split; [reflexivity|]. split; [exact H|].
  destruct (script_without_attendees (Some (Ok [("email", [None; None])]))
              Sample.the_form Sample.world0 eq_refl (or_intror H))
    as (w' & notes & Hrun & Hui & _ & Hev & _ & Hsc & _).
  exists w', notes. auto.
Defined.

(* ================================================================== *)
(** ** More on the meeting link *)
(* ================================================================== *)

Lemma scan_entry_points_video (d : dict) (after : list pyval) (v : pyval) :
  py_eq_str (entry_type d) "video" = true ->
  scan_entry_points (PDict d :: after) v = (entry_uri d, None).
Proof.
  intros H. cbn [scan_entry_points py_get]. unfold entry_type, entry_uri in *.
  destruct (dict_lookup d "entryPointType") as [t|]; rewrite H;
    destruct (dict_lookup d "uri"); reflexivity.
Qed.

Lemma link_try_body_answer (entry_points : list pyval) (v : pyval) :
  link_try_body (answer_with entry_points) v
  = match scan_entry_points entry_points v with
    | (meet_link, Some e) => (meet_link, Some e)
    | (meet_link, None) =>
        if negb (py_truthy meet_link) && py_truthy (PList entry_points) then
          match rbind (py_index0 (PList entry_points))
                  (fun ep0 => py_get ep0 "uri" (PStr "")) with
          | Raise e => (meet_link, Some e)
          | Ok u => (u, None)
          end
        else (meet_link, None)
    end.
Proof. reflexivity. Qed.

(** X12: the loop stops at the first entry point of type ["video"].
    When the entry points before it are dictionaries of other types,
    nothing raises, and the link is that entry point's [uri] if it is
    truthy and otherwise the [uri] of the very first entry point;
    whatever follows the video entry point, well formed or not, is never
    read and changes nothing. *)
Theorem extract_meet_link_stops_at_video :
  forall before d after,
    forallb is_other_entry before = true ->
    py_eq_str (entry_type d) "video" = true ->
    snd (link_try_body (answer_with (before ++ PDict d :: after)) (PStr ""))
    = None /\
    extract_meet_link (answer_with (before ++ PDict d :: after))
    = (if py_truthy (entry_uri d) then entry_uri d
       else match hd (PDict d) before with
            | PDict first => entry_uri first
            | _ => PStr ""
            end) /\
    extract_meet_link (answer_with (before ++ PDict d :: after))
    = extract_meet_link (answer_with (before ++ [PDict d])).
Proof.
  intros before d after Hb Hd.
  assert (Hgen : forall rest,
            link_try_body (answer_with (before ++ PDict d :: rest)) (PStr "")
            = (if py_truthy (entry_uri d) then entry_uri d
               else match hd (PDict d) before with
                    | PDict first => entry_uri first
                    | _ => PStr ""
                    end, None)).
  { intros rest. rewrite link_try_body_answer.
    rewrite (scan_entry_points_others before _ _ Hb).
    rewrite (scan_entry_points_video d rest _ Hd).
    destruct (py_truthy (entry_uri d)); cbn [negb andb]; [reflexivity|].
    destruct before as [|x before'].
    - cbn [app py_truthy py_index0 rbind py_get hd]. unfold entry_uri.
      destruct (dict_lookup d "uri"); reflexivity.
    - cbn [forallb] in Hb. apply andb_true_iff in Hb as [Hx _].
      destruct x; try discriminate Hx.
      cbn [app py_truthy py_index0 rbind py_get hd]. unfold entry_uri.
      destruct (dict_lookup items "uri"); reflexivity. }
  unfold extract_meet_link. rewrite !Hgen. repeat split.
Qed.

Lemma extract_meet_link_stops_at_video_witness :
  forallb is_other_entry [PDict [("entryPointType", PStr "phone");
                                 ("uri", PStr "tel:+1-555-0100")]] = true /\
  py_eq_str (entry_type [("entryPointType", PStr "video");
                         ("uri", PStr "https://meet.example/a-b-c")]) "video"
  = true /\
  extract_meet_link
    (answer_with
       ([PDict [("entryPointType", PStr "phone"); ("uri", PStr "tel:+1-555-0100")]]
        ++ PDict [("entryPointType", PStr "video");
                  ("uri", PStr "https://meet.example/a-b-c")]
        :: [PNone; PInt 7; PStr "more"]))
  = PStr "https://meet.example/a-b-c".
Proof.
  split; [reflexivity|]. split; [reflexivity|].
  exact (proj1 (proj2 (extract_meet_link_stops_at_video
                         [PDict [("entryPointType", PStr "phone");
                                 ("uri", PStr "tel:+1-555-0100")]]
                         [("entryPointType", PStr "video");
                          ("uri", PStr "https://meet.example/a-b-c")]
                         [PNone; PInt 7; PStr "more"] eq_refl eq_refl))).
Defined.

(* ================================================================== *)
(** ** The credential *)
(* ================================================================== *)

(** X13: when [get_google_service] returns a client, the client is for
    the API and version asked for, and [token.pkl] holds the credential
    the client was built with.  A cached credential that is valid is
    used as it is: nothing is refreshed, nobody signs in, nothing is
    written. *)
Theorem credential_is_persisted :
  forall api_name api_version s svc s',
    Credentials.get_google_service api_name api_version s = (Ok svc, s') ->
    Credentials.token_pkl s' = Some (Ok (Credentials.svc_creds svc)) /\
    Credentials.svc_api svc = api_name /\
    Credentials.svc_version svc = api_version /\
    (forall c,
       Credentials.token_pkl s = Some (Ok c) -> Credentials.c_valid c = true ->
       s' = s /\ Credentials.svc_creds svc = c).
Proof.
  intros api_name api_version s svc s'.
  unfold Credentials.get_google_service, Credentials.current_creds,
    Credentials.renew_by_refresh, Credentials.renew_by_sign_in.
  destruct (Credentials.token_pkl s) as [[c|e]|] eqn:Htok; [| discriminate |].
  - destruct (Credentials.c_valid c) eqn:Hv.
    + destruct (Credentials.build s api_name api_version c); [discriminate|].
      intros [= <- <-].
      split; [exact Htok|]. split; [reflexivity|]. split; [reflexivity|].
      intros cached [= <-] _. split; reflexivity.
    + destruct (Credentials.c_expired c
                && opt_truthy (Credentials.c_refresh_token c)).
      * destruct (Credentials.refresh s c) as [c'|]; [|discriminate].
        cbn [Credentials.build Credentials.dump Credentials.count_refresh].
        destruct (Credentials.build s api_name api_version c'); [discriminate|].
        intros [= <- <-].
        split; [reflexivity|]. split; [reflexivity|]. split; [reflexivity|].
        intros cached [= <-] Hc. congruence.
      * destruct (Credentials.run_local_server s) as [c'|]; [|discriminate].
        cbn [Credentials.build Credentials.dump Credentials.count_sign_in].
        destruct (Credentials.build s api_name api_version c'); [discriminate|].
        intros [= <- <-].
        split; [reflexivity|]. split; [reflexivity|]. split; [reflexivity|].
        intros cached [= <-] Hc. congruence.
  - destruct (Credentials.run_local_server s) as [c'|]; [|discriminate].
    cbn [Credentials.build Credentials.dump Credentials.count_sign_in].
    destruct (Credentials.build s api_name api_version c'); [discriminate|].
    intros [= <- <-].
    split; [reflexivity|]. split; [reflexivity|]. split; [reflexivity|].
    intros cached H. discriminate H.
Qed.

Lemma credential_is_persisted_witness :
  Credentials.get_google_service "gmail" "v1" SampleStore.with_stale_token
  = (Ok (Credentials.mk_service "gmail" "v1" SampleStore.renewed),
     Credentials.dump SampleStore.renewed
       (Credentials.count_refresh SampleStore.with_stale_token)) /\
  Credentials.token_pkl
    (Credentials.dump SampleStore.renewed
       (Credentials.count_refresh SampleStore.with_stale_token))
  = Some (Ok SampleStore.renewed).
Proof.
  split; [reflexivity|].
  exact (proj1 (credential_is_persisted "gmail" "v1"
                  SampleStore.with_stale_token _ _ eq_refl)).
Defined.

(** The steps that close the cases of the renewal below.  [Htok] is what
    [token.pkl] held, [Hv], [He] and [Ht] what the cached credential
    says of itself, [Hr] the answer of the refresh or of the sign-in. *)
Ltac renewal_unchanged Htok :=
  left; split; [reflexivity|first [reflexivity|exact Htok]].

Ltac renewal_written c Htok Hr :=
  right; split; [reflexivity|]; split; [lia|];
  eexists; split; [reflexivity|];
  first [ left; split; [reflexivity|]; exists c;
          split; [first [reflexivity|exact Htok]|exact Hr]
        | right; split; [reflexivity|first [reflexivity|exact Hr]] ].

Ltac renewal_failed Htok Hr Hr0 :=
  try rewrite Hr in Hr0;
  first [ discriminate Hr0
        | injection Hr0 as <-; repeat split; first [reflexivity|exact Htok] ].

Ltac renewal_refresh_failed Htok Hr :=
  let Hc := fresh "Hcached" in
  let Hf := fresh "Hfails" in
  intros ? ? Hc ? ? ? Hf;
  first [ discriminate Hc
        | injection Hc as <-; first [congruence|renewal_failed Htok Hr Hf] ].

Ltac renewal_sign_in_failed Htok Hr :=
  let Hc := fresh "Hcached" in
  let Hf := fresh "Hfails" in
  intros ? [Hc|(? & Hc & ? & [?|?])] Hf;
  first [ discriminate Hc
        | injection Hc as <-; congruence
        | renewal_failed Htok Hr Hf ].



(* ================================================================== *)
(** ** Converting there and back *)
(* ================================================================== *)

Module DatetimeOrder.

Import DatetimeFacts.

Lemma days_before_year_succ (y : Z) :
  days_before_year (y + 1)
  = days_before_year y + 365 + (if is_leap y then 1 else 0).
Proof.
  unfold days_before_year, is_leap. cbv zeta.
  replace (y + 1 - 1) with y by lia.
  destruct (Z.eqb_spec (y mod 4) 0), (Z.eqb_spec (y mod 100) 0),
    (Z.eqb_spec (y mod 400) 0); cbn [negb andb orb];
    Z.div_mod_to_equations; lia.
Qed.

Lemma days_before_year_mono (y y' : Z) :
  y <= y' -> days_before_year y <= days_before_year y'.
Proof.
  intros H. unfold days_before_year. cbv zeta.
  Z.div_mod_to_equations. lia.
Qed.

(** The day of the year lies within the year. *)
Lemma day_of_year_bounds (y m d : Z) :
  1 <= m <= 12 -> 1 <= d <= days_in_month y m ->
  1 <= days_before_month y m + d <= 365 + (if is_leap y then 1 else 0).
Proof.
  intros Hm Hd. pose proof (month_table m Hm) as Ht.
  unfold days_before_month, days_in_month in *.
  destruct (is_leap y); rewrite ?andb_true_r, ?andb_false_r in *;
    destruct (2 <? m) eqn:E2; destruct (m =? 2) eqn:E3; lia.
Qed.

(** A month ends before the later months begin. *)
Lemma month_ends_before (y m m' : Z) :
  1 <= m -> m < m' -> m' <= 12 ->
  days_before_month y m + days_in_month y m <= days_before_month y m'.
Proof.
  intros H1 H2 H3. unfold days_before_month, days_in_month.
  assert (Hm : 1 <= m <= 12) by lia. assert (Hm' : 1 <= m' <= 12) by lia.
  destruct (is_leap y); case_month Hm; case_month Hm'; try lia;
    vm_compute; discriminate.
Qed.

Lemma ymd2ord_lt (y m d y' m' d' : Z) :
  1 <= m <= 12 -> 1 <= d <= days_in_month y m ->
  1 <= m' <= 12 -> 1 <= d' <= days_in_month y' m' ->
  y < y' \/ (y = y' /\ (m < m' \/ (m = m' /\ d < d'))) ->
  ymd2ord y m d < ymd2ord y' m' d'.
Proof.
  intros Hm Hd Hm' Hd' H. unfold ymd2ord.
  pose proof (day_of_year_bounds y m d Hm Hd) as B.
  pose proof (day_of_year_bounds y' m' d' Hm' Hd') as B'.
  destruct H as [Hy|[<- [Hmm|[<- Hdd]]]].
  - pose proof (days_before_year_succ y) as Hs.
    pose proof (days_before_year_mono (y + 1) y' ltac:(lia)) as Hmono.
    lia.
  - pose proof (month_ends_before y m m' ltac:(lia) Hmm ltac:(lia)). lia.
  - lia.
Qed.

(** The ordinal tells the date. *)
Lemma ord2ymd_ymd2ord (y m d : Z) :
  1 <= y <= MAXYEAR -> 1 <= m <= 12 -> 1 <= d <= days_in_month y m ->
  ord2ymd (ymd2ord y m d) = (y, m, d).
Proof.
  intros Hy Hm Hd.
  pose proof (toordinal_bounds (mk_datetime y m d 0 0 0 0)
                (fields_valid y m d 0 0 0 0 Hy Hm Hd ltac:(lia) ltac:(lia)
                   ltac:(lia) ltac:(lia))) as Hn.
  unfold toordinal in Hn. cbn [year month day] in Hn.
  destruct (ord2ymd_correct _ Hn) as (y' & m' & d' & Ho & He & Hy' & Hm' & Hd').
  rewrite Ho.
  destruct (Z_lt_ge_dec y y') as [H1|H1];
    [pose proof (ymd2ord_lt y m d y' m' d' Hm Hd Hm' Hd' ltac:(lia)); lia|].
  destruct (Z_lt_ge_dec y' y) as [H2|H2];
    [pose proof (ymd2ord_lt y' m' d' y m d Hm' Hd' Hm Hd ltac:(lia)); lia|].
  assert (y' = y) by lia. subst y'.
  destruct (Z_lt_ge_dec m m') as [H3|H3];
    [pose proof (ymd2ord_lt y m d y m' d' Hm Hd Hm' Hd' ltac:(lia)); lia|].
  destruct (Z_lt_ge_dec m' m) as [H4|H4];
    [pose proof (ymd2ord_lt y m' d' y m d Hm' Hd' Hm Hd ltac:(lia)); lia|].
  assert (m' = m) by lia. subst m'.
  unfold ymd2ord in He. assert (d' = d) by lia. subst d'. reflexivity.
Qed.

(** Addition that lands on the day and second of a well-formed time
    gives that time back. *)
Lemma add_lands (dt target : datetime) (td : timedelta) :
  valid dt = true -> valid target = true ->
  td_microseconds td = 0 ->
  instant dt + td_days td * 86400 + td_seconds td = instant target ->
  microsecond dt = microsecond target ->
  Datetime.add dt td = Ok target.
Proof.
  intros Hv Hvt Hus Hi Hmicro. unfold Datetime.add. rewrite Hus. cbv zeta.
  destruct (valid_fields dt Hv) as (_ & _ & _ & _ & _ & _ & Hm).
  destruct (valid_fields target Hvt) as (Hy & Hmo & Hd & Hh & Hmi & Hs & _).
  pose proof (toordinal_bounds target Hvt) as Ho.
  pose proof (day_seconds_bounds target Hvt) as Hds.
  replace (microsecond dt + 0) with (microsecond dt) by lia.
  rewrite (Z.div_small (microsecond dt)), (Z.mod_small (microsecond dt)) by lia.
  unfold instant in Hi.
  set (s := day_seconds dt + td_seconds td + 0).
  assert (Hs1 : s = day_seconds dt + td_seconds td) by (subst s; lia).
  assert (Hq : toordinal dt + td_days td + s / 86400 = toordinal target
               /\ s mod 86400 = day_seconds target).
  { clearbody s. Z.div_mod_to_equations. lia. }
  destruct Hq as [-> ->].
  replace ((0 <? toordinal target) && (toordinal target <=? MAXORDINAL))
    with true by (symmetry; apply andb_true_iff; split; lia).
  unfold toordinal. rewrite (ord2ymd_ymd2ord _ _ _ Hy Hmo Hd).
  rewrite Hmicro. unfold day_seconds.
  destruct target as [y m d h mi sec us].
  cbn [year month day hour minute second microsecond] in *.
  f_equal. f_equal; Z.div_mod_to_equations; lia.
Qed.

End DatetimeOrder.

(** The fields of a time moved by an offset and then by the opposite
    offset are the fields it had. *)
Lemma to_utc_fields_back (dt u : datetime) (off : Z) :
  valid dt = true -> to_utc dt off = Ok u -> to_utc u (- off) = Ok dt.
Proof.
  intros Hv Hu.
  destruct (to_utc_instant dt u off Hv Hu) as (Hi & Hvu & Hmicro).
  pose proof (DatetimeFacts.toordinal_bounds dt Hv) as Ho.
  pose proof (DatetimeFacts.day_seconds_bounds dt Hv) as Hs.
  pose proof (DatetimeFacts.toordinal_bounds u Hvu) as Hou.
  pose proof (DatetimeFacts.day_seconds_bounds u Hvu) as Hsu.
  unfold instant, MAXORDINAL in *.
  unfold to_utc, rbind, Datetime.sub.
  destruct (timedelta_minutes (- off)) as [td|] eqn:Htd.
  - destruct (DatetimeFacts.timedelta_minutes_total _ _ Htd) as (Ht & _ & Hus).
    destruct (DatetimeFacts.neg_total td Hus) as (Hn & Hnus).
    apply DatetimeOrder.add_lands; try assumption; unfold instant; lia.
  - unfold timedelta_minutes in Htd. cbv zeta in Htd.
    destruct (Z.abs (- off * 60 / 86400) >? 999999999) eqn:Habs; [|discriminate].
    apply Z.gtb_lt in Habs. exfalso.
    revert Habs. Z.div_mod_to_equations. lia.
Qed.

(** [to_utc] with the mark is [to_utc] on the fields, marked UTC. *)
Lemma aware_to_utc_fields (dt : Aware.datetime) (off : Z) :
  Aware.to_utc dt off
  = rbind (to_utc (Aware.fields dt) off)
      (fun moved => Ok (Aware.mk_datetime moved (Some Aware.utc))).
Proof.
  unfold Aware.to_utc, to_utc, Aware.sub, Aware.replace_tzinfo, rbind.
  destruct (timedelta_minutes off) as [offset|]; [|reflexivity].
  destruct (Datetime.sub (Aware.fields dt) offset); reflexivity.
Qed.

Lemma fields_eqb_refl (dt : datetime) : Aware.fields_eqb dt dt = true.
Proof. unfold Aware.fields_eqb. now rewrite !Z.eqb_refl. Qed.

(** X15: [to_utc] there and back.  When a well-formed time converts
    with an offset, the result is marked UTC and has the fields [to_utc]
    computes; converting it with the opposite offset succeeds and gives
    the fields of the original back, marked UTC.  So the round trip
    compares equal to the original exactly when the original was marked
    UTC already; from a naive time, as [strptime] makes them, it is
    never equal to the original. *)
Theorem to_utc_round_trip :
  forall dt off u,
    valid (Aware.fields dt) = true -> Aware.to_utc dt off = Ok u ->
    to_utc (Aware.fields dt) off = Ok (Aware.fields u) /\
    Aware.tzinfo u = Some Aware.utc /\
    Aware.to_utc u (- off)
    = Ok (Aware.mk_datetime (Aware.fields dt) (Some Aware.utc)) /\
    (forall back,
       Aware.to_utc u (- off) = Ok back ->
       Aware.fields back = Aware.fields dt /\
       Aware.tzinfo back = Some Aware.utc /\
       Aware.eqb back dt
       = match Aware.tzinfo dt with Some _ => true | None => false end /\
       (Aware.tzinfo dt = None -> back <> dt)).
Proof.
  intros dt off u Hv Hu. rewrite aware_to_utc_fields in Hu.
  destruct (to_utc (Aware.fields dt) off) as [moved|] eqn:Hm; [|discriminate].
  injection Hu as <-. cbn [Aware.fields Aware.tzinfo].
  assert (Hback : Aware.to_utc (Aware.mk_datetime moved (Some Aware.utc)) (- off)
                  = Ok (Aware.mk_datetime (Aware.fields dt) (Some Aware.utc))).
  { rewrite aware_to_utc_fields. cbn [Aware.fields].
    now rewrite (to_utc_fields_back _ _ _ Hv Hm). }
  split; [reflexivity|]. split; [reflexivity|]. split; [exact Hback|].
  intros back Hb. rewrite Hback in Hb. injection Hb as <-.
  cbn [Aware.fields Aware.tzinfo]. split; [reflexivity|]. split; [reflexivity|].
  split.
  - unfold Aware.eqb. cbn [Aware.fields Aware.tzinfo].
    destruct (Aware.tzinfo dt) as [[]|]; [apply fields_eqb_refl|reflexivity].
  - intros Hn E. rewrite <- E in Hn. discriminate Hn.
Qed.

Lemma to_utc_round_trip_witness :
  valid Sample.start = true /\
  Aware.to_utc (Aware.mk_datetime Sample.start None) 330
  = Ok (Aware.mk_datetime (mk_datetime 2024 1 10 3 30 0 0) (Some Aware.utc)) /\
  Aware.to_utc
    (Aware.mk_datetime (mk_datetime 2024 1 10 3 30 0 0) (Some Aware.utc)) (- 330)
  = Ok (Aware.mk_datetime Sample.start (Some Aware.utc)) /\
  Aware.eqb (Aware.mk_datetime Sample.start (Some Aware.utc))
    (Aware.mk_datetime Sample.start None) = false.
Proof.
  split; [reflexivity|]. split; [reflexivity|].
  destruct (to_utc_round_trip (Aware.mk_datetime Sample.start None) 330
              (Aware.mk_datetime (mk_datetime 2024 1 10 3 30 0 0) (Some Aware.utc))
              eq_refl eq_refl) as (_ & _ & Hback & Hcmp).
  split; [exact Hback|].
  exact (proj1 (proj2 (proj2 (Hcmp _ Hback)))).
Defined.

(* ================================================================== *)
(** ** More on the event *)
(* ================================================================== *)

Lemma dict_lookup_set_same (d : dict) (key : string) (v : pyval) :
  dict_lookup (dict_set d key v) key = Some v.
Proof.
  induction d as [|[k x] rest IH]; cbn [dict_set dict_lookup].
  - now rewrite String.eqb_refl.
  - destruct (String.eqb k key) eqn:E; cbn [dict_lookup]; rewrite E;
      [reflexivity | exact IH].
Qed.

Lemma dict_lookup_set_other (d : dict) (key other : string) (v : pyval) :
  other <> key ->
  dict_lookup (dict_set d key v) other = dict_lookup d other.
Proof.
  intros Hne. induction d as [|[k x] rest IH]; cbn [dict_set dict_lookup].
  - destruct (String.eqb_spec key other); [congruence|reflexivity].
  - destruct (String.eqb_spec k key) as [->|Hk]; cbn [dict_lookup].
    + destruct (String.eqb_spec key other); [congruence|reflexivity].
    + destruct (String.eqb k other); [reflexivity|exact IH].
Qed.

(** X16: the recurrence rule and the rest of the event.  A non-empty
    rule is stored under [recurrence] as a list of that one rule, and
    every other key of the event reads as it does without a rule; an
    empty rule counts as none. *)
Theorem event_body_recurrence :
  forall summary description location start_dt end_dt attendees request_id rule,
    (rule <> "" ->
     dict_lookup
       (event_body summary description location start_dt end_dt attendees
          request_id (Some rule)) "recurrence" = Some (PList [PStr rule]) /\
     forall key,
       key <> "recurrence" ->
       dict_lookup
         (event_body summary description location start_dt end_dt attendees
            request_id (Some rule)) key
       = dict_lookup
           (event_body summary description location start_dt end_dt attendees
              request_id None) key) /\
    event_body summary description location start_dt end_dt attendees
      request_id (Some "")
    = event_body summary description location start_dt end_dt attendees
        request_id None.
Proof.
  intros summary description location start_dt end_dt attendees request_id rule.
  split; [|reflexivity].
  intros Hr. unfold event_body. rewrite (str_truthy_nonempty rule Hr). split.
  - apply dict_lookup_set_same.
  - intros key Hk. now apply dict_lookup_set_other.
Qed.

Lemma event_body_recurrence_witness :
  "RRULE:FREQ=DAILY;COUNT=5" <> "" /\
  dict_lookup
    (event_body "Team Sync" None None Sample.start Sample.finish ["b@x.com"]
       "r1" (Some "RRULE:FREQ=DAILY;COUNT=5")) "recurrence"
  = Some (PList [PStr "RRULE:FREQ=DAILY;COUNT=5"]) /\
  "attendees" <> "recurrence" /\
  dict_lookup
    (event_body "Team Sync" None None Sample.start Sample.finish ["b@x.com"]
       "r1" (Some "RRULE:FREQ=DAILY;COUNT=5")) "attendees"
  = Some (PList [PDict [("email", PStr "b@x.com")]]).
Proof.
  assert (H : "RRULE:FREQ=DAILY;COUNT=5" <> "") by discriminate.
  assert (Hk : "attendees" <> "recurrence") by discriminate.
  destruct (proj1 (event_body_recurrence "Team Sync" None None Sample.start
                     Sample.finish ["b@x.com"] "r1" "RRULE:FREQ=DAILY;COUNT=5") H)
    as [Hrule Hrest].
  split; [exact H|]. split; [exact Hrule|]. split; [exact Hk|].
  rewrite (Hrest "attendees" Hk). reflexivity.
Defined.

(* ================================================================== *)
(** ** The script as a whole *)
(* ================================================================== *)

Lemma load_attendees_outbox (uploaded_file : option (result dataframe))
    (w w' : world) (r : result (list string)) :
  load_attendees uploaded_file w = (r, w') -> w_outbox w' = w_outbox w.
Proof.
  unfold load_attendees, bind, lift, st_error, st_success, ret.
  destruct uploaded_file as [[df|e]|]; try (intros [= <- <-]; reflexivity).
  destruct (negb (df_has_column df "email")); intros [= <- <-]; reflexivity.
Qed.

(** X17: no run of the script delivers an invitation mail: whatever is
    uploaded, whatever the form holds and whatever the services answer,
    the outbox is the same after the run as before.  With the form
    submitted, the custom mail switched on and at least one address in
    the column [email], the run ends in an exception, the [TypeError] of
    the call of [build_ics] at the latest. *)
Theorem script_never_mails :
  forall uploaded_file f w r w',
    script uploaded_file f w = (r, w') ->
    w_outbox w' = w_outbox w /\
    (submitted f = true -> send_custom f = true ->
     (exists df a,
        uploaded_file = Some (Ok df) /\ df_has_column df "email" = true /\
        In (Some a) (df_column df "email")) ->
     exists e, r = Raise e).
Proof.
  intros uploaded_file f w r w'. unfold script, bind.
  destruct (load_attendees uploaded_file w) as [[attendees|e] w1] eqn:Hload.
  - intros Hrun.
    pose proof (load_attendees_outbox _ _ _ _ Hload) as Ho.
    destruct (on_submit_never_mails attendees f w1 w' r Hrun) as [Hout Hraise].
    split; [congruence|].
    intros Hsub Hcustom (df & a & -> & Hcol & Hin).
    apply Hraise; try assumption.
    destruct (proj2 (load_attendees_from_csv df w) Hcol)
      as (loaded & Hl & Hiff & _).
    rewrite Hl in Hload. injection Hload as <- _.
    intros ->. apply Hiff in Hin. destruct Hin.
  - intros [= <- <-]. split; [exact (load_attendees_outbox _ _ _ _ Hload)|].
    intros _ _ _. now exists e.
Qed.

Lemma script_never_mails_witness :
  script (Some (Ok [("email", [Some "b@x.com"; None; Some "c@x.com"])]))
    Sample.the_form Sample.world0
  = (Raise TypeError,
     snd (script (Some (Ok [("email", [Some "b@x.com"; None; Some "c@x.com"])]))
            Sample.the_form Sample.world0)) /\
  w_outbox
    (snd (script (Some (Ok [("email", [Some "b@x.com"; None; Some "c@x.com"])]))
            Sample.the_form Sample.world0))
  = w_outbox Sample.world0 /\
  List.length
    (w_events
       (snd (script (Some (Ok [("email", [Some "b@x.com"; None; Some "c@x.com"])]))
               Sample.the_form Sample.world0))) = 1%nat.
Proof.
  assert (Hrun : script (Some (Ok [("email", [Some "b@x.com"; None; Some "c@x.com"])]))
                   Sample.the_form Sample.world0
                 = (Raise TypeError,
                    snd (script
                           (Some (Ok [("email", [Some "b@x.com"; None; Some "c@x.com"])]))
                           Sample.the_form Sample.world0)))
    by (vm_compute; reflexivity).
  split; [exact Hrun|].
  split; [exact (proj1 (script_never_mails _ _ _ _ _ Hrun))|].
  vm_compute. reflexivity.
Defined.
